(** * QuickShop ETL: a shallow embedding of the per-date pipeline

    The development follows the Python sources of the repository:

    - [quickshop_etl/transforms.py]: [add_order_total], [enrich_with_products],
      [add_order_date_iso], [compute_daily_category_revenue],
      [top_n_products_by_revenue];
    - [quickshop_etl/readers.py]: [find_project_root], [resolve_data_dir],
      [parse_date_column], [read_products], [read_inventory],
      [read_orders_for_date];
    - [quickshop_etl/validation.py]: [validate_dataframe];
    - [quickshop_etl/writers.py]: [_atomic_write_file],
      [write_parquet_partition], [write_summary_json], [write_bad_rows_csv];
    - [quickshop_etl/cli.py]: [run_for_date], [_normalize_date_str], [main].

    A pandas [DataFrame] is a list of column labels together with a list of
    rows, each row a finite map from label to cell; its index is the default
    one, so a row is known by its position.  Cells are 64-bit floats
    (the kernel's binary64), integers, strings and timestamps.  Exceptions are
    values of [exn]; a function that may raise returns a [result].  The file
    system the writers act on is an explicit state.

    What pandas, numpy and pydantic decide by algorithms of their own (how a
    string is read as a number or as a date, in which order floats are summed,
    how group keys are ordered, what a schema accepts) enters through the
    class [Pandas] and the schema argument, and what [datetime] decides
    through the class [Datetime]: every theorem holds for all of their
    implementations, and the examples run on the instances [demo] and
    [demo_datetime]. *)

From Stdlib Require Import ZArith List String Ascii Bool Lia Sorted.
From Stdlib Require Import PrimFloat SpecFloat FloatOps Uint63.
From stdpp Require Import gmap strings list.

Local Open Scope string_scope.
Local Open Scope list_scope.
Local Open Scope Z_scope.

(** ** Exceptions and results *)

Inductive exn : Type :=
| KeyError (msg : string)
| AttributeError (msg : string)
| TypeError (msg : string)
| IntCastingNaNError (msg : string)
| MergeError (msg : string)
| FileNotFoundError (msg : string)
| IndexError (msg : string).

Inductive result (A : Type) : Type :=
| Ok (a : A)
| Raise (e : exn).
Arguments Ok {A} a.
Arguments Raise {A} e.

Definition rbind {A B} (m : result A) (k : A -> result B) : result B :=
  match m with
  | Ok a => k a
  | Raise e => Raise e
  end.

Notation "x <- m ;; k" := (rbind m (fun x => k))
  (at level 100, m at next level, right associativity, only parsing).

(** ** Cells *)

(** A [pandas.Timestamp], broken down in the fields [strftime] reads. *)
Record Timestamp : Type := mkTimestamp {
  ts_year : nat;
  ts_month : nat;
  ts_day : nat;
  ts_nanos : N  (* nanoseconds since midnight *)
}.

Inductive value : Type :=
| VInt (z : Z)
| VFloat (f : float)
| VStr (s : string)
| VTime (t : Timestamp)
| VNaT.

(** [numpy.nan], what pandas puts in a cell that has no value. *)
Definition NaN : value := VFloat PrimFloat.nan.

(** [pandas.isna] on a cell. *)
Definition isna (v : value) : bool :=
  match v with
  | VFloat f => PrimFloat.is_nan f
  | VNaT => true
  | _ => false
  end.

(** A parsed date as a cell: NaT when the parse failed. *)
Definition time_cell (o : option Timestamp) : value :=
  match o with
  | Some t => VTime t
  | None => VNaT
  end.

(** [parsed.isna()] on the result of a date parse. *)
Definition is_NaT (o : option Timestamp) : bool :=
  match o with
  | Some _ => false
  | None => true
  end.

(** ** Float arithmetic as numpy does it *)

(** int64 to float64, rounding to nearest; [z] is an int64.  The
    smallest one, [- 2^63], is apart: its absolute value is no 63-bit
    integer. *)
Definition Z2float (z : Z) : float :=
  if z =? - 2 ^ 63 then
    PrimFloat.opp (PrimFloat.mul (PrimFloat.of_uint63 (Uint63.of_Z (2 ^ 62)))
                     (PrimFloat.of_uint63 (Uint63.of_Z 2)))
  else if z <? 0 then PrimFloat.opp (PrimFloat.of_uint63 (Uint63.of_Z (- z)))
  else PrimFloat.of_uint63 (Uint63.of_Z z).

(** The integer part of a finite float. *)
Definition trunc_float (f : float) : option Z :=
  match Prim2SF f with
  | S754_zero _ => Some 0
  | S754_finite s m e =>
      let a := if 0 <=? e then Z.pos m * 2 ^ e else Z.pos m / 2 ^ (- e) in
      Some (if s then - a else a)
  | _ => None
  end.

Definition two52 : float := Eval cbv in Z2float (2 ^ 52).
Definition hundred : float := Eval cbv in Z2float 100.

(** [numpy.rint]: round half to even, keeping the sign. *)
Definition rint (x : float) : float :=
  if PrimFloat.ltb (PrimFloat.abs x) two52 then
    let r := PrimFloat.sub (PrimFloat.add (PrimFloat.abs x) two52) two52 in
    if PrimFloat.get_sign x then PrimFloat.opp r else r
  else x.

(** [numpy.round(x, 2)]: scale by 100, [rint], scale back. *)
Definition round2 (x : float) : float :=
  PrimFloat.div (rint (PrimFloat.mul x hundred)) hundred.

(** ** Strings *)

(** [str.lower] on ASCII letters (the only ones the labels compared below
    contain). *)
Definition lower_ascii (a : ascii) : ascii :=
  let n := N_of_ascii a in
  if ((65 <=? n) && (n <=? 90))%N then ascii_of_N (n + 32) else a.

Fixpoint lower (s : string) : string :=
  match s with
  | EmptyString => EmptyString
  | String a s' => String (lower_ascii a) (lower s')
  end.

(** Python's [sub in s]. *)
Definition contains (sub s : string) : bool :=
  match String.index 0 sub s with
  | Some _ => true
  | None => false
  end.

(** ** Data frames *)

Record DataFrame : Type := mkDataFrame {
  columns : list string;
  rows : list (gmap string value)
}.

(** [pandas.DataFrame()] *)
Definition empty_frame : DataFrame := mkDataFrame [] [].

(** [len(df)] *)
Definition len (df : DataFrame) : nat := length (rows df).

(** [df.empty]: no row, or no column. *)
Definition df_empty (df : DataFrame) : bool :=
  (length (rows df) =? 0)%nat || (length (columns df) =? 0)%nat.

(** [c in df.columns] *)
Definition has_column (c : string) (df : DataFrame) : bool :=
  bool_decide (c ∈ columns df).

(** The cell of a row under a label; a row that lacks the label reads
    as NaN, as in a frame built from dicts with different keys. *)
Definition cell (r : gmap string value) (c : string) : value :=
  default NaN (r !! c).

(** [df[c]] as the list of its cells. *)
Definition column (c : string) (df : DataFrame) : list value :=
  map (fun r => cell r c) (rows df).

(** [df[c] = col]: replaces the column, or appends it as the last one. *)
Definition setitem (c : string) (col : list value) (df : DataFrame) : DataFrame :=
  {| columns := if has_column c df then columns df else columns df ++ [c];
     rows := zip_with (fun r v => <[c := v]> r) (rows df) col |}.

(** [df[c] = v] for a scalar [v]. *)
Definition setitem_scalar (c : string) (v : value) (df : DataFrame) : DataFrame :=
  setitem c (map (fun _ => v) (rows df)) df.

(** [df.rename(columns={old: new})] *)
Definition rename (old new : string) (df : DataFrame) : DataFrame :=
  {| columns := map (fun c => if String.eqb c old then new else c) (columns df);
     rows := map (fun r => match r !! old with
                           | Some v => <[new := v]> (delete old r)
                           | None => r
                           end) (rows df) |}.

(** What [df.get(c, default)] returns: the default when the label is
    absent, a Series when it occurs once, a DataFrame when it repeats. *)
Inductive selection : Type :=
| Default
| Series (col : list value)
| Frame.

Definition df_get (c : string) (df : DataFrame) : selection :=
  match count_occ string_dec (columns df) c with
  | O => Default
  | S O => Series (column c df)
  | _ => Frame
  end.

(** Boolean indexing [l[mask]]. *)
Fixpoint select {A} (mask : list bool) (l : list A) : list A :=
  match mask, l with
  | b :: mask', x :: l' => if b then x :: select mask' l' else select mask' l'
  | _, _ => []
  end.

(** [df[mask]] *)
Definition df_select (mask : list bool) (df : DataFrame) : DataFrame :=
  {| columns := columns df; rows := select mask (rows df) |}.

(** [pandas.concat([a, b], ignore_index=True)]: the rows of [a] then those
    of [b]; the labels of [a] then the new ones of [b]. *)
Definition df_concat (a b : DataFrame) : DataFrame :=
  {| columns := columns a ++ filter (fun c => c ∉ columns a) (columns b);
     rows := rows a ++ rows b |}.

(** ** What the libraries decide *)

(** A number as [pandas.to_numeric] reads it. *)
Inductive num : Type :=
| NInt (z : Z)
| NFloat (f : float).

Class Pandas : Type := {
  (** [pandas.to_datetime(col, format=fmt, errors="coerce")] at position
      [i] of the column ([None]: NaT).  Without a format pandas infers one
      from the column, so the answer may depend on the other cells. *)
  to_datetime_at : option string -> list value -> nat -> option Timestamp;
  (** [pandas.to_numeric(errors="coerce")] on a cell that is not a number
      already ([None]: NaN). *)
  coerce_numeric : value -> option num;
  (** [Series.sum()] of a float64 column, NaN already read as 0. *)
  fsum : list float -> float;
  (** The sum a [groupby(...).agg(...=(col, 'sum'))] gives for the cells of
      one group. *)
  group_sum : list value -> value;
  (** The order in which [groupby] lists the distinct keys. *)
  sort_keys : list (list value) -> list (list value);
  (** [Series.sort_values(ascending=False)] as the positions it lists. *)
  argsort_desc : list value -> list nat;
  (** [str(v)] for a cell that is not a string. *)
  str_other : value -> string
}.

Section Transforms.
Context `{Pandas}.

(** [pandas.to_datetime(col, format=fmt, errors="coerce")] *)
Definition to_datetime (fmt : option string) (col : list value) : list (option Timestamp) :=
  map (to_datetime_at fmt col) (seq 0 (length col)).

Definition to_numeric_cell (v : value) : option num :=
  match v with
  | VInt z => Some (NInt z)
  | VFloat f => Some (NFloat f)
  | _ => coerce_numeric v
  end.

Definition is_NInt (n : option num) : bool :=
  match n with
  | Some (NInt _) => true
  | _ => false
  end.

(** [pandas.to_numeric(col, errors="coerce")]: int64 when every cell reads
    as an integer, float64 otherwise. *)
Definition to_numeric (col : list value) : list value :=
  let ns := map to_numeric_cell col in
  if forallb is_NInt ns then
    map (fun n => match n with Some (NInt z) => VInt z | _ => NaN end) ns
  else
    map (fun n => match n with
                  | Some (NInt z) => VFloat (Z2float z)
                  | Some (NFloat f) => VFloat f
                  | None => NaN
                  end) ns.

(** [col.fillna(fill)]; in a float64 column an integer fill value is stored
    as a float. *)
Definition fill_value (fill v : value) : value :=
  if isna v then
    match v, fill with
    | VFloat _, VInt z => VFloat (Z2float z)
    | _, _ => fill
    end
  else v.

Definition fillna (fill : value) (col : list value) : list value :=
  map (fill_value fill) col.

Fixpoint map_result {A B} (f : A -> result B) (l : list A) : result (list B) :=
  match l with
  | [] => Ok []
  | x :: l' => y <- f x ;; ys <- map_result f l' ;; Ok (y :: ys)
  end.

(** The cast of a finite float to int64: its integer part, and the smallest
    int64 when that is beyond the int64 range (what the conversion of x86-64
    gives). *)
Definition int64_of_float (f : float) : option Z :=
  match trunc_float f with
  | Some z => Some (if (- 2 ^ 63 <=? z) && (z <? 2 ^ 63) then z else - 2 ^ 63)
  | None => None
  end.

(** [col.astype(int)] on a numeric column. *)
Definition astype_int (col : list value) : result (list value) :=
  map_result (fun v => match v with
                 | VInt z => Ok (VInt z)
                 | VFloat f =>
                     match int64_of_float f with
                     | Some z => Ok (VInt z)
                     | None => Raise (IntCastingNaNError
                                 "Cannot convert non-finite values (NA or inf) to integer")
                     end
                 | _ => Raise (TypeError "int() argument must be a number")
                 end) col.

(** [col.astype(float)] on a numeric column. *)
Definition astype_float (col : list value) : result (list value) :=
  map_result (fun v => match v with
                 | VInt z => Ok (VFloat (Z2float z))
                 | VFloat f => Ok (VFloat f)
                 | _ => Raise (TypeError "float() argument must be a number")
                 end) col.

Definition to_float (v : value) : float :=
  match v with
  | VInt z => Z2float z
  | VFloat f => f
  | _ => PrimFloat.nan
  end.

(** [a * b] for an int64 and a float64 column: a float64 column. *)
Definition mul_series (a b : list value) : list value :=
  zip_with (fun x y => VFloat (PrimFloat.mul (to_float x) (to_float y))) a b.

Definition is_VFloat (v : value) : bool :=
  match v with
  | VFloat _ => true
  | _ => false
  end.

(** [col.round(2)]: a float64 column is rounded, any other is returned
    as it is. *)
Definition round_series (col : list value) : list value :=
  if forallb is_VFloat col then
    map (fun v => match v with VFloat f => VFloat (round2 f) | _ => v end) col
  else col.

(** *** transforms.py: add_order_total *)

(** The loops of lines 14-21: every label accepted by [p] is renamed. *)
Definition rename_matching (p : string -> bool) (new : string) (df : DataFrame) : DataFrame :=
  fold_left (fun d c => if p c then rename c new d else d) (columns df) df.

(** Lines 24 and 25:
    [df[c] = pd.to_numeric(df.get(c, dflt), errors='coerce').fillna(dflt).astype(ty)].
    When the label is absent [to_numeric] hands back the scalar default,
    which has no [fillna]; when it repeats, [df.get] is a frame and
    [to_numeric] refuses it. *)
Definition coerce_column (c : string) (fill : value)
    (astype : list value -> result (list value)) (scalar : string)
    (df : DataFrame) : result DataFrame :=
  match df_get c df with
  | Default => Raise (AttributeError (scalar +:+ " object has no attribute 'fillna'"))
  | Frame => Raise (TypeError "arg must be a list, tuple, 1-d array, or Series")
  | Series col =>
      col' <- astype (fillna fill (to_numeric col)) ;;
      Ok (setitem c col' df)
  end.

(** On values [df_orders.copy()] is [df_orders] itself; what the copy is
    for shows in [Obj.add_order_total] below. *)
Definition add_order_total (df_orders : DataFrame) : result DataFrame :=
  let df := df_orders in
  let df :=
    if negb (has_column "qty" df)
    then rename_matching (fun c => String.eqb (lower c) "qty") "qty" df
    else df in
  let df :=
    if negb (has_column "unit_price" df)
    then rename_matching
           (fun c => bool_decide (lower c ∈ ["unitprice"; "unit_price"; "price"]))
           "unit_price" df
    else df in
  df <- coerce_column "qty" (VInt 0) astype_int "'int'" df ;;
  df <- coerce_column "unit_price" (VFloat 0) astype_float "'float'" df ;;
  Ok (setitem "order_total"
        (round_series (mul_series (column "qty" df) (column "unit_price" df))) df).

(** *** transforms.py: enrich_with_products *)

Definition timestamp_eqb (t u : Timestamp) : bool :=
  (ts_year t =? ts_year u)%nat && (ts_month t =? ts_month u)%nat
  && (ts_day t =? ts_day u)%nat && (ts_nanos t =? ts_nanos u)%N.

(** Equality of merge and group keys: numbers by value, and one missing
    value equals another. *)
Definition value_eqb (a b : value) : bool :=
  match a, b with
  | VInt x, VInt y => x =? y
  | VFloat f, VFloat g =>
      PrimFloat.eqb f g || (PrimFloat.is_nan f && PrimFloat.is_nan g)
  | VInt x, VFloat g => PrimFloat.eqb (Z2float x) g
  | VFloat f, VInt y => PrimFloat.eqb f (Z2float y)
  | VStr s, VStr t => String.eqb s t
  | VTime t, VTime u => timestamp_eqb t u
  | VNaT, VNaT => true
  | _, _ => false
  end.

(** [validate='m:1']: no key occurs twice in the right frame. *)
Fixpoint keys_unique (ks : list value) : bool :=
  match ks with
  | [] => true
  | k :: ks' => negb (existsb (value_eqb k) ks') && keys_unique ks'
  end.

Definition rename_key (old new : string) (r : gmap string value) : gmap string value :=
  match r !! old with
  | Some v => <[new := v]> (delete old r)
  | None => r
  end.

(** The cells a left row takes from the right row it matched ([None]: it
    matched none), under the right frame's labels as suffixed. *)
Definition attach (rcols : list (string * string)) (m : option (gmap string value))
    (l : gmap string value) : gmap string value :=
  fold_left (fun acc c =>
               <[snd c := match m with
                          | Some r => cell r (fst c)
                          | None => NaN
                          end]> acc) rcols l.

(** [labels.duplicated()]: every occurrence of a label after its first. *)
Fixpoint duplicated (seen l : list string) : list bool :=
  match l with
  | [] => []
  | c :: l' => bool_decide (c ∈ seen) :: duplicated (c :: seen) l'
  end.

(** The labels that repeat once suffixed and did not before. *)
Definition suffix_duplicates (labels renamed : list string) : list string :=
  select (zip_with (fun a b => a && negb b) (duplicated [] renamed) (duplicated [] labels))
         renamed.

(** The rows a left row [l] gives: one for each right row with its key, or
    one with NaN in the right frame's columns when there is none. *)
Definition join_row (on : string) (overlap : list string) (rcols : list (string * string))
    (right_rows : list (gmap string value)) (l : gmap string value)
    : list (gmap string value) :=
  let base := fold_left (fun acc c => rename_key c (c +:+ "_x") acc) overlap l in
  match List.filter (fun r => value_eqb (cell l on) (cell r on)) right_rows with
  | [] => [attach rcols None base]
  | ms => map (fun r => attach rcols (Some r) base) ms
  end.

(** [left.merge(right, on=on, how='left', validate='m:1')].  A label the
    two frames share besides the key gets the suffixes [_x] and [_y].  Rows
    keep the order of the left frame.  (When a suffixed label meets a label
    of the other frame the result repeats it, and the rows here keep the
    right frame's cell under it.) *)
Definition merge_left (on : string) (left right : DataFrame) : result DataFrame :=
  let others := List.filter (fun c => negb (String.eqb c on)) (columns right) in
  let overlap := List.filter (fun c => bool_decide (c ∈ columns left)) others in
  let lname := fun c => if bool_decide (c ∈ overlap) then c +:+ "_x" else c in
  let rname := fun c => if bool_decide (c ∈ overlap) then c +:+ "_y" else c in
  let lcols := map lname (columns left) in
  let rcols := map (fun c => (c, rname c)) others in
  if negb (keys_unique (column on right)) then
    Raise (MergeError "Merge keys are not unique in right dataset; not a many-to-one merge")
  else
    match suffix_duplicates (columns left) lcols ++ suffix_duplicates others (map snd rcols) with
    | _ :: _ =>
        Raise (MergeError "Passing 'suffixes' which cause duplicate columns is not allowed")
    | [] =>
        Ok {| columns := lcols ++ map snd rcols;
              rows := flat_map (join_row on overlap rcols (rows right)) (rows left) |}
    end.

(** [repr(l)] for a list of labels. *)
Definition list_repr (l : list string) : string :=
  "[" +:+ String.concat ", " (map (fun c => "'" +:+ c +:+ "'") l) +:+ "]".

(** [df[cols]] for a list of labels: the frame restricted to them.  The
    error names the labels that are missing, or all of them when none is
    there. *)
Definition df_project (cols : list string) (df : DataFrame) : result DataFrame :=
  match List.filter (fun c => negb (has_column c df)) cols with
  | [] =>
      Ok {| columns := cols;
            rows := map (fun r => list_to_map (map (fun c => (c, cell r c)) cols)) (rows df) |}
  | missing =>
      if (length missing =? length cols)%nat
      then Raise (KeyError ("None of [Index(" +:+ list_repr cols
                            +:+ ", dtype='object')] are in the [columns]"))
      else Raise (KeyError (list_repr missing +:+ " not in index"))
  end.

(** [df[c] = pd.to_numeric(df[c], errors='coerce')] *)
Definition coerce_key (c : string) (df : DataFrame) : result DataFrame :=
  if has_column c df then Ok (setitem c (to_numeric (column c df)) df)
  else Raise (KeyError c).

(** [if c in df.columns: df[c] = df[c].fillna(fill)] *)
Definition fill_column (c : string) (fill : value) (df : DataFrame) : DataFrame :=
  if has_column c df then setitem c (fillna fill (column c df)) df else df.

(** The join is always called with its default [how='left']. *)
Definition enrich_with_products (df_orders df_products : DataFrame) : result DataFrame :=
  left <- coerce_key "product_id" df_orders ;;
  right <- coerce_key "product_id" df_products ;;
  right <- df_project ["product_id"; "product_name"; "category"; "price"] right ;;
  enriched <- merge_left "product_id" left (rename "price" "product_price" right) ;;
  let enriched := fill_column "product_name" (VStr "unknown_product") enriched in
  let enriched := fill_column "category" (VStr "unknown_category") enriched in
  Ok enriched.

(** *** transforms.py: add_order_date_iso *)

Fixpoint decimal_aux (fuel n : nat) (acc : string) : string :=
  match fuel with
  | O => acc
  | S fuel' =>
      let acc' := String (ascii_of_nat (48 + n mod 10)) acc in
      if (n / 10 =? 0)%nat then acc' else decimal_aux fuel' (n / 10) acc'
  end.

(** [str(n)] *)
Definition decimal (n : nat) : string := decimal_aux (S n) n "".

Fixpoint zeros (k : nat) : string :=
  match k with
  | O => ""
  | S k' => String "0" (zeros k')
  end.

(** [str(n).zfill(w)] *)
Definition zfill (w n : nat) : string :=
  let s := decimal n in zeros (w - String.length s) +:+ s.

(** [t.strftime('%Y-%m-%d')] *)
Definition strftime_ymd (t : Timestamp) : string :=
  zfill 4 (ts_year t) +:+ "-" +:+ zfill 2 (ts_month t) +:+ "-" +:+ zfill 2 (ts_day t).

(** [pd.api.types.is_datetime64_any_dtype(col)]: a column of timestamps. *)
Definition is_datetime64_any_dtype (col : list value) : bool :=
  forallb (fun v => match v with VTime _ | VNaT => true | _ => false end) col.

Definition as_time (v : value) : option Timestamp :=
  match v with
  | VTime t => Some t
  | _ => None
  end.

(** [col.dt.strftime('%Y-%m-%d')]: NaT gives NaN. *)
Definition dt_strftime (col : list (option Timestamp)) : list value :=
  map (fun o => match o with Some t => VStr (strftime_ymd t) | None => NaN end) col.

Definition add_order_date_iso (df_orders : DataFrame) (date_col out_col : string)
    : result DataFrame :=
  let df := df_orders in
  if negb (has_column date_col df) then
    Raise (KeyError (date_col +:+ " not found in dataframe for add_order_date_iso"))
  else
    let df :=
      if negb (is_datetime64_any_dtype (column date_col df))
      then setitem date_col (map time_cell (to_datetime None (column date_col df))) df
      else df in
    Ok (setitem out_col (dt_strftime (map as_time (column date_col df))) df).

(** *** transforms.py: the aggregation helpers *)

Fixpoint keys_eqb (a b : list value) : bool :=
  match a, b with
  | [], [] => true
  | x :: a', y :: b' => value_eqb x y && keys_eqb a' b'
  | _, _ => false
  end.

(** The distinct keys, each at its first occurrence. *)
Fixpoint distinct_keys (ks : list (list value)) : list (list value) :=
  match ks with
  | [] => []
  | k :: ks' => k :: List.filter (fun k' => negb (keys_eqb k k')) (distinct_keys ks')
  end.

Definition key_of (keys : list string) (r : gmap string value) : list value :=
  map (cell r) keys.

(** The cells of column [src] in the rows of the group [k]. *)
Definition group_cells (keys : list string) (k : list value) (src : string)
    (df : DataFrame) : list value :=
  map (fun r => cell r src)
      (List.filter (fun r => keys_eqb (key_of keys r) k) (rows df)).

(** The row [groupby(keys, dropna=False).agg(out=(src, 'sum'), ...)
    .reset_index()] makes for the group [k]. *)
Definition group_row (keys : list string) (aggs : list (string * string))
    (df : DataFrame) (k : list value) : gmap string value :=
  list_to_map
    (zip keys k
     ++ map (fun a => (fst a, group_sum (group_cells keys k (snd a) df))) aggs).

Definition groupby_sum (keys : list string) (aggs : list (string * string))
    (df : DataFrame) : result DataFrame :=
  match List.find (fun c => negb (has_column c df)) (keys ++ map snd aggs) with
  | Some c => Raise (KeyError c)
  | None =>
      Ok {| columns := keys ++ map fst aggs;
            rows := map (group_row keys aggs df)
                        (sort_keys (distinct_keys (map (key_of keys) (rows df)))) |}
  end.

(** Lines 86-91 of [compute_daily_category_revenue]: the aggregation
    itself, on the frame the guards above it leave. *)
Definition daily_category_aggregate (df : DataFrame) : result DataFrame :=
  agg <- groupby_sum ["order_date_iso"; "category"]
           [("total_revenue", "order_total"); ("total_units", "qty")] df ;;
  Ok (setitem "total_revenue" (round_series (column "total_revenue" agg)) agg).

Definition compute_daily_category_revenue (df_enriched : DataFrame) : result DataFrame :=
  let df := df_enriched in
  df <- (if negb (has_column "order_total" df) then add_order_total df else Ok df) ;;
  df <- (if negb (has_column "order_date_iso" df)
         then add_order_date_iso df "order_date" "order_date_iso" else Ok df) ;;
  daily_category_aggregate df.

(** [df.sort_values(c, ascending=False)] *)
Definition sort_values_desc (c : string) (df : DataFrame) : DataFrame :=
  {| columns := columns df;
     rows := omap (fun i => rows df !! i) (argsort_desc (column c df)) |}.

(** [df.head(n)]: the first [n] rows, or all but the last [-n]. *)
Definition df_head (n : Z) (df : DataFrame) : DataFrame :=
  {| columns := columns df;
     rows := if 0 <=? n then take (Z.to_nat n) (rows df)
             else take (length (rows df) - Z.to_nat (- n)) (rows df) |}.

(** Lines 101-107 of [top_n_products_by_revenue]. *)
Definition top_products_aggregate (df : DataFrame) (n : Z) : result DataFrame :=
  agg <- groupby_sum ["product_id"; "product_name"; "category"]
           [("total_revenue", "order_total"); ("total_units", "qty")] df ;;
  let agg := df_head n (sort_values_desc "total_revenue" agg) in
  Ok (setitem "total_revenue" (round_series (column "total_revenue" agg)) agg).

Definition top_n_products_by_revenue (df_enriched : DataFrame) (n : Z) : result DataFrame :=
  let df := df_enriched in
  df <- (if negb (has_column "order_total" df) then add_order_total df else Ok df) ;;
  top_products_aggregate df n.

End Transforms.

(** ** transforms.py on objects

    The functions above read transforms.py on values.  In Python a table is
    an object: [df[c] = col] changes the object that [df] names, while
    [df.copy()], [df.rename(...)], [groupby(...).agg(...)], [sort_values]
    and [head] make a new one.  The procedures of [Obj] run the same
    statements on a store of objects, so that what a call does to the table
    it was handed can be told. *)

Module Obj.

(** A name of an object: its place in the store. *)
Definition ref : Type := nat.

(** The store: the objects made so far. *)
Abbreviation Store := (list DataFrame).

(** A procedure: it may raise, and it leaves a store. *)
Definition Py (A : Type) : Type := Store -> result A * Store.

Definition ret {A} (a : A) : Py A := fun st => (Ok a, st).

Definition bind {A B} (m : Py A) (k : A -> Py B) : Py B :=
  fun st =>
    match m st with
    | (Ok a, st') => k a st'
    | (Raise e, st') => (Raise e, st')
    end.

Definition lift {A} (r : result A) : Py A := fun st => (r, st).

Notation "x <~ m ;; k" := (bind m (fun x => k))
  (at level 100, m at next level, right associativity, only parsing).
Notation "m ;;; k" := (bind m (fun _ => k))
  (at level 100, right associativity, only parsing).

(** The table a name refers to (every name the procedures hold refers to
    one: the default is never read). *)
Definition get (r : ref) : Py DataFrame :=
  fun st => (Ok (default empty_frame (st !! r)), st).

(** A new object. *)
Definition new (d : DataFrame) : Py ref :=
  fun st => (Ok (length st), st ++ [d]).

(** The object [r] becomes [d]. *)
Definition put (r : ref) (d : DataFrame) : Py unit :=
  fun st => (Ok tt, <[r := d]> st).

(** A statement [df[c] = e]: [e] is computed from the object, which may
    raise; then the object is changed in place. *)
Definition assign (f : DataFrame -> result DataFrame) (r : ref) : Py unit :=
  d <~ get r ;;
  d' <~ lift (f d) ;;
  put r d'.

(** [df.copy()] *)
Definition copy (r : ref) : Py ref :=
  d <~ get r ;;
  new d.

Section Procedures.
Context `{Pandas}.

(** The loops of lines 14-21: [for c in df.columns] runs over the labels of
    the object [df] names when the loop starts; every [df = df.rename(...)]
    makes a new object and gives [df] to it. *)
Definition rename_matching (p : string -> bool) (new_label : string) (df : ref) : Py ref :=
  d <~ get df ;;
  fold_left (fun m c =>
               df <~ m ;;
               if p c then (d <~ get df ;; new (rename c new_label d)) else ret df)
            (columns d) (ret df).

Definition add_order_total (df_orders : ref) : Py ref :=
  df <~ copy df_orders ;;
  d <~ get df ;;
  df <~ (if negb (has_column "qty" d)
         then rename_matching (fun c => String.eqb (lower c) "qty") "qty" df
         else ret df) ;;
  d <~ get df ;;
  df <~ (if negb (has_column "unit_price" d)
         then rename_matching
                (fun c => bool_decide (lower c ∈ ["unitprice"; "unit_price"; "price"]))
                "unit_price" df
         else ret df) ;;
  assign (coerce_column "qty" (VInt 0) astype_int "'int'") df ;;;
  assign (coerce_column "unit_price" (VFloat 0) astype_float "'float'") df ;;;
  assign (fun d => Ok (setitem "order_total"
                         (round_series (mul_series (column "qty" d) (column "unit_price" d)))
                         d)) df ;;;
  ret df.

Definition add_order_date_iso (df_orders : ref) (date_col out_col : string) : Py ref :=
  df <~ copy df_orders ;;
  d <~ get df ;;
  if negb (has_column date_col d) then
    lift (Raise (KeyError (date_col +:+ " not found in dataframe for add_order_date_iso")))
  else
    (if negb (is_datetime64_any_dtype (column date_col d))
     then assign (fun d => Ok (setitem date_col
                                 (map time_cell (to_datetime None (column date_col d))) d)) df
     else ret tt) ;;;
    assign (fun d => Ok (setitem out_col (dt_strftime (map as_time (column date_col d))) d))
           df ;;;
    ret df.

Definition compute_daily_category_revenue (df_enriched : ref) : Py ref :=
  df <~ copy df_enriched ;;
  d <~ get df ;;
  df <~ (if negb (has_column "order_total" d) then add_order_total df else ret df) ;;
  d <~ get df ;;
  df <~ (if negb (has_column "order_date_iso" d)
         then add_order_date_iso df "order_date" "order_date_iso"
         else ret df) ;;
  d <~ get df ;;
  a <~ lift (groupby_sum ["order_date_iso"; "category"]
               [("total_revenue", "order_total"); ("total_units", "qty")] d) ;;
  agg <~ new a ;;
  assign (fun a => Ok (setitem "total_revenue" (round_series (column "total_revenue" a)) a))
         agg ;;;
  ret agg.

Definition top_n_products_by_revenue (df_enriched : ref) (n : Z) : Py ref :=
  df <~ copy df_enriched ;;
  d <~ get df ;;
  df <~ (if negb (has_column "order_total" d) then add_order_total df else ret df) ;;
  d <~ get df ;;
  a <~ lift (groupby_sum ["product_id"; "product_name"; "category"]
               [("total_revenue", "order_total"); ("total_units", "qty")] d) ;;
  agg <~ new a ;;
  a <~ get agg ;;
  sorted <~ new (sort_values_desc "total_revenue" a) ;;
  a <~ get sorted ;;
  agg <~ new (df_head n a) ;;
  assign (fun a => Ok (setitem "total_revenue" (round_series (column "total_revenue" a)) a))
         agg ;;;
  ret agg.

End Procedures.

End Obj.

(** ** readers.py *)

Section Readers.
Context `{Pandas}.

(** [str(date_format)] inside the f-string of line 86. *)
Definition format_repr (date_format : option string) : string :=
  match date_format with
  | Some f => f
  | None => "None"
  end.

(** Line 78, [if date_format:]: [None] and the empty string both take the
    inferring branch. *)
Definition strict_format (date_format : option string) : option string :=
  match date_format with
  | Some "" => None
  | f => f
  end.

(** Line 79/81: the first parse of the column. *)
Definition strict_parsed (df : DataFrame) (column_name : string)
    (date_format : option string) : list (option Timestamp) :=
  to_datetime (strict_format date_format) (column column_name df).

(** The text of line 86. *)
Definition parse_error_msg (column_name : string) (date_format : option string) : value :=
  VStr ("Failed to parse '" +:+ column_name +:+ "' with format='"
        +:+ format_repr date_format +:+ "'").

(** Lines 83-86: the rows the first parse left, tagged with its error. *)
Definition strict_bad (df : DataFrame) (column_name : string)
    (date_format : option string) : DataFrame :=
  let bad_mask := map is_NaT (strict_parsed df column_name date_format) in
  let bad_df := df_select bad_mask df in
  if negb (df_empty bad_df) then
    setitem_scalar "_parse_error" (parse_error_msg column_name date_format) bad_df
  else bad_df.

(** Line 93: the second parse, of those rows only. *)
Definition fallback_parsed (df : DataFrame) (column_name : string)
    (date_format : option string) : list (option Timestamp) :=
  to_datetime None (column column_name (strict_bad df column_name date_format)).

Definition parse_date_column (df : DataFrame) (column_name : string)
    (date_format : option string) : result (DataFrame * DataFrame) :=
  if negb (has_column column_name df) then
    Raise (KeyError ("Column '" +:+ column_name +:+ "' not in dataframe"))
  else
    let parsed := strict_parsed df column_name date_format in
    let bad_mask := map is_NaT parsed in
    let bad_df := strict_bad df column_name date_format in
    let good_df := df_select (map negb bad_mask) df in
    let good_df :=
      setitem column_name (select (map negb bad_mask) (map time_cell parsed)) good_df in
    if negb (df_empty bad_df) then
      let fallback := fallback_parsed df column_name date_format in
      let still_bad_mask := map is_NaT fallback in
      let fallback_good := df_select (map negb still_bad_mask) bad_df in
      let fallback_good :=
        setitem column_name
          (select (map negb still_bad_mask) (map time_cell fallback)) fallback_good in
      let final_bad := df_select still_bad_mask bad_df in
      let final_bad :=
        setitem_scalar "_parse_error" (VStr "Flexible parsing also failed") final_bad in
      Ok (df_concat good_df fallback_good, final_bad)
    else
      Ok (good_df, bad_df).

(** A data directory: its files in the order [Path.iterdir] lists them,
    each with the frame [pandas.read_csv] makes of it. *)
Definition DataDir : Type := list (string * DataFrame).

Definition read_products (data : DataDir) (base : string)
    : result (DataFrame * DataFrame) :=
  match List.find (fun f => String.eqb (fst f) "products.csv") data with
  | None => Raise (FileNotFoundError ("products.csv not found in " +:+ base))
  | Some f => Ok (snd f, empty_frame)
  end.

Definition read_inventory (data : DataDir) (base : string)
    : result (DataFrame * DataFrame) :=
  match List.find (fun f => String.eqb (fst f) "inventory.csv") data with
  | None => Raise (FileNotFoundError ("inventory.csv not found in " +:+ base))
  | Some f => parse_date_column (snd f) "last_restock_date" (Some "%Y-%m-%d")
  end.

(** Lines 132-135: the files whose name holds the date and "order". *)
Definition order_candidates (date_str : string) (data : DataDir) : DataDir :=
  List.filter (fun f => contains date_str (fst f) && contains "order" (lower (fst f))) data.

Definition read_orders_for_date (date_str : string) (data : DataDir) (base : string)
    : result (DataFrame * DataFrame) :=
  match order_candidates date_str data with
  | [] => Raise (FileNotFoundError ("No order file for date " +:+ date_str +:+ " in " +:+ base))
  | f :: _ => parse_date_column (snd f) "order_date" (Some "%Y-%m-%d")
  end.

End Readers.

(** ** validation.py *)

(** A pydantic model class, by what [parse_obj] does with a row's dict:
    [Some msg] when it raises, [msg] being [str(e)]. *)
Definition Schema : Type := gmap string value -> option string.

(** A cell of a numeric column. *)
Definition is_numeric (v : value) : bool :=
  match v with
  | VInt _ | VFloat _ => true
  | _ => false
  end.

Definition is_VInt (v : value) : bool :=
  match v with
  | VInt _ => true
  | _ => false
  end.

(** The dtype of [df.values], which is that of the rows [df.iterrows()]
    yields: int64 when every cell of the frame is an integer, float64 when
    every cell is a number and one is a float (a cell a row lacks is NaN, a
    float), object otherwise. *)
Inductive dtype : Type :=
| Int64
| Float64
| Object.

Definition values_dtype (df : DataFrame) : dtype :=
  let cells := flat_map (fun r => map (cell r) (columns df)) (rows df) in
  if forallb is_VInt cells then Int64
  else if forallb is_numeric cells then Float64
  else Object.

(** A cell in a row of that dtype: an integer becomes a float in a float64
    row. *)
Definition upcast (t : dtype) (v : value) : value :=
  match t, v with
  | Float64, VInt z => VFloat (Z2float z)
  | _, _ => v
  end.

(** The rows [df.reset_index(drop=True).iterrows()] yields. *)
Definition iterrows (df : DataFrame) : list (gmap string value) :=
  map (fmap (upcast (values_dtype df))) (rows df).

(** The loop of lines 37-49, on the rows [iterrows] yields. *)
Fixpoint validate_rows (schema : Schema) (rs : list (gmap string value))
    : list (gmap string value) * list (gmap string value) :=
  match rs with
  | [] => ([], [])
  | row :: rs' =>
      let '(good_rows, bad_rows) := validate_rows schema rs' in
      match schema row with
      | None => (row :: good_rows, bad_rows)
      | Some err => (good_rows, <["_error" := VStr err]> row :: bad_rows)
      end
  end.

(** [pandas.DataFrame(records)] for a list of rows that share the labels
    [cols]; a frame with no label when the list is empty. *)
Definition frame_of_records (cols : list string) (rs : list (gmap string value)) : DataFrame :=
  match rs with
  | [] => empty_frame
  | _ => mkDataFrame cols rs
  end.

Definition validate_dataframe (df : DataFrame) (schema : Schema) : DataFrame * DataFrame :=
  let '(good_rows, bad_rows) := validate_rows schema (iterrows df) in
  (frame_of_records (columns df) good_rows,
   frame_of_records
     (if has_column "_error" df then columns df else columns df ++ ["_error"]) bad_rows).

(** ** writers.py *)

(** A path, by its components from the root. *)
Definition path : Type := list string.

(** [p / name] *)
Definition path_join (p : path) (name : string) : path := p ++ [name].

(** What a file holds: the frame or the dict that was serialised into it. *)
Inductive content : Type :=
| Parquet (df : DataFrame)
| Csv (df : DataFrame)
| Json (obj : list (string * value)).

Record FileSystem : Type := mkFileSystem {
  dirs : gset path;
  files : gmap path content
}.

(** A computation on the file system that may raise; the writes made before
    an exception stay. *)
Definition IO (A : Type) : Type := FileSystem -> result A * FileSystem.

Definition io_ret {A} (a : A) : IO A := fun fs => (Ok a, fs).

Definition io_raise {A} (e : exn) : IO A := fun fs => (Raise e, fs).

Definition io_bind {A B} (m : IO A) (k : A -> IO B) : IO B :=
  fun fs =>
    match m fs with
    | (Ok a, fs') => k a fs'
    | (Raise e, fs') => (Raise e, fs')
    end.

Definition io_lift {A} (r : result A) : IO A := fun fs => (r, fs).

(** A step that changes the file system and cannot raise. *)
Definition io_do (f : FileSystem -> FileSystem) : IO unit := fun fs => (Ok tt, f fs).

Notation "x <~ m ;; k" := (io_bind m (fun x => k))
  (at level 100, m at next level, right associativity, only parsing).
Notation "m ;;; k" := (io_bind m (fun _ => k))
  (at level 100, right associativity, only parsing).

Definition prefixes (p : path) : list path :=
  map (fun n => take n p) (seq 1 (length p)).

(** [p.mkdir(parents=True, exist_ok=True)] *)
Definition mkdir_parents (p : path) (fs : FileSystem) : FileSystem :=
  {| dirs := dirs fs ∪ list_to_set (prefixes p); files := files fs |}.

(** Creating or overwriting the file [p]. *)
Definition write_file (p : path) (c : content) (fs : FileSystem) : FileSystem :=
  {| dirs := dirs fs; files := <[p := c]> (files fs) |}.

(** [os.replace(src, dst)] *)
Definition os_replace (src dst : path) (fs : FileSystem) : FileSystem :=
  match files fs !! src with
  | Some c => {| dirs := dirs fs; files := <[dst := c]> (delete src (files fs)) |}
  | None => fs
  end.

(** [shutil.rmtree(p)] *)
Definition rmtree (p : path) (fs : FileSystem) : FileSystem :=
  {| dirs := filter (fun d => ¬ p `prefix_of` d) (dirs fs);
     files := filter (fun kv => ¬ p `prefix_of` kv.1) (files fs) |}.

(** ** readers.py: where the data directory is *)

(** The exceptions of the directory search and of the command line. *)
Inductive sys_exn : Type :=
| NotADirectoryError (msg : string)
| ValueError (msg : string)
| OverflowError (msg : string).

Inductive sys_result (A : Type) : Type :=
| Returns (a : A)
| Raises (e : sys_exn).
Arguments Returns {A} a.
Arguments Raises {A} e.

(** [p.exists()] *)
Definition path_exists (p : path) (fs : FileSystem) : bool :=
  bool_decide (p ∈ dirs fs) || bool_decide (is_Some (files fs !! p)).

(** [p.parent]; the root is its own parent. *)
Definition parent (p : path) : path := removelast p.

(** [p.iterdir()]: the entries of the directory [p]. *)
Definition iterdir (p : path) (fs : FileSystem) : gset path :=
  filter (fun q => q ≠ [] ∧ parent q = p) (dirs fs ∪ dom (files fs)).

Definition PROJECT_MARKERS : list string :=
  ["pyproject.toml"; "setup.py"; "requirements.txt"; ".git"].

Section DataDirectory.
(** [p.resolve()]: the path with its symbolic links followed. *)
Variable resolve : path -> path.
(** [Path.cwd()] and [Path(__file__)]. *)
Variable cwd : path.
Variable this_file : path.

(** The loop of lines 11-18, with [n] turns left. *)
Fixpoint find_project_root_from (n : nat) (cur : path) (fs : FileSystem) : option path :=
  match n with
  | O => None
  | S n' =>
      if path_exists (path_join cur "data") fs then Some cur
      else if existsb (fun m => path_exists (path_join cur m) fs) PROJECT_MARKERS then Some cur
      else if bool_decide (parent cur = cur) then None
      else find_project_root_from n' (parent cur) fs
  end.

Definition find_project_root (start : path) (fs : FileSystem) : option path :=
  find_project_root_from 10 (resolve start) fs.

(** [explicit] is [None] for Python's [None] and for the empty string:
    [if explicit:] takes neither. *)
Definition resolve_data_dir (explicit : option path) (fs : FileSystem) : sys_result path :=
  let given :=
    match explicit with
    | Some p => if path_exists p fs then Some (resolve p) else None
    | None => None
    end in
  match given with
  | Some p => Returns p
  | None =>
      let project_root := parent (parent (resolve this_file)) in
      let candidate := path_join project_root "data" in
      if path_exists candidate fs then Returns candidate
      else
        let found :=
          match find_project_root cwd fs with
          | Some root =>
              let candidate := path_join root "data" in
              if path_exists candidate fs then Some (resolve candidate) else None
          | None => None
          end in
        match found with
        | Some p => Returns p
        | None =>
            let mnt := ["mnt"; "data"] in
            if path_exists mnt fs then
              if bool_decide (mnt ∈ dirs fs) then
                if bool_decide (iterdir mnt fs ≠ ∅) then Returns mnt
                else Returns (resolve cwd)
              else Raises (NotADirectoryError "[Errno 20] Not a directory: '/mnt/data'")
            else Returns (resolve cwd)
        end
  end.

End DataDirectory.

Section Writers.
Context `{Pandas}.
(** The directory [tempfile.mkdtemp(prefix="tmp_parquet_")] creates. *)
Variable mkdtemp : FileSystem -> path.

(** [str(v)], as an f-string formats a cell. *)
Definition py_str (v : value) : string :=
  match v with
  | VStr s => s
  | _ => str_other v
  end.

Definition _atomic_write_file (src dst : path) : IO unit :=
  io_do (mkdir_parents (removelast dst)) ;;;
  io_do (os_replace src dst).

Definition write_parquet_partition (df : DataFrame) (partition_value : value)
    (output_dir : path) : IO path :=
  let outdir := path_join output_dir ("date=" +:+ py_str partition_value) in
  fun fs0 =>
    let outdir_tmp := mkdtemp fs0 in
    (io_do (mkdir_parents outdir_tmp) ;;;
     let tmp_file := path_join outdir_tmp "data.parquet" in
     io_do (write_file tmp_file (Parquet df)) ;;;
     let final_file := path_join outdir "data.parquet" in
     io_do (mkdir_parents outdir) ;;;
     _atomic_write_file tmp_file final_file ;;;
     io_do (rmtree outdir_tmp) ;;;
     io_ret final_file) fs0.

(** [summary.get(k, dflt)] on a dict in insertion order. *)
Definition dict_get (k : string) (obj : list (string * value)) : option value :=
  snd <$> List.find (fun kv => String.eqb (fst kv) k) obj.

Definition write_summary_json (summary : list (string * value)) (output_dir : path)
    : IO path :=
  let outdir := output_dir in
  io_do (mkdir_parents outdir) ;;;
  let filename :=
    "summary_" +:+ match dict_get "date" summary with
                  | Some v => py_str v
                  | None => "run"
                  end +:+ ".json" in
  let tmp := path_join outdir (filename +:+ ".tmp") in
  let final := path_join outdir filename in
  io_do (write_file tmp (Json summary)) ;;;
  io_do (os_replace tmp final) ;;;
  io_ret final.

(** [bad_df] is [None] when the caller passes Python's [None]. *)
Definition write_bad_rows_csv (bad_df : option DataFrame) (name : string)
    (output_dir : path) : IO (option path) :=
  let outdir := output_dir in
  io_do (mkdir_parents outdir) ;;;
  match bad_df with
  | None => io_ret None
  | Some df =>
      if df_empty df then io_ret None
      else
        let target := path_join outdir (name +:+ ".csv") in
        let tmp := path_join outdir ("." +:+ name +:+ ".csv.tmp") in
        io_do (write_file tmp (Csv df)) ;;;
        io_do (os_replace tmp target) ;;;
        io_ret (Some target)
  end.

(** ** cli.py *)

Record Summary : Type := mkSummary {
  s_date : string;
  s_rows : nat;
  s_revenue : float;
  s_bad_rows : nat;
  s_parquet_path : option path
}.

(** The pydantic class [OrderSchema]. *)
Variable OrderSchema : Schema.

(** [col.sum()]: NaN counts as 0. *)
Definition series_sum (col : list value) : float :=
  fsum (map (fun v => let f := to_float v in
                      if PrimFloat.is_nan f then 0%float else f) col).

(** [pd.concat(frames, ignore_index=True)] for a non-empty list. *)
Definition concat_all (frames : list DataFrame) : option DataFrame :=
  match frames with
  | [] => None
  | d :: ds => Some (fold_left df_concat ds d)
  end.

(** Steps 5 to 7 of [run_for_date]. *)
Definition transform (orders_valid products_df : DataFrame) : result DataFrame :=
  enriched <- add_order_total orders_valid ;;
  enriched <- enrich_with_products enriched products_df ;;
  add_order_date_iso enriched "order_date" "order_date_iso".

(** Lines 55-59: bad product rows are written outside dry-run. *)
Definition quarantine_products (products_bad : DataFrame) (out_base : path)
    (dry_run : bool) : IO unit :=
  if negb (df_empty products_bad) && negb dry_run
  then write_bad_rows_csv (Some products_bad) "products-bad" (path_join out_base "bad_rows")
       ;;; io_ret tt
  else io_ret tt.

(** Lines 68-77: the bad rows of parsing and of validation, in one frame;
    [None] when there is none. *)
Definition combine_bad_rows (orders_parsed_bad orders_valid_bad : DataFrame)
    : option DataFrame :=
  concat_all
    ((if negb (df_empty orders_parsed_bad) then [orders_parsed_bad] else [])
     ++ (if negb (df_empty orders_valid_bad) then [orders_valid_bad] else [])).

(** [len(bad_orders_df) if bad_orders_df is not None else 0] *)
Definition count_bad (bad_orders_df : option DataFrame) : nat :=
  match bad_orders_df with
  | Some d => len d
  | None => O
  end.

(** Lines 88-89 and 120-121: the bad rows of the date, when there are
    some. *)
Definition flush_bad_rows (bad_orders_df : option DataFrame) (date_str : string)
    (out_base : path) : IO unit :=
  match bad_orders_df with
  | Some d =>
      if negb (df_empty d)
      then write_bad_rows_csv (Some d) ("orders-" +:+ date_str +:+ "-bad")
             (path_join out_base "bad_rows") ;;; io_ret tt
      else io_ret tt
  | None => io_ret tt
  end.

(** Lines 109-121: the partition, the summary file and the bad rows. *)
Definition write_outputs (enriched : DataFrame) (rows_processed : nat)
    (total_revenue : float) (bad_orders_df : option DataFrame) (date_str : string)
    (out_base : path) : IO path :=
  partition_value <~
    io_lift (match column "order_date_iso" enriched with
             | v :: _ => Ok v
             | [] => Raise (IndexError "single positional indexer is out-of-bounds")
             end) ;;
  parquet_path <~
    write_parquet_partition enriched partition_value (path_join out_base "processed") ;;
  let summary_obj :=
    [("date", partition_value); ("rows", VInt (Z.of_nat rows_processed));
     ("revenue", VFloat total_revenue)] in
  write_summary_json summary_obj (path_join out_base "summaries") ;;;
  flush_bad_rows bad_orders_df date_str out_base ;;;
  io_ret parquet_path.

(** Line 103: the revenue of the enriched frame. *)
Definition total_revenue_of (enriched : DataFrame) : float :=
  if has_column "order_total" enriched
  then round2 (series_sum (column "order_total" enriched))
  else 0%float.

(** [data] is the directory [data_path] names, [out_base] the output
    root. *)
Definition run_for_date (date_str : string) (data : DataDir) (data_path : string)
    (out_base : path) (dry_run : bool) : IO Summary :=
  products <~ io_lift (read_products data data_path) ;;
  let '(products_df, products_bad) := products in
  quarantine_products products_bad out_base dry_run ;;;
  orders <~ io_lift (read_orders_for_date date_str data data_path) ;;
  let '(orders_parsed_good, orders_parsed_bad) := orders in
  let '(orders_valid, orders_valid_bad) :=
    validate_dataframe orders_parsed_good OrderSchema in
  let bad_orders_df := combine_bad_rows orders_parsed_bad orders_valid_bad in
  if df_empty orders_valid then
    let summary :=
      {| s_date := date_str; s_rows := 0; s_revenue := 0%float;
         s_bad_rows := count_bad bad_orders_df; s_parquet_path := None |} in
    (if negb dry_run then flush_bad_rows bad_orders_df date_str out_base else io_ret tt) ;;;
    io_ret summary
  else
    enriched <~ io_lift (transform orders_valid products_df) ;;
    let total_revenue := total_revenue_of enriched in
    let rows_processed := len enriched in
    parquet_path <~
      (if negb dry_run then
         parquet_path <~
           write_outputs enriched rows_processed total_revenue bad_orders_df date_str
             out_base ;;
         io_ret (Some parquet_path)
       else io_ret None) ;;
    io_ret {| s_date := date_str; s_rows := rows_processed; s_revenue := total_revenue;
              s_bad_rows := count_bad bad_orders_df; s_parquet_path := parquet_path |}.

End Writers.

(** ** cli.py: the command line *)

(** [s.replace(a, "")] for a one-character [a]. *)
Fixpoint remove_char (a : ascii) (s : string) : string :=
  match s with
  | EmptyString => EmptyString
  | String b s' => if Ascii.eqb a b then remove_char a s' else String b (remove_char a s')
  end.

Definition _normalize_date_str (s : string) : string :=
  if contains "-" s then remove_char "-" s else s.

(** What [datetime] and [str] decide.  A day is its proleptic Gregorian
    ordinal, [d.toordinal()]: the days of [main] are all at midnight, so
    they compare as their ordinals do, and [d + timedelta(days=1)] is the
    next ordinal. *)
Class Datetime : Type := {
  (** [datetime.strptime(s, "%Y%m%d")], or the message of its ValueError. *)
  strptime : string -> Z + string;
  (** [d.strftime("%Y%m%d")] *)
  strftime : Z -> string;
  (** [str(e)] *)
  str_exn : exn -> string
}.

(** [datetime.max.toordinal()]: the day 9999-12-31. *)
Definition MAXORDINAL : Z := 3652059.

(** The arguments [parse_args] hands over; [--data-dir] and [--output-dir]
    are read below as the directories they name. *)
Record Args : Type := mkArgs {
  start_date : string;
  end_date : option string;
  dry_run : bool
}.

(** What [results] holds for a date: the summary of its run, or
    [{"error": str(e)}]. *)
Inductive entry : Type :=
| Done (summary : Summary)
| Failed (error : string).

(** [d[k] = v] on a dict in insertion order. *)
Fixpoint dict_set {V} (k : string) (v : V) (d : list (string * V)) : list (string * V) :=
  match d with
  | [] => [(k, v)]
  | kv :: d' => if String.eqb (fst kv) k then (k, v) :: d' else kv :: dict_set k v d'
  end.

Section Main.
Context `{Pandas} `{Datetime}.
Variable mkdtemp : FileSystem -> path.
Variable OrderSchema : Schema.
(** The data directory and the output root of the runs. *)
Variable data : DataDir.
Variable data_path : string.
Variable out_base : path.

(** The loop of lines 162-170; [days] counts the turns for which
    [cur <= end_dt] holds. *)
Fixpoint run_dates (days : nat) (cur : Z) (dry : bool) (results : list (string * entry))
    (fs : FileSystem) : sys_result (list (string * entry)) * FileSystem :=
  match days with
  | O => (Returns results, fs)
  | S days' =>
      let ds := strftime cur in
      let '(res, fs') := run_for_date mkdtemp OrderSchema ds data data_path out_base dry fs in
      let results :=
        dict_set ds (match res with
                     | Ok summary => Done summary
                     | Raise e => Failed (str_exn e)
                     end) results in
      if cur <? MAXORDINAL then run_dates days' (cur + 1) dry results fs'
      else (Raises (OverflowError "date value out of range"), fs')
  end.

(** [main] returns the dict it prints. *)
Definition main (args : Args) (fs : FileSystem)
    : sys_result (list (string * entry)) * FileSystem :=
  let start := _normalize_date_str (start_date args) in
  let end_ :=
    match end_date args with
    | Some (String a e) => _normalize_date_str (String a e)
    | _ => start
    end in
  match strptime start with
  | inr msg => (Raises (ValueError msg), fs)
  | inl start_dt =>
      match strptime end_ with
      | inr msg => (Raises (ValueError msg), fs)
      | inl end_dt =>
          run_dates (Z.to_nat (end_dt - start_dt + 1)) start_dt (dry_run args) [] fs
      end
  end.

End Main.

(** ** An instance to run examples on

    [demo] reads decimal integers as numbers and [YYYY-MM-DD] as a date
    (without a format also [YYYY/MM/DD]), sums from left to right and keeps
    groups in the order of their first row.  It stands for the libraries in
    the examples only. *)

Definition digit_of (a : ascii) : option nat :=
  let n := nat_of_ascii a in
  if ((48 <=? n) && (n <=? 57))%nat then Some (n - 48)%nat else None.

Fixpoint parse_nat_aux (s : string) (acc : nat) : option nat :=
  match s with
  | EmptyString => Some acc
  | String a s' =>
      match digit_of a with
      | Some d => parse_nat_aux s' (10 * acc + d)%nat
      | None => None
      end
  end.

Definition parse_nat (s : string) : option nat :=
  match s with
  | EmptyString => None
  | _ => parse_nat_aux s 0
  end.

Definition parse_int (s : string) : option Z :=
  match s with
  | String "-" s' => (fun n => - Z.of_nat n) <$> parse_nat s'
  | _ => Z.of_nat <$> parse_nat s
  end.

Definition parse_ymd (seps : list string) (s : string) : option Timestamp :=
  if (String.length s =? 10)%nat
     && bool_decide (String.substring 4 1 s ∈ seps)
     && String.eqb (String.substring 7 1 s) (String.substring 4 1 s)
  then
    match parse_nat (String.substring 0 4 s), parse_nat (String.substring 5 2 s),
          parse_nat (String.substring 8 2 s) with
    | Some y, Some m, Some d =>
        if ((1 <=? m) && (m <=? 12) && (1 <=? d) && (d <=? 31))%nat
        then Some (mkTimestamp y m d 0)
        else None
    | _, _, _ => None
    end
  else None.

Fixpoint insert_desc (col : list value) (i : nat) (l : list nat) : list nat :=
  match l with
  | [] => [i]
  | j :: l' =>
      if PrimFloat.ltb (to_float (default NaN (col !! j))) (to_float (default NaN (col !! i)))
      then i :: l
      else j :: insert_desc col i l'
  end.

#[global] Instance demo : Pandas := {|
  to_datetime_at fmt col i :=
    match col !! i with
    | Some (VTime t) => Some t
    | Some (VStr s) =>
        match fmt with
        | Some _ => parse_ymd ["-"] s
        | None => parse_ymd ["-"; "/"] s
        end
    | _ => None
    end;
  coerce_numeric v :=
    match v with
    | VStr s => NInt <$> parse_int s
    | _ => None
    end;
  fsum l := fold_left PrimFloat.add l 0%float;
  group_sum cells :=
    if forallb (fun v => match v with VInt _ => true | _ => false end) cells
    then VInt (fold_left (fun a v => match v with VInt z => a + z | _ => a end) cells 0)
    else VFloat (fold_left (fun a v => PrimFloat.add a (to_float v)) cells 0%float);
  sort_keys ks := ks;
  argsort_desc col := fold_left (fun l i => insert_desc col i l) (seq 0 (length col)) [];
  str_other v :=
    match v with
    | VInt z => (if z <? 0 then "-" else "") +:+ decimal (Z.abs_nat z)
    | _ => "nan"
    end
|}.

(** A schema for the examples: [qty] must be a non-negative integer. *)
Definition demo_schema : Schema :=
  fun obj =>
    match obj !! "qty" with
    | Some (VInt q) => if 0 <=? q then None else Some "qty: ensure this value is greater than or equal to 0"
    | _ => Some "qty: value is not a valid integer"
    end.

Definition demo_mkdtemp : FileSystem -> path := fun _ => ["tmp"; "tmp_parquet_0"].

(** The calendar of the examples: the proleptic Gregorian one, with the
    ordinals of Python's [datetime]. *)
Definition is_leap (y : Z) : bool :=
  (y mod 4 =? 0) && (negb (y mod 100 =? 0) || (y mod 400 =? 0)).

Definition days_in_month (y m : Z) : Z :=
  if m =? 2 then (if is_leap y then 29 else 28)
  else if bool_decide (m ∈ [4; 6; 9; 11]) then 30 else 31.

Definition days_before_month (y m : Z) : Z :=
  fold_left (fun a k => a + days_in_month y (Z.of_nat k)) (seq 1 (Z.to_nat m - 1)) 0.

Definition toordinal (y m d : Z) : Z :=
  let y' := y - 1 in
  y' * 365 + y' / 4 - y' / 100 + y' / 400 + days_before_month y m + d.

Definition fromordinal (n : Z) : Z * Z * Z :=
  let n := n - 1 in
  let n400 := n / 146097 in
  let n := n mod 146097 in
  let n100 := n / 36524 in
  let n := n mod 36524 in
  let n4 := n / 1461 in
  let n := n mod 1461 in
  let n1 := n / 365 in
  let n := n mod 365 in
  let year := n400 * 400 + 1 + n100 * 100 + n4 * 4 + n1 in
  if (n1 =? 4) || (n100 =? 4) then (year - 1, 12, 31)
  else
    let month := (n + 50) / 32 in
    let preceding := days_before_month year month in
    if n <? preceding
    then (year, month - 1, n - (preceding - days_in_month year (month - 1)) + 1)
    else (year, month, n - preceding + 1).

#[global] Instance demo_datetime : Datetime := {|
  strptime s :=
    match parse_nat (String.substring 0 4 s), parse_nat (String.substring 4 2 s),
          parse_nat (String.substring 6 2 s) with
    | Some y, Some m, Some d =>
        if (String.length s =? 8)%nat && (1 <=? y)%nat && (Z.of_nat y <=? 9999)
           && (1 <=? m)%nat && (m <=? 12)%nat && (1 <=? d)%nat
           && (Z.of_nat d <=? days_in_month (Z.of_nat y) (Z.of_nat m))
        then inl (toordinal (Z.of_nat y) (Z.of_nat m) (Z.of_nat d))
        else inr ("time data '" +:+ s +:+ "' does not match format '%Y%m%d'")
    | _, _, _ => inr ("time data '" +:+ s +:+ "' does not match format '%Y%m%d'")
    end;
  strftime n :=
    let '(y, m, d) := fromordinal n in
    zfill 4 (Z.to_nat y) +:+ zfill 2 (Z.to_nat m) +:+ zfill 2 (Z.to_nat d);
  str_exn e :=
    match e with
    | KeyError msg => "'" +:+ msg +:+ "'"
    | AttributeError msg | TypeError msg | IntCastingNaNError msg | MergeError msg
    | FileNotFoundError msg | IndexError msg => msg
    end
|}.

(** ** The vocabulary of the statements

    Positions of rows in the input of a split, what a row of an output owes
    to a row of the input, and the tables of the examples. *)

Section Vocabulary.
Context `{Pandas}.

(** The elements of two lists of one length, each with its position. *)
Definition indexed {A B} (l : list A) (k : list B) : list (nat * (A * B)) :=
  zip (seq 0 (length l)) (zip l k).

(** The input positions of the rows the first parse reads, in input order. *)
Definition strict_positions (df : DataFrame) (c : string) (fmt : option string) : list nat :=
  select (map negb (map is_NaT (strict_parsed df c fmt))) (seq 0 (len df)).

(** Those of the rows it does not read: the rows of [strict_bad], in its
    order. *)
Definition failed_positions (df : DataFrame) (c : string) (fmt : option string) : list nat :=
  select (map is_NaT (strict_parsed df c fmt)) (seq 0 (len df)).

(** Among the latter, the input positions of the rows the second parse
    reads. *)
Definition recovered_positions (df : DataFrame) (c : string) (fmt : option string) : list nat :=
  select (map negb (map is_NaT (fallback_parsed df c fmt))) (failed_positions df c fmt).

(** And of the rows neither parse reads. *)
Definition rejected_positions (df : DataFrame) (c : string) (fmt : option string) : list nat :=
  select (map is_NaT (fallback_parsed df c fmt)) (failed_positions df c fmt).

(** [g] is the input row at [i] with the timestamp of the first parse in
    its date cell. *)
Definition strict_row (df : DataFrame) (c : string) (fmt : option string)
    (i : nat) (g : gmap string value) : Prop :=
  exists r t, rows df !! i = Some r /\ strict_parsed df c fmt !! i = Some (Some t)
              /\ g = <[c := VTime t]> r.

(** [g] is the input row at [i], tagged with the error of the first parse
    and with the timestamp of the second in its date cell. *)
Definition recovered_row (df : DataFrame) (c : string) (fmt : option string)
    (i : nat) (g : gmap string value) : Prop :=
  exists k r t, failed_positions df c fmt !! k = Some i /\ rows df !! i = Some r
                /\ fallback_parsed df c fmt !! k = Some (Some t)
                /\ g = <[c := VTime t]> (<["_parse_error" := parse_error_msg c fmt]> r).

(** [b] is the input row at [i], tagged with the error of the second
    parse. *)
Definition rejected_row (df : DataFrame) (c : string) (fmt : option string)
    (i : nat) (b : gmap string value) : Prop :=
  exists k r, failed_positions df c fmt !! k = Some i /\ rows df !! i = Some r
              /\ fallback_parsed df c fmt !! k = Some None
              /\ b = <["_parse_error" := VStr "Flexible parsing also failed"]>
                       (<["_parse_error" := parse_error_msg c fmt]> r).

(** Two rows with the same cells under every label outside [cs]. *)
Definition agree_except (cs : list string) (a b : gmap string value) : Prop :=
  forall k, k ∉ cs -> a !! k = b !! k.

(** A numeric cell that [astype(int)] casts to the integer part it has: an
    integer, or a float that is neither infinite nor NaN and whose integer
    part fits in 64 bits. *)
Definition int_castable (v : value) : bool :=
  match v with
  | VInt _ => true
  | VFloat f =>
      match trunc_float f with
      | Some z => (- 2 ^ 63 <=? z)%Z && (z <? 2 ^ 63)%Z
      | None => false
      end
  | _ => false
  end.

(** The table of the spec's example: qty=2, unit_price=10.0. *)
Definition spec_order : DataFrame :=
  mkDataFrame ["order_id"; "product_id"; "qty"; "unit_price"]
    [list_to_map [("order_id", VInt 1); ("product_id", VInt 1001);
                  ("qty", VInt 2); ("unit_price", VFloat 10)]].

(** An orders table whose quantity is infinite, as [read_csv] gives it for
    the text [inf]. *)
Definition infinite_qty_order : DataFrame :=
  mkDataFrame ["order_id"; "product_id"; "qty"; "unit_price"]
    [list_to_map [("order_id", VInt 1); ("product_id", VInt 1001);
                  ("qty", VFloat PrimFloat.infinity); ("unit_price", VFloat 10)]].

(** The right frame of the join, row by row: the four product columns,
    [price] under the label [product_price]. *)
Definition product_view (r : gmap string value) : gmap string value :=
  rename_key "price" "product_price"
    (list_to_map [("product_id", cell r "product_id"); ("product_name", cell r "product_name");
                  ("category", cell r "category"); ("price", cell r "price")]).





(** A row whose [order_date] is a timestamp. *)
Definition dated (r : gmap string value) : Prop :=
  exists t, r !! "order_date" = Some (VTime t).

(** A row with its ISO date derived from its timestamp. *)
Definition iso_dated (r : gmap string value) : Prop :=
  exists t, r !! "order_date" = Some (VTime t)
            /\ r !! "order_date_iso" = Some (VStr (strftime_ymd t)).

(** A disk with nothing on it. *)
Definition fresh_disk : FileSystem := mkFileSystem ∅ ∅.

(** An ASCII digit. *)
Definition is_digit (a : ascii) : bool :=
  let n := nat_of_ascii a in ((48 <=? n) && (n <=? 57))%nat.

(** [s.isdigit()], or [s] is empty. *)
Fixpoint all_digits (s : string) : bool :=
  match s with
  | EmptyString => true
  | String a s' => is_digit a && all_digits s'
  end.

(** The form [YYYYMMDD] of a date string: eight digits. *)
Definition is_yyyymmdd (s : string) : bool :=
  (String.length s =? 8)%nat && all_digits s.

(** Two frames with the same cells, row by row, under the labels [cs], and
    the same answer to [c in df.columns] for them. *)
Definition agree_on (cs : list string) (a b : DataFrame) : Prop :=
  Forall2 (fun r r' => forall c, c ∈ cs -> cell r c = cell r' c) (rows a) (rows b)
  /\ forall c, c ∈ cs -> has_column c a = has_column c b.

(** [returns_new base m st res]: run from [st], a store that extends
    [base], the procedure [m] makes the table [res] as an object that was
    not in [base] (it raises when [res] does), and the store it leaves
    still extends [base]: no object of [base] has changed. *)
Definition returns_new (base : Obj.Store) (m : Obj.Py Obj.ref) (st : Obj.Store)
    (res : result DataFrame) : Prop :=
  exists st',
    base `prefix_of` st'
    /\ match res with
       | Ok d => exists r, m st = (Ok r, st') /\ (length base <= r)%nat /\ st' !! r = Some d
       | Raise e => m st = (Raise e, st')
       end.

(** The days [a], [a + 1], ... : [n] of them. *)
Fixpoint dates (a : Z) (n : nat) : list Z :=
  match n with
  | O => []
  | S n' => a :: dates (a + 1) n'
  end.

(** The end date [main] parses: [--end-date] normalised, or the start date
    when it is absent or empty. *)
Definition end_arg (args : Args) : string :=
  match end_date args with
  | Some (String a e) => _normalize_date_str (String a e)
  | _ => _normalize_date_str (start_date args)
  end.

(** What [main] records for a run. *)
Definition entry_of `{Datetime} (r : result Summary) : entry :=
  match r with
  | Ok summary => Done summary
  | Raise e => Failed (str_exn e)
  end.

(** A directory [find_project_root] stops at: it has an entry [data] or
    one of the project markers. *)
Definition is_project_root (p : path) (fs : FileSystem) : bool :=
  path_exists (path_join p "data") fs
  || existsb (fun m => path_exists (path_join p m) fs) PROJECT_MARKERS.

(** A row whose cell under [k] is an integer. *)
Definition has_int (k : string) (r : gmap string value) : Prop :=
  exists z, r !! k = Some (VInt z).

(** The labels [enrich_with_products] may write: the product columns, and
    these with the suffixes of the join. *)
Definition product_labels : list string :=
  ["product_name"; "category"; "product_price";
   "product_name_x"; "category_x"; "product_price_x";
   "product_name_y"; "category_y"; "product_price_y"].

(** The row [validate_dataframe] puts in the bad table for a row the
    schema rejects. *)
Definition rejected_by (schema : Schema) (r : gmap string value) : option (gmap string value) :=
  (fun err => <["_error" := VStr err]> r) <$> schema r.


End Vocabulary.

(** ** The tables of the examples *)

(** A row of an orders file, as [read_csv] gives it. *)
Definition order_row (order_id : Z) (order_date : string) (product_id qty : Z)
    (unit_price : float) : gmap string value :=
  list_to_map [("order_id", VInt order_id); ("order_date", VStr order_date);
               ("product_id", VInt product_id); ("qty", VInt qty);
               ("unit_price", VFloat unit_price)].

(** The labels of an orders file. *)
Definition order_columns : list string :=
  ["order_id"; "order_date"; "product_id"; "qty"; "unit_price"].

(** [orders_20251025.csv]: a date in another format first, a bad date, a
    negative quantity and an unknown product among the rows. *)
Definition demo_orders : DataFrame :=
  mkDataFrame order_columns
    [order_row 50001 "2025/10/25" 1001 2 10;
     order_row 50002 "2025-10-25" 1002 1 12.25;
     order_row 50003 "garbage" 1001 1 10;
     order_row 50004 "2025-10-25" 1001 (-1) 5;
     order_row 50005 "2025-10-25" 9999 3 5].

(** [orders_20251026.csv]: no row survives. *)
Definition demo_rejected_orders : DataFrame :=
  mkDataFrame order_columns
    [order_row 60001 "garbage" 1001 2 10;
     order_row 60002 "2025-10-26" 1001 (-1) 5].

(** [products.csv]; the second product has no category. *)
Definition demo_products : DataFrame :=
  mkDataFrame ["product_id"; "product_name"; "category"; "price"]
    [list_to_map [("product_id", VInt 1001); ("product_name", VStr "Classic Tee");
                  ("category", VStr "Apparel"); ("price", VFloat 19.5)];
     list_to_map [("product_id", VInt 1002); ("product_name", VStr "Mug");
                  ("category", NaN); ("price", VFloat 12.25)]].

(** The data directory. *)
Definition demo_data : DataDir :=
  [("products.csv", demo_products); ("orders_20251025.csv", demo_orders);
   ("orders_20251026.csv", demo_rejected_orders)].

(** A table without a date column. *)
Definition no_date_table : DataFrame :=
  mkDataFrame ["order_id"; "qty"] [list_to_map [("order_id", VInt 1); ("qty", VInt 2)]].

(** An enriched frame whose totals are not [qty * unit_price]: the
    aggregates must take them as they are. *)
Definition demo_enriched : DataFrame :=
  mkDataFrame ["product_id"; "product_name"; "category"; "qty"; "unit_price";
               "order_total"; "order_date_iso"]
    [list_to_map [("product_id", VInt 1001); ("product_name", VStr "Classic Tee");
                  ("category", VStr "Apparel"); ("qty", VInt 2); ("unit_price", VFloat 10);
                  ("order_total", VFloat 18.5); ("order_date_iso", VStr "2025-10-25")];
     list_to_map [("product_id", VInt 1001); ("product_name", VStr "Classic Tee");
                  ("category", VStr "Apparel"); ("qty", VInt 1); ("unit_price", VFloat 10);
                  ("order_total", VFloat 9.25); ("order_date_iso", VStr "2025-10-25")]].


(** One order of an unknown product, in a table that has a category of
    its own. *)
Definition demo_labelled_order : DataFrame :=
  mkDataFrame ["order_id"; "product_id"; "category"]
    [list_to_map [("order_id", VInt 50005); ("product_id", VInt 9999);
                  ("category", VStr "Gift")]].


(** The value of a result, or [dflt] when it is an exception. *)
Definition ok_or {A} (dflt : A) (r : result A) : A :=
  match r with
  | Ok a => a
  | Raise _ => dflt
  end.

(** The split of the second file. *)
Definition demo_rejected_parse : DataFrame * DataFrame :=
  ok_or (empty_frame, empty_frame)
    (parse_date_column demo_rejected_orders "order_date" (Some "%Y-%m-%d")).

(** The real run on the first date, from an empty disk. *)
Definition demo_run : result Summary * FileSystem :=
  run_for_date demo_mkdtemp demo_schema "20251025" demo_data "data" ["output"] false
    fresh_disk.

(** The summary it returns. *)
Definition demo_summary : Summary :=
  {| s_date := "20251025"; s_rows := 3; s_revenue := 47.25;
     s_bad_rows := 2;
     s_parquet_path := Some ["output"; "processed"; "date=2025-10-25"; "data.parquet"] |}.

(** An orders table without a [qty] column. *)
Definition no_qty_order : DataFrame :=
  mkDataFrame ["order_id"; "unit_price"]
    [list_to_map [("order_id", VInt 1); ("unit_price", VFloat 10)]].

(** The day of the first order file. *)
Definition demo_day : Timestamp := mkTimestamp 2025 10 25 0.

(** [--start-date 2025-10-25 --end-date 20251026 --dry-run] *)
Definition demo_args : Args :=
  {| start_date := "2025-10-25"; end_date := Some "20251026"; dry_run := true |}.

(** [--start-date garbage] *)
Definition bad_args : Args :=
  {| start_date := "garbage"; end_date := None; dry_run := false |}.

(** An orders file in which every date reads. *)
Definition clean_orders : DataFrame :=
  mkDataFrame order_columns
    [order_row 70001 "2025-10-27" 1001 2 10;
     order_row 70002 "2025-10-27" 1002 1 12.25].

(** A product table that lists a product twice. *)
Definition demo_duplicate_products : DataFrame :=
  mkDataFrame ["product_id"; "product_name"; "category"; "price"]
    [list_to_map [("product_id", VInt 1001); ("product_name", VStr "Classic Tee");
                  ("category", VStr "Apparel"); ("price", VFloat 19.5)];
     list_to_map [("product_id", VInt 1001); ("product_name", VStr "Classic Tee v2");
                  ("category", VStr "Apparel"); ("price", VFloat 21)]].

(** A disk with a data directory. *)
Definition data_disk : FileSystem := mkFileSystem {[ ["srv"; "data"] ]} ∅.

(** The dry run on the first date, from an empty disk. *)
Definition demo_dry_run : result Summary * FileSystem :=
  run_for_date demo_mkdtemp demo_schema "20251025" demo_data "data" ["output"] true
    fresh_disk.

(** The summary it returns. *)
Definition demo_dry_summary : Summary :=
  {| s_date := "20251025"; s_rows := 3; s_revenue := 47.25;
     s_bad_rows := 2; s_parquet_path := None |}.

(** * Lemmas and theorems *)

Section SelectFacts.
Context {A : Type}.
Implicit Types (m : list bool) (l : list A).

Lemma select_nil_r m : select m (@nil A) = [].
Proof. by destruct m. Qed.

Lemma select_length_le m l : (length (select m l) <= length l)%nat.
Proof.
  revert l; induction m as [|b m IH]; intros [|x l]; simpl; try lia.
  destruct b; simpl; specialize (IH l); lia.
Qed.

Lemma select_split_length m l :
  length m = length l ->
  (length (select m l) + length (select (map negb m) l) = length l)%nat.
Proof.
  revert l; induction m as [|b m IH]; intros [|x l] Hl; simpl in *; try lia.
  destruct b; simpl; specialize (IH l); lia.
Qed.

Lemma select_split_perm m l :
  length m = length l -> select m l ++ select (map negb m) l ≡ₚ l.
Proof.
  revert l; induction m as [|b m IH]; intros [|x l] Hl; simpl in *; try done.
  destruct b; simpl.
  - constructor. apply IH. lia.
  - rewrite <- Permutation_middle. constructor. apply IH. lia.
Qed.

Lemma select_Forall2 {B} (P : A -> B -> Prop) m l (k : list B) :
  Forall2 P l k -> Forall2 P (select m l) (select m k).
Proof.
  intros HF; revert m; induction HF as [|x y l k Hxy HF IH]; intros [|b m]; simpl;
    try constructor.
  destruct b; [constructor|]; auto.
Qed.

Lemma select_same_length {B} m l (k : list B) :
  length l = length k -> length (select m l) = length (select m k).
Proof.
  revert l k; induction m as [|b m IH]; intros [|x l] [|y k] Hl; simpl in *; try done.
  destruct b; simpl; rewrite (IH l k); lia.
Qed.

Lemma select_map {B} (f : A -> B) m l : select m (map f l) = map f (select m l).
Proof.
  revert l; induction m as [|b m IH]; intros [|x l]; simpl; try done.
  destruct b; simpl; by rewrite IH.
Qed.

End SelectFacts.

Lemma seq_lookup_Forall2 {A} (l : list A) (a : nat) :
  Forall2 (fun i x => (a <= i)%nat /\ l !! (i - a)%nat = Some x) (seq a (length l)) l.
Proof.
  revert a; induction l as [|x l IH]; intros a; simpl; constructor.
  - split; [lia|]. by rewrite Nat.sub_diag.
  - eapply Forall2_impl; [apply (IH (S a))|].
    intros i y [Hi Hy]. split; [lia|].
    replace (i - a)%nat with (S (i - S a)) by lia. done.
Qed.

(** The positions a mask keeps, against the elements it keeps. *)
Lemma select_positions {A} (m : list bool) (l : list A) :
  Forall2 (fun i x => l !! i = Some x) (select m (seq 0 (length l))) (select m l).
Proof.
  apply select_Forall2.
  eapply Forall2_impl; [apply (seq_lookup_Forall2 l 0)|].
  intros i x [_ Hx]. by rewrite Nat.sub_0_r in Hx.
Qed.

Lemma select_seq_sorted (m : list bool) (a k : nat) :
  StronglySorted lt (select m (seq a k)) /\ Forall (fun i => a <= i < a + k)%nat (select m (seq a k)).
Proof.
  revert a k; induction m as [|b m IH]; intros a [|k]; simpl; try (split; constructor).
  destruct (IH (S a) k) as [Hs Hf].
  assert (Hf' : Forall (fun i => a <= i < a + S k)%nat (select m (seq (S a) k))).
  { eapply Forall_impl; [exact Hf|]. simpl; intros; lia. }
  destruct b; [|done].
  split; constructor; try done; try lia.
  eapply Forall_impl; [exact Hf|]. simpl; intros; lia.
Qed.

Lemma elem_of_select_seq (m : list bool) (n i : nat) :
  i ∈ select m (seq 0 n) <-> m !! i = Some true /\ (i < n)%nat.
Proof.
  assert (G : forall a, i ∈ select m (seq a n) <-> (a <= i)%nat /\ m !! (i - a)%nat = Some true /\ (i < a + n)%nat).
  { revert n; induction m as [|b m IH]; intros [|n] a; simpl.
    - split; [by intros ?%elem_of_nil|]. intros (_ & ? & _); done.
    - split; [by intros ?%elem_of_nil|]. intros (_ & ? & _); done.
    - split; [by intros ?%elem_of_nil|]. intros (? & _ & ?); lia.
    - destruct b.
      + rewrite elem_of_cons, IH. split.
        * intros [->|(? & ? & ?)].
          -- rewrite Nat.sub_diag. simpl. split; [lia|split; [done|lia]].
          -- split; [lia|]. split; [|lia].
             replace (i - a)%nat with (S (i - S a)) by lia. done.
        * intros (? & Hm & ?). destruct (decide (i = a)) as [->|]; [by left|right].
          split; [lia|]. split; [|lia].
          replace (i - a)%nat with (S (i - S a)) in Hm by lia. done.
      + rewrite IH. split.
        * intros (? & ? & ?). split; [lia|]. split; [|lia].
          replace (i - a)%nat with (S (i - S a)) by lia. done.
        * intros (? & Hm & ?). destruct (decide (i = a)) as [->|].
          { rewrite Nat.sub_diag in Hm. done. }
          split; [lia|]. split; [|lia].
          replace (i - a)%nat with (S (i - S a)) in Hm by lia. done. }
  rewrite G. rewrite Nat.sub_0_r. simpl. intuition lia.
Qed.


Lemma elem_of_select {A} (m : list bool) (l : list A) (x : A) :
  x ∈ select m l <-> exists k, l !! k = Some x /\ m !! k = Some true.
Proof.
  revert l; induction m as [|b m IH]; intros [|y l]; simpl.
  - split; [by intros ?%elem_of_nil|]. by intros (k & ? & ?).
  - split; [by intros ?%elem_of_nil|]. by intros (k & ? & ?).
  - split; [by intros ?%elem_of_nil|]. by intros (k & ? & ?).
  - destruct b.
    + rewrite elem_of_cons, IH. split.
      * intros [->|(k & ? & ?)]; [by exists 0%nat|by exists (S k)].
      * intros ([|k] & Hl & Hm); simpl in *; [left; congruence|right; eauto].
    + rewrite IH. split.
      * intros (k & ? & ?). by exists (S k).
      * intros ([|k] & Hl & Hm); simpl in *; [congruence|eauto].
Qed.

Lemma select_map_filter {A B} (p : A -> bool) (f : A -> B) (l : list A) :
  select (map p l) (map f l) = map f (List.filter p l).
Proof.
  induction l as [|x l IH]; simpl; [done|].
  destruct (p x); simpl; by rewrite IH.
Qed.

Lemma zip_with_map_same {A B C D} (f : B -> C -> D) (g : A -> B) (h : A -> C) (l : list A) :
  zip_with f (map g l) (map h l) = map (fun x => f (g x) (h x)) l.
Proof. induction l; simpl; congruence. Qed.

Section Indexed.
Context {A B : Type}.
Implicit Types (l : list A) (k : list B).

Lemma indexed_fst l k : length l = length k -> map fst (indexed l k) = seq 0 (length l).
Proof.
  intros Hl. unfold indexed. apply fst_zip.
  rewrite length_seq, length_zip. lia.
Qed.

Lemma indexed_snd l k : length l = length k -> map snd (indexed l k) = zip l k.
Proof.
  intros Hl. unfold indexed. apply snd_zip.
  rewrite length_seq, length_zip. lia.
Qed.

Lemma indexed_rows l k :
  length l = length k -> map (fun x => fst (snd x)) (indexed l k) = l.
Proof.
  intros Hl. rewrite <- (fst_zip l k) at 2 by lia.
  rewrite <- (indexed_snd l k Hl), map_map. done.
Qed.

Lemma indexed_vals l k :
  length l = length k -> map (fun x => snd (snd x)) (indexed l k) = k.
Proof.
  intros Hl. rewrite <- (snd_zip l k) at 2 by lia.
  rewrite <- (indexed_snd l k Hl), map_map. done.
Qed.

Lemma elem_of_indexed l k i x y :
  (i, (x, y)) ∈ indexed l k -> l !! i = Some x /\ k !! i = Some y.
Proof.
  intros (j & Hj)%list_elem_of_lookup. unfold indexed in Hj.
  apply lookup_zip_with_Some in Hj as (i' & xy & Heq & Hs & Hz).
  apply lookup_zip_with_Some in Hz as (x' & y' & Heq' & ? & ?).
  simplify_eq. apply lookup_seq in Hs as [-> _]. done.
Qed.

Lemma indexed_lookup l k j i x y :
  indexed l k !! j = Some (i, (x, y)) -> i = j /\ l !! j = Some x /\ k !! j = Some y.
Proof.
  unfold indexed. intros Hj.
  apply lookup_zip_with_Some in Hj as (i' & xy & Heq & Hs & Hz).
  apply lookup_zip_with_Some in Hz as (x' & y' & Heq' & ? & ?).
  simplify_eq. apply lookup_seq in Hs as [-> _]. done.
Qed.

End Indexed.

Lemma Forall2_map_same {A B C} (P : B -> C -> Prop) (f : A -> B) (g : A -> C) (l : list A) :
  Forall (fun x => P (f x) (g x)) l -> Forall2 P (map f l) (map g l).
Proof. induction 1; simpl; constructor; auto. Qed.

Lemma Forall_filter_bool {A} (p : A -> bool) (P : A -> Prop) (l : list A) :
  Forall P l -> Forall (fun x => P x /\ p x = true) (List.filter p l).
Proof.
  induction 1 as [|x l Hx Hl IH]; simpl; [constructor|].
  destruct (p x) eqn:E; [constructor|]; auto.
Qed.


Lemma rows_setitem_scalar c v d : rows (setitem_scalar c v d) = map (insert c v) (rows d).
Proof.
  unfold setitem_scalar, setitem; simpl.
  induction (rows d) as [|r rs IH]; simpl; congruence.
Qed.

Lemma has_column_setitem c col d : has_column c (setitem c col d) = true.
Proof.
  unfold has_column, setitem; simpl. apply bool_decide_eq_true.
  destruct (has_column c d) eqn:E.
  - by apply bool_decide_eq_true in E.
  - apply elem_of_app; right. by apply list_elem_of_singleton.
Qed.

Section ParseFacts.
Context `{Pandas}.

Lemma length_to_datetime fmt col : length (to_datetime fmt col) = length col.
Proof. unfold to_datetime. by rewrite length_map, length_seq. Qed.

Lemma rows_strict_bad df c fmt :
  has_column c df = true ->
  rows (strict_bad df c fmt)
  = map (insert "_parse_error" (parse_error_msg c fmt))
        (select (map is_NaT (strict_parsed df c fmt)) (rows df)).
Proof.
  intros Hc. unfold strict_bad.
  set (bad := df_select _ df).
  destruct (negb (df_empty bad)) eqn:E.
  - by rewrite rows_setitem_scalar.
  - apply negb_false_iff in E. unfold df_empty in E. apply orb_true_iff in E as [E|E].
    + apply Nat.eqb_eq in E. simpl in *.
      destruct (select _ (rows df)); [done|simpl in E; lia].
    + apply Nat.eqb_eq in E. simpl in E.
      apply bool_decide_eq_true in Hc. destruct (columns df); [by apply elem_of_nil in Hc|done].
Qed.

Lemma length_strict_parsed df c fmt : length (strict_parsed df c fmt) = length (rows df).
Proof. unfold strict_parsed. rewrite length_to_datetime. unfold column. by rewrite length_map. Qed.

Lemma length_failed_positions df c fmt :
  length (failed_positions df c fmt)
  = length (select (map is_NaT (strict_parsed df c fmt)) (rows df)).
Proof. unfold failed_positions. apply select_same_length. by rewrite length_seq. Qed.

Lemma length_fallback_parsed df c fmt :
  has_column c df = true ->
  length (fallback_parsed df c fmt) = length (failed_positions df c fmt).
Proof.
  intros Hc. unfold fallback_parsed. rewrite length_to_datetime. unfold column.
  rewrite length_map, rows_strict_bad, length_map by done.
  by rewrite length_failed_positions.
Qed.

Lemma parse_date_column_rows df c fmt :
  has_column c df = true ->
  exists good bad gs gr,
    parse_date_column df c fmt = Ok (good, bad)
    /\ rows good = gs ++ gr
    /\ Forall2 (strict_row df c fmt) (strict_positions df c fmt) gs
    /\ Forall2 (recovered_row df c fmt) (recovered_positions df c fmt) gr
    /\ Forall2 (rejected_row df c fmt) (rejected_positions df c fmt) (rows bad).
Proof.
  intros Hc.
  pose proof (length_strict_parsed df c fmt) as Hlen.
  pose proof (rows_strict_bad df c fmt Hc) as Hbad.
  pose proof (length_fallback_parsed df c fmt Hc) as Hfb.
  set (ps := strict_parsed df c fmt) in *.
  set (T := indexed (rows df) ps).
  assert (HTr : rows df = map (fun x => fst (snd x)) T) by (symmetry; by apply indexed_rows).
  assert (HTp : ps = map (fun x => snd (snd x)) T) by (symmetry; by apply indexed_vals).
  assert (HTi : seq 0 (len df) = map fst T) by (symmetry; by apply indexed_fst).
  (* the rows of the first pass *)
  assert (HS : strict_positions df c fmt
               = map fst (List.filter (fun x => negb (is_NaT (snd (snd x)))) T)).
  { unfold strict_positions. fold ps. rewrite HTi, HTp at 1.
    rewrite !map_map. apply (select_map_filter (fun x => negb (is_NaT (snd (snd x))))). }
  assert (HF : failed_positions df c fmt
               = map fst (List.filter (fun x => is_NaT (snd (snd x))) T)).
  { unfold failed_positions. fold ps. rewrite HTi, HTp at 1.
    rewrite !map_map. apply (select_map_filter (fun x => is_NaT (snd (snd x)))). }
  set (Tb := List.filter (fun x => is_NaT (snd (snd x))) T) in *.
  assert (Hbad' : rows (strict_bad df c fmt)
                  = map (fun x => <["_parse_error" := parse_error_msg c fmt]> (fst (snd x))) Tb).
  { rewrite Hbad. fold ps. rewrite HTr, HTp at 1. rewrite !map_map.
    rewrite (select_map_filter (fun x => is_NaT (snd (snd x)))), map_map. done. }
  set (fb := fallback_parsed df c fmt) in *.
  assert (HlenTb : length Tb = length fb).
  { rewrite Hfb, HF. by rewrite length_map. }
  set (T2 := indexed Tb fb).
  assert (HT2b : Tb = map (fun y => fst (snd y)) T2) by (symmetry; by apply indexed_rows).
  assert (HT2f : fb = map (fun y => snd (snd y)) T2) by (symmetry; by apply indexed_vals).
  assert (HR : recovered_positions df c fmt
               = map (fun y => fst (fst (snd y)))
                     (List.filter (fun y => negb (is_NaT (snd (snd y)))) T2)).
  { unfold recovered_positions. fold fb. rewrite HF. rewrite HT2b at 1. rewrite HT2f at 1.
    rewrite !map_map. apply (select_map_filter (fun y => negb (is_NaT (snd (snd y))))). }
  assert (HB : rejected_positions df c fmt
               = map (fun y => fst (fst (snd y)))
                     (List.filter (fun y => is_NaT (snd (snd y))) T2)).
  { unfold rejected_positions. fold fb. rewrite HF. rewrite HT2b at 1. rewrite HT2f at 1.
    rewrite !map_map. apply (select_map_filter (fun y => is_NaT (snd (snd y)))). }
  (* what the elements of the two indexed lists are *)
  assert (HTel : Forall (fun x => rows df !! fst x = Some (fst (snd x))
                                  /\ ps !! fst x = Some (snd (snd x))) T).
  { apply Forall_forall. intros [i [r o]] Hin.
    by apply elem_of_indexed in Hin. }
  assert (HT2el : Forall (fun y => failed_positions df c fmt !! fst y = Some (fst (fst (snd y)))
                                   /\ rows df !! fst (fst (snd y)) = Some (fst (snd (fst (snd y))))
                                   /\ fb !! fst y = Some (snd (snd y))) T2).
  { apply Forall_forall. intros [k [[i [r o]] o2]] Hin.
    apply elem_of_indexed in Hin as [Hk Hk2]. simpl. split; [|split; [|done]].
    - rewrite HF, list_lookup_fmap, Hk. done.
    - apply list_elem_of_lookup_2 in Hk. unfold Tb in Hk.
      apply list_elem_of_In, filter_In in Hk as [Hk _].
      apply list_elem_of_In in Hk.
      rewrite Forall_forall in HTel. by destruct (HTel _ Hk). }
  set (good1 := map (fun x => <[c := time_cell (snd (snd x))]> (fst (snd x)))
                    (List.filter (fun x => negb (is_NaT (snd (snd x)))) T)).
  set (good2 := map (fun y => <[c := time_cell (snd (snd y))]>
                                (<["_parse_error" := parse_error_msg c fmt]>
                                   (fst (snd (fst (snd y))))))
                    (List.filter (fun y => negb (is_NaT (snd (snd y)))) T2)).
  set (bad2 := map (fun y => <["_parse_error" := VStr "Flexible parsing also failed"]>
                               (<["_parse_error" := parse_error_msg c fmt]>
                                  (fst (snd (fst (snd y))))))
                   (List.filter (fun y => is_NaT (snd (snd y))) T2)).
  assert (Hg1 : zip_with (fun r v => <[c := v]> r)
                  (select (map negb (map is_NaT ps)) (rows df))
                  (select (map negb (map is_NaT ps)) (map time_cell ps)) = good1).
  { rewrite HTr, HTp at 1. rewrite HTp at 1. rewrite HTp at 1. rewrite !map_map.
    rewrite !(select_map_filter (fun x => negb (is_NaT (snd (snd x))))).
    by rewrite zip_with_map_same. }
  assert (Hg2 : zip_with (fun r v => <[c := v]> r)
                  (select (map negb (map is_NaT fb)) (rows (strict_bad df c fmt)))
                  (select (map negb (map is_NaT fb)) (map time_cell fb)) = good2).
  { rewrite Hbad'. rewrite HT2b at 1. rewrite HT2f at 1. rewrite HT2f at 1. rewrite HT2f at 1.
    rewrite !map_map.
    rewrite !(select_map_filter (fun y => negb (is_NaT (snd (snd y))))).
    by rewrite zip_with_map_same. }
  assert (Hb2 : map (insert "_parse_error" (VStr "Flexible parsing also failed"))
                  (select (map is_NaT fb) (rows (strict_bad df c fmt))) = bad2).
  { rewrite Hbad'. rewrite HT2b at 1. rewrite HT2f at 1. rewrite !map_map.
    rewrite (select_map_filter (fun y => is_NaT (snd (snd y)))), map_map. done. }
  assert (HFS : Forall2 (strict_row df c fmt) (strict_positions df c fmt) good1).
  { rewrite HS. apply Forall2_map_same.
    eapply Forall_impl; [apply Forall_filter_bool, HTel|].
    intros [i [r o]] [[Hr Ho] Hp]; simpl in *.
    destruct o as [t|]; [|done]. by exists r, t. }
  assert (HFR : Forall2 (recovered_row df c fmt) (recovered_positions df c fmt) good2).
  { rewrite HR. apply Forall2_map_same.
    eapply Forall_impl; [apply Forall_filter_bool, HT2el|].
    intros [k [[i [r o]] o2]] [(Hk & Hr & Ho) Hp]; simpl in *.
    destruct o2 as [t|]; [|done]. by exists k, r, t. }
  assert (HFB : Forall2 (rejected_row df c fmt) (rejected_positions df c fmt) bad2).
  { rewrite HB. apply Forall2_map_same.
    eapply Forall_impl; [apply Forall_filter_bool, HT2el|].
    intros [k [[i [r o]] o2]] [(Hk & Hr & Ho) Hp]; simpl in *.
    destruct o2 as [t|]; [done|]. by exists k, r. }
  unfold parse_date_column. rewrite Hc. simpl negb. cbv iota.
  fold ps. fold fb.
  destruct (negb (df_empty (strict_bad df c fmt))) eqn:E.
  - eexists _, _, good1, good2. split; [reflexivity|].
    split; [|split; [done|split; [done|]]].
    + simpl. by rewrite Hg1, Hg2.
    + rewrite rows_setitem_scalar. simpl. by rewrite Hb2.
  - assert (Hnil : rows (strict_bad df c fmt) = []).
    { apply negb_false_iff in E. unfold df_empty in E. apply orb_true_iff in E as [E|E].
      - apply Nat.eqb_eq in E. by destruct (rows (strict_bad df c fmt)).
      - apply Nat.eqb_eq in E. exfalso.
        assert (Hcol : c ∈ columns (strict_bad df c fmt)).
        { unfold strict_bad. apply bool_decide_eq_true in Hc.
          destruct (negb _); simpl; [|done].
          unfold setitem_scalar, setitem; simpl.
          destruct (has_column _ _); simpl; [done|]. apply elem_of_app; by left. }
        destruct (columns (strict_bad df c fmt)); [by apply elem_of_nil in Hcol|done]. }
    assert (HTbnil : Tb = []).
    { rewrite Hbad' in Hnil. by destruct Tb. }
    assert (HT2nil : T2 = []).
    { unfold T2, indexed. by rewrite HTbnil. }
    eexists _, _, good1, []. split; [reflexivity|].
    split; [|split; [done|split]].
    + simpl. by rewrite Hg1, app_nil_r.
    + rewrite HR, HT2nil. constructor.
    + rewrite Hnil, HB, HT2nil. constructor.
Qed.

End ParseFacts.


Lemma agree_except_insert cs c v r : c ∈ cs -> agree_except cs (<[c := v]> r) r.
Proof. intros Hc k Hk. apply lookup_insert_ne. intros ->. done. Qed.

Lemma agree_except_trans cs a b c' : agree_except cs a b -> agree_except cs b c' -> agree_except cs a c'.
Proof. intros H1 H2 k Hk. by rewrite H1, H2. Qed.

Lemma rows_frame_of_records cols rs : rows (frame_of_records cols rs) = rs.
Proof. by destruct rs. Qed.

Lemma validate_rows_positions (schema : Schema) (rs : list (gmap string value)) (a : nat) :
  exists G B,
    G ++ B ≡ₚ seq a (length rs)
    /\ Forall2 (fun i g => (a <= i)%nat /\ rs !! (i - a)%nat = Some g /\ schema g = None)
         G (validate_rows schema rs).1
    /\ Forall2 (fun i b => (a <= i)%nat /\ exists r err, rs !! (i - a)%nat = Some r
                    /\ schema r = Some err /\ b = <["_error" := VStr err]> r)
         B (validate_rows schema rs).2.
Proof.
  revert a; induction rs as [|row rs IH]; intros a; simpl.
  - exists [], []. repeat split; constructor.
  - destruct (IH (S a)) as (G & B & Hp & HG & HB).
    assert (HG' : Forall2 (fun i g => (a <= i)%nat /\ (row :: rs) !! (i - a)%nat = Some g
                                       /\ schema g = None) G (validate_rows schema rs).1).
    { eapply Forall2_impl; [exact HG|]. intros i g (? & ? & ?).
      split; [lia|]. split; [|done]. replace (i - a)%nat with (S (i - S a)) by lia. done. }
    assert (HB' : Forall2 (fun i b => (a <= i)%nat /\ exists r err,
                      (row :: rs) !! (i - a)%nat = Some r
                      /\ schema r = Some err /\ b = <["_error" := VStr err]> r)
                    B (validate_rows schema rs).2).
    { eapply Forall2_impl; [exact HB|]. intros i b (? & r & err & ? & ? & ?).
      split; [lia|]. exists r, err. split; [|done].
      replace (i - a)%nat with (S (i - S a)) by lia. done. }
    destruct (validate_rows schema rs) as [good bad]; simpl in *.
    destruct (schema row) as [err|] eqn:E; simpl.
    + exists G, (a :: B). split; [|split; [done|]].
      * rewrite <- Permutation_middle. by constructor.
      * constructor; [|done]. split; [lia|]. exists row, err.
        rewrite Nat.sub_diag. done.
    + exists (a :: G), B. split; [|split; [|done]].
      * simpl. by constructor.
      * constructor; [|done]. rewrite Nat.sub_diag. done.
Qed.

Lemma length_iterrows df : length (iterrows df) = length (rows df).
Proof. unfold iterrows. by rewrite length_map. Qed.

Lemma lookup_iterrows df i g :
  iterrows df !! i = Some g <->
  exists r, rows df !! i = Some r /\ g = upcast (values_dtype df) <$> r.
Proof.
  unfold iterrows. rewrite list_lookup_fmap. split.
  - destruct (rows df !! i) as [r|]; simpl; [|done]. intros [= <-]. by exists r.
  - intros (r & -> & ->). done.
Qed.

(** Only float64 rows differ from the rows of the frame. *)
Lemma upcast_row_id (t : dtype) (r : gmap string value) :
  t <> Float64 -> upcast t <$> r = r.
Proof.
  intros Ht. apply map_eq. intros k. rewrite lookup_fmap.
  destruct (r !! k) as [v|]; simpl; [|done]. f_equal. by destruct t, v.
Qed.

(** A frame with a cell that is no number has object rows. *)
Lemma values_dtype_object df (r : gmap string value) (c : string) :
  r ∈ rows df -> c ∈ columns df -> is_numeric (cell r c) = false ->
  values_dtype df = Object.
Proof.
  intros Hr Hc Hn. unfold values_dtype.
  set (cells := flat_map (fun r => map (cell r) (columns df)) (rows df)).
  assert (Hin : In (cell r c) cells).
  { apply in_flat_map. exists r. split; [by apply list_elem_of_In|].
    apply in_map. by apply list_elem_of_In. }
  assert (H1 : forallb is_VInt cells = false).
  { apply not_true_is_false. intros Hall. rewrite forallb_forall in Hall.
    specialize (Hall _ Hin). by destruct (cell r c). }
  assert (H2 : forallb is_numeric cells = false).
  { apply not_true_is_false. intros Hall. rewrite forallb_forall in Hall.
    specialize (Hall _ Hin). congruence. }
  by rewrite H1, H2.
Qed.

(** The split of [validate_dataframe], position by position: the rows are
    those [iterrows] yields. *)
Lemma validate_dataframe_positions (df : DataFrame) (schema : Schema) :
  exists G B,
    G ++ B ≡ₚ seq 0 (len df)
    /\ Forall2 (fun i g => exists r, rows df !! i = Some r
                  /\ g = upcast (values_dtype df) <$> r /\ schema g = None)
         G (rows (validate_dataframe df schema).1)
    /\ Forall2 (fun i b => exists r err, rows df !! i = Some r
                  /\ schema (upcast (values_dtype df) <$> r) = Some err
                  /\ b = <["_error" := VStr err]> (upcast (values_dtype df) <$> r))
         B (rows (validate_dataframe df schema).2).
Proof.
  destruct (validate_rows_positions schema (iterrows df) 0) as (G & B & Hp & HG & HB).
  exists G, B. unfold validate_dataframe.
  destruct (validate_rows schema (iterrows df)) as [good bad]; cbn [fst snd] in *.
  rewrite !rows_frame_of_records. rewrite length_iterrows in Hp.
  split; [exact Hp|]. split.
  - eapply Forall2_impl; [exact HG|]. intros i g (_ & Hg & Hs).
    rewrite Nat.sub_0_r in Hg. apply lookup_iterrows in Hg as (r & Hr & ->). by exists r.
  - eapply Forall2_impl; [exact HB|]. intros i b (_ & r' & err & Hr & Hs & ->).
    rewrite Nat.sub_0_r in Hr. apply lookup_iterrows in Hr as (r & Hr & ->). by exists r, err.
Qed.

Section Splits.
Context `{Pandas}.

Lemma parse_positions_perm df c fmt :
  has_column c df = true ->
  (strict_positions df c fmt ++ recovered_positions df c fmt) ++ rejected_positions df c fmt
  ≡ₚ seq 0 (len df).
Proof.
  intros Hc.
  assert (H1 : failed_positions df c fmt ++ strict_positions df c fmt ≡ₚ seq 0 (len df)).
  { apply select_split_perm. rewrite length_map, length_strict_parsed, length_seq. done. }
  assert (H2 : rejected_positions df c fmt ++ recovered_positions df c fmt
               ≡ₚ failed_positions df c fmt).
  { apply select_split_perm. rewrite length_map. by apply length_fallback_parsed. }
  rewrite <- H1, <- H2.
  rewrite <- app_assoc.
  rewrite (Permutation_app_comm (strict_positions df c fmt)).
  rewrite (Permutation_app_comm (rejected_positions df c fmt)).
  by rewrite <- app_assoc.
Qed.


(** C9.  The good table of [parse_date_column] is the rows whose first
    parse succeeded, in input order ([S] is increasing), followed by the
    rows the fallback recovered, in input order ([R] is increasing); each
    carries its parsed timestamp.  So whenever a recovered row [i] stood
    before a first-parse success [j] in the input, [j] comes before [i] in
    the good table.  (It holds for every input with the column, also when
    the fallback recovers nothing: [R] is empty then.) *)
Theorem fallback_rows_follow_strict_rows (df : DataFrame) (c : string) (fmt : option string) :
  has_column c df = true ->
  let S := strict_positions df c fmt in
  let R := recovered_positions df c fmt in
  exists good bad,
    parse_date_column df c fmt = Ok (good, bad)
    /\ Forall2 (fun i g => exists r t, rows df !! i = Some r /\ g !! c = Some (VTime t)
                  /\ agree_except [c; "_parse_error"] g r) (S ++ R) (rows good)
    /\ StronglySorted lt S /\ StronglySorted lt R
    /\ (forall i, i ∈ S <-> exists t, strict_parsed df c fmt !! i = Some (Some t))
    /\ (forall i, i ∈ R <-> exists k t, failed_positions df c fmt !! k = Some i
                              /\ fallback_parsed df c fmt !! k = Some (Some t))
    /\ (forall k i, failed_positions df c fmt !! k = Some i ->
                    strict_parsed df c fmt !! i = Some None)
    /\ (forall i j, i ∈ R -> j ∈ S -> (i < j)%nat ->
          exists a b, (a < b)%nat /\ (S ++ R) !! a = Some j /\ (S ++ R) !! b = Some i).
Proof.
  intros Hc S R.
  destruct (parse_date_column_rows df c fmt Hc) as (good & bad & gs & gr & Hp & Hg & HS & HR & HB).
  exists good, bad. split; [done|].
  assert (Hsort : forall (m : list bool) l, StronglySorted lt l -> StronglySorted lt (select m l)).
  { intros m l Hl; revert m. induction Hl as [|x l Hl IH Hx]; intros [|b m]; simpl; try constructor.
    destruct b; [|apply IH]. constructor; [apply IH|].
    apply Forall_forall. intros y Hy. apply elem_of_select in Hy as (k & Hk & _).
    rewrite Forall_forall in Hx. apply Hx. by eapply list_elem_of_lookup_2. }
  split; [|split; [|split; [|split; [|split; [|split]]]]].
  - rewrite Hg. apply Forall2_app.
    + eapply Forall2_impl; [exact HS|]. intros i g (r & t & Hr & _ & ->).
      exists r, t. split; [done|]. split; [apply lookup_insert_eq|].
      apply agree_except_insert. set_solver.
    + eapply Forall2_impl; [exact HR|]. intros i g (k & r & t & _ & Hr & _ & ->).
      exists r, t. split; [done|]. split; [apply lookup_insert_eq|].
      eapply agree_except_trans; apply agree_except_insert; set_solver.
  - apply (select_seq_sorted _ 0).
  - apply Hsort. apply (select_seq_sorted _ 0).
  - intros i. unfold S, strict_positions. rewrite elem_of_select_seq.
    rewrite !list_lookup_fmap. unfold len. rewrite <- (length_strict_parsed df c fmt).
    split.
    + intros [Hm _]. destruct (strict_parsed df c fmt !! i) as [[t|]|]; simpl in *; try done.
      by exists t.
    + intros [t Ht]. rewrite Ht. simpl. split; [done|]. by eapply lookup_lt_Some.
  - intros i. unfold R, recovered_positions. rewrite elem_of_select. split.
    + intros (k & Hk & Hm). exists k. rewrite !list_lookup_fmap in Hm.
      destruct (fallback_parsed df c fmt !! k) as [[t|]|]; simpl in *; try done.
      by exists t.
    + intros (k & t & Hk & Ht). exists k. split; [done|].
      rewrite !list_lookup_fmap, Ht. done.
  - intros k i Hk. apply list_elem_of_lookup_2 in Hk.
    unfold failed_positions in Hk. apply elem_of_select_seq in Hk as [Hm _].
    rewrite list_lookup_fmap in Hm.
    destruct (strict_parsed df c fmt !! i) as [[t|]|]; simpl in *; done.
  - intros i j Hi Hj Hij.
    apply list_elem_of_lookup in Hi as [b Hb]. apply list_elem_of_lookup in Hj as [a Ha].
    exists a, (length S + b)%nat. split; [|split].
    + apply lookup_lt_Some in Ha. lia.
    + by apply lookup_app_l_Some.
    + rewrite lookup_app_r by lia. by replace (length S + b - length S)%nat with b by lia.
Qed.

(** C6.  When the designated column is absent, [parse_date_column] raises
    [KeyError] and returns no split at all, and [add_order_date_iso] raises
    [KeyError] too. *)
Theorem missing_date_column_is_fatal (df : DataFrame) (c out : string) (fmt : option string) :
  has_column c df = false ->
  parse_date_column df c fmt = Raise (KeyError ("Column '" +:+ c +:+ "' not in dataframe"))
  /\ add_order_date_iso df c out
     = Raise (KeyError (c +:+ " not found in dataframe for add_order_date_iso")).
Proof.
  intros Hc. unfold parse_date_column, add_order_date_iso. by rewrite Hc.
Qed.

End Splits.


Lemma map_result_Ok_Forall2 {A B} (f : A -> result B) (l : list A) (l' : list B) :
  map_result f l = Ok l' <-> Forall2 (fun x y => f x = Ok y) l l'.
Proof.
  revert l'; induction l as [|x l IH]; intros l'; simpl.
  - split; [intros [= <-]; constructor|]. by inversion 1.
  - split.
    + destruct (f x) as [y|e] eqn:E; simpl; [|done].
      destruct (map_result f l) as [ys|e] eqn:E'; simpl; [|done].
      intros [= <-]. constructor; [done|]. by apply IH.
    + inversion 1 as [|? y ? ys Hy Hys]; subst. rewrite Hy; simpl.
      apply IH in Hys. by rewrite Hys.
Qed.

Lemma map_result_total {A B} (f : A -> result B) (l : list A) :
  Forall (fun x => exists y, f x = Ok y) l -> exists l', map_result f l = Ok l'.
Proof.
  induction 1 as [|x l [y Hy] _ [l' IH]]; simpl; [by eexists|].
  rewrite Hy, IH. by eexists.
Qed.

Lemma length_setitem_rows c col d :
  length col = length (rows d) -> length (rows (setitem c col d)) = length (rows d).
Proof. intros Hl. unfold setitem; simpl. rewrite length_zip_with. lia. Qed.

Lemma lookup_setitem_rows c col d i r' :
  rows (setitem c col d) !! i = Some r' <->
  exists r v, rows d !! i = Some r /\ col !! i = Some v /\ r' = <[c := v]> r.
Proof.
  unfold setitem; simpl. rewrite lookup_zip_with_Some. split.
  - intros (r & v & -> & ? & ?). by exists r, v.
  - intros (r & v & ? & ? & ->). by exists r, v.
Qed.

Lemma column_setitem_same c col d :
  length col = length (rows d) -> column c (setitem c col d) = col.
Proof.
  intros Hl. unfold column, setitem; simpl.
  revert col Hl. induction (rows d) as [|r rs IH]; intros [|v col] Hl; simpl in *; try done.
  unfold cell at 1. rewrite lookup_insert_eq. simpl. f_equal. apply IH. lia.
Qed.

Lemma column_setitem_ne c c' col d :
  c <> c' -> length col = length (rows d) -> column c (setitem c' col d) = column c d.
Proof.
  intros Hne Hl. unfold column, setitem; simpl.
  revert col Hl. induction (rows d) as [|r rs IH]; intros [|v col] Hl; simpl in *; try done.
  unfold cell at 1 3. rewrite lookup_insert_ne by done. f_equal. apply IH. lia.
Qed.

Lemma columns_setitem_has c col d :
  has_column c d = true -> columns (setitem c col d) = columns d.
Proof. intros Hc. unfold setitem; simpl. by rewrite Hc. Qed.

Lemma has_column_setitem_other c c' col d :
  has_column c d = true -> has_column c (setitem c' col d) = true.
Proof.
  intros Hc. unfold has_column at 1. unfold setitem; simpl.
  apply bool_decide_eq_true in Hc. apply bool_decide_eq_true.
  destruct (has_column c' d); [done|]. apply elem_of_app; by left.
Qed.

Lemma df_get_unique c d :
  NoDup (columns d) -> has_column c d = true -> df_get c d = Series (column c d).
Proof.
  intros Hnd Hc%bool_decide_eq_true. unfold df_get.
  assert (count_occ string_dec (columns d) c = 1%nat) as ->; [|done].
  apply list_elem_of_In in Hc. apply NoDup_ListNoDup in Hnd.
  pose proof (proj1 (NoDup_count_occ string_dec (columns d)) Hnd c) as Hle.
  apply (count_occ_In string_dec) in Hc. lia.
Qed.

Section TotalFacts.
Context `{Pandas}.

Lemma length_to_numeric col : length (to_numeric col) = length col.
Proof. unfold to_numeric. destruct (forallb _ _); by rewrite !length_map. Qed.

Lemma to_numeric_numeric col : Forall (fun v => is_numeric v = true) (to_numeric col).
Proof.
  unfold to_numeric. destruct (forallb _ _); apply Forall_forall; intros v Hv;
    apply list_elem_of_fmap in Hv as (n & -> & _).
  - by destruct n as [[]|].
  - by destruct n as [[]|].
Qed.

(** A cell [to_numeric] cannot read comes out as NaN. *)
Lemma to_numeric_unparseable col i v :
  col !! i = Some v -> to_numeric_cell v = None -> to_numeric col !! i = Some NaN.
Proof.
  intros Hi Hv. unfold to_numeric.
  assert (Hn : map to_numeric_cell col !! i = Some None).
  { by rewrite list_lookup_fmap, Hi; simpl; rewrite Hv. }
  destruct (forallb _ _) eqn:E.
  - rewrite forallb_forall in E. apply list_elem_of_lookup_2, list_elem_of_In, E in Hn. done.
  - by rewrite list_lookup_fmap, Hn.
Qed.

Lemma length_fillna fill col : length (fillna fill col) = length col.
Proof. unfold fillna. by rewrite length_map. Qed.

Lemma fillna_numeric fill col :
  is_numeric fill = true ->
  Forall (fun v => is_numeric v = true) col ->
  Forall (fun v => is_numeric v = true) (fillna fill col).
Proof.
  intros Hf Hc. unfold fillna. apply Forall_fmap. eapply Forall_impl; [exact Hc|].
  intros v Hv; simpl. unfold fill_value. destruct (isna v); [|done]. by destruct v, fill.
Qed.

Lemma astype_float_total col :
  Forall (fun v => is_numeric v = true) col ->
  exists col', astype_float col = Ok col'
               /\ Forall2 (fun v w => w = VFloat (to_float v)) col col'.
Proof.
  intros Hc. unfold astype_float.
  destruct (map_result_total (fun v => match v with
                 | VInt z => Ok (VFloat (Z2float z))
                 | VFloat f => Ok (VFloat f)
                 | _ => Raise (TypeError "float() argument must be a number")
                 end) col) as [col' Hcol'].
  { eapply Forall_impl; [exact Hc|]. intros [] Hv; simpl in *; try done; by eexists. }
  exists col'. split; [done|]. apply map_result_Ok_Forall2 in Hcol'.
  eapply Forall2_impl; [exact Hcol'|]. intros [] w; simpl; congruence.
Qed.

Lemma astype_int_total col :
  forallb int_castable col = true ->
  exists col', astype_int col = Ok col'
               /\ Forall2 (fun v w => exists z, w = VInt z /\
                              match v with
                              | VInt x => z = x
                              | VFloat f => trunc_float f = Some z
                              | _ => False
                              end) col col'.
Proof.
  intros Hc. unfold astype_int. rewrite forallb_forall in Hc.
  match goal with |- context [map_result ?f col] => destruct (map_result_total f col) as [col' Hcol'] end.
  { apply Forall_forall. intros v Hv. apply list_elem_of_In, Hc in Hv.
    destruct v as [z|f| | |]; simpl in *; try done; [by eexists|].
    unfold int64_of_float. destruct (trunc_float f); [by eexists|done]. }
  exists col'. split; [done|]. apply map_result_Ok_Forall2 in Hcol'.
  apply Forall2_same_length_lookup_2; [by eapply Forall2_length|].
  intros i v w Hv Hw.
  destruct (Forall2_lookup_l _ _ _ _ _ Hcol' Hv) as (w' & Hw' & Hvw).
  rewrite Hw in Hw'. injection Hw' as <-.
  apply list_elem_of_lookup_2, list_elem_of_In, Hc in Hv.
  destruct v as [z|f| | |]; simpl in Hv, Hvw; try done.
  - injection Hvw as <-. by exists z.
  - unfold int64_of_float in Hvw. destruct (trunc_float f) as [z|]; [|done].
    rewrite Hv in Hvw. injection Hvw as <-. by exists z.
Qed.

End TotalFacts.


Lemma round_series_floats (col : list value) :
  Forall (fun v => is_VFloat v = true) col ->
  round_series col = map (fun v => match v with VFloat f => VFloat (round2 f) | _ => v end) col.
Proof.
  intros Hc. unfold round_series.
  assert (forallb is_VFloat col = true) as ->; [|done].
  apply forallb_forall. intros v Hv. rewrite Forall_forall in Hc. apply Hc.
  by apply list_elem_of_In.
Qed.

Section AddOrderTotal.
Context `{Pandas}.

Lemma add_order_total_rows (df : DataFrame) :
  NoDup (columns df) ->
  has_column "qty" df = true ->
  has_column "unit_price" df = true ->
  forallb int_castable (fillna (VInt 0) (to_numeric (column "qty" df))) = true ->
  exists out,
    add_order_total df = Ok out
    /\ len out = len df
    /\ forall i r, rows df !! i = Some r ->
         exists r' q p,
           rows out !! i = Some r'
           /\ r' !! "qty" = Some (VInt q)
           /\ r' !! "unit_price" = Some (VFloat p)
           /\ r' !! "order_total" = Some (VFloat (round2 (PrimFloat.mul (Z2float q) p)))
           /\ agree_except ["qty"; "unit_price"; "order_total"] r' r
           /\ (to_numeric_cell (cell r "qty") = None -> q = 0%Z)
           /\ (to_numeric_cell (cell r "unit_price") = None -> p = 0%float).
Proof.
  intros Hnd Hq Hp Hcast.
  destruct (astype_int_total _ Hcast) as (q' & Hq' & HqF).
  assert (Hlq : length q' = length (rows df)).
  { apply Forall2_length in HqF. rewrite <- HqF, length_fillna, length_to_numeric.
    unfold column. by rewrite length_map. }
  set (df1 := setitem "qty" q' df).
  assert (Hc1 : columns df1 = columns df) by (by apply columns_setitem_has).
  assert (Hp1 : has_column "unit_price" df1 = true) by (by apply has_column_setitem_other).
  assert (Hr1 : length (rows df1) = length (rows df)) by (by apply length_setitem_rows).
  assert (Hcol1 : column "unit_price" df1 = column "unit_price" df)
    by (by apply column_setitem_ne).
  destruct (astype_float_total (fillna (VFloat 0) (to_numeric (column "unit_price" df))))
    as (p' & Hp' & HpF).
  { apply fillna_numeric; [done|apply to_numeric_numeric]. }
  assert (Hlp : length p' = length (rows df1)).
  { apply Forall2_length in HpF. rewrite <- HpF, length_fillna, length_to_numeric, Hr1.
    unfold column. by rewrite length_map. }
  set (df2 := setitem "unit_price" p' df1).
  assert (Hr2 : length (rows df2) = length (rows df)).
  { unfold df2. rewrite length_setitem_rows; done. }
  assert (Hqc : column "qty" df2 = q').
  { unfold df2. rewrite column_setitem_ne by done. by apply column_setitem_same. }
  assert (Hpc : column "unit_price" df2 = p') by (by apply column_setitem_same).
  set (tot := round_series (mul_series q' p')).
  assert (Htot : tot = zip_with (fun x y => VFloat (round2 (PrimFloat.mul (to_float x) (to_float y)))) q' p').
  { unfold tot. rewrite round_series_floats.
    - unfold mul_series. clear. revert p'. induction q' as [|x q' IH]; intros [|y p']; simpl; try done.
      by rewrite IH.
    - unfold mul_series. apply Forall_forall. intros v Hv.
      apply list_elem_of_lookup in Hv as [i Hi].
      apply lookup_zip_with_Some in Hi as (x & y & -> & _ & _). done. }
  assert (Hlt : length tot = length (rows df2)).
  { rewrite Htot, length_zip_with, Hr2. lia. }
  exists (setitem "order_total" tot df2). split; [|split].
  - unfold add_order_total. rewrite Hq. cbn [negb]. rewrite Hp. cbn [negb].
    unfold coerce_column at 1. rewrite (df_get_unique "qty" df Hnd Hq), Hq'. simpl.
    fold df1. unfold coerce_column. rewrite (df_get_unique "unit_price" df1).
    + rewrite Hcol1, Hp'. simpl. fold df2. by rewrite Hqc, Hpc.
    + by rewrite Hc1.
    + done.
  - unfold len. rewrite length_setitem_rows; done.
  - intros i r Hr.
    assert (Hqi : column "qty" df !! i = Some (cell r "qty")).
    { unfold column. by rewrite list_lookup_fmap, Hr. }
    assert (Hpi : column "unit_price" df !! i = Some (cell r "unit_price")).
    { unfold column. by rewrite list_lookup_fmap, Hr. }
    destruct (lookup_lt_is_Some_2 (fillna (VInt 0) (to_numeric (column "qty" df))) i)
      as [vq Hvq].
    { rewrite length_fillna, length_to_numeric. by eapply lookup_lt_Some. }
    destruct (Forall2_lookup_l _ _ _ _ _ HqF Hvq) as (wq & Hwq & q & -> & Hqv).
    destruct (lookup_lt_is_Some_2 (fillna (VFloat 0) (to_numeric (column "unit_price" df))) i)
      as [vp Hvp].
    { rewrite length_fillna, length_to_numeric. by eapply lookup_lt_Some. }
    destruct (Forall2_lookup_l _ _ _ _ _ HpF Hvp) as (wp & Hwp & ->).
    exists (<["order_total" := VFloat (round2 (PrimFloat.mul (Z2float q) (to_float vp)))]>
              (<["unit_price" := VFloat (to_float vp)]> (<["qty" := VInt q]> r))),
      q, (to_float vp).
    split; [|split; [|split; [|split; [|split; [|split]]]]].
    + apply lookup_setitem_rows. eexists _, _. split; [|split; [|done]].
      * apply lookup_setitem_rows. eexists _, _. split; [|split; [exact Hwp|done]].
        apply lookup_setitem_rows. eexists _, _. split; [exact Hr|split; [exact Hwq|done]].
      * rewrite Htot. apply lookup_zip_with_Some. eexists _, _. split; [|split; [exact Hwq|exact Hwp]].
        done.
    + rewrite lookup_insert_ne by done. rewrite lookup_insert_ne by done.
      apply lookup_insert_eq.
    + rewrite lookup_insert_ne by done. apply lookup_insert_eq.
    + apply lookup_insert_eq.
    + eapply agree_except_trans; [apply agree_except_insert; set_solver|].
      eapply agree_except_trans; apply agree_except_insert; set_solver.
    + intros Hnone.
      pose proof (to_numeric_unparseable _ _ _ Hqi Hnone) as Hnan.
      unfold fillna in Hvq. rewrite list_lookup_fmap, Hnan in Hvq. simpl in Hvq.
      injection Hvq as <-. vm_compute in Hqv. congruence.
    + intros Hnone.
      pose proof (to_numeric_unparseable _ _ _ Hpi Hnone) as Hnan.
      unfold fillna in Hvp. rewrite list_lookup_fmap, Hnan in Hvp. simpl in Hvp.
      injection Hvp as <-. done.
Qed.

Lemma add_order_total_spec_example :
  column "order_total" <$> (match add_order_total spec_order with Ok d => Some d | Raise _ => None end)
  = Some [VFloat 20].
Proof. vm_compute. reflexivity. Qed.

(** C1, at an input where the code falls short of it.  On an orders table
    with an infinite quantity, [add_order_total] returns no table: the cast
    [astype(int)] raises, whatever the libraries' parsers are. *)
Theorem add_order_total_infinite_qty_raises :
  add_order_total infinite_qty_order
  = Raise (IntCastingNaNError "Cannot convert non-finite values (NA or inf) to integer").
Proof. vm_compute. reflexivity. Qed.

End AddOrderTotal.


Lemma fill_value_str s v : fill_value (VStr s) v = if isna v then VStr s else v.
Proof. unfold fill_value. by destruct v. Qed.

Lemma duplicated_length seen l : length (duplicated seen l) = length l.
Proof. revert seen; induction l as [|c l IH]; intros seen; simpl; [done|]. by rewrite IH. Qed.





Section EnrichFacts.
Context `{Pandas}.

Lemma rows_fill_column c fill d :
  has_column c d = true ->
  rows (fill_column c fill d) = map (fun r => <[c := fill_value fill (cell r c)]> r) (rows d).
Proof.
  intros Hc. unfold fill_column. rewrite Hc. unfold setitem, fillna, column; simpl.
  rewrite map_map. induction (rows d) as [|r rs IH]; simpl; [done|]. by rewrite IH.
Qed.


Lemma coerce_key_Ok c d :
  has_column c d = true ->
  coerce_key c d = Ok (setitem c (to_numeric (column c d)) d).
Proof. intros Hc. unfold coerce_key. by rewrite Hc. Qed.

Lemma product_view_cells r :
  cell (product_view r) "product_id" = cell r "product_id"
  /\ cell (product_view r) "product_name" = cell r "product_name"
  /\ cell (product_view r) "category" = cell r "category"
  /\ cell (product_view r) "product_price" = cell r "price".
Proof.
  unfold product_view, rename_key, cell; simpl.
  repeat split; by simplify_map_eq.
Qed.

End EnrichFacts.



Section Enrich.
Context `{Pandas}.





End Enrich.


Lemma dated_insert c v r : c <> "order_date" -> dated r -> dated (<[c := v]> r).
Proof. intros Hc [t Ht]. exists t. by rewrite lookup_insert_ne. Qed.

Lemma lookup_rename_key_other old new k (r : gmap string value) :
  k <> old -> k <> new -> rename_key old new r !! k = r !! k.
Proof.
  intros Ho Hn. unfold rename_key. destruct (r !! old); [|done].
  rewrite lookup_insert_ne by done. by rewrite lookup_delete_ne.
Qed.

Lemma dated_rename_key old new r :
  old <> "order_date" -> new <> "order_date" -> dated r -> dated (rename_key old new r).
Proof. intros Ho Hn [t Ht]. exists t. by rewrite lookup_rename_key_other. Qed.

Lemma rows_setitem_Forall (P : gmap string value -> Prop) c col d :
  (forall r v, P r -> P (<[c := v]> r)) ->
  Forall P (rows d) -> Forall P (rows (setitem c col d)).
Proof.
  intros HP Hd. unfold setitem; simpl. revert col.
  induction Hd as [|r rs Hr Hrs IH]; intros [|v col]; simpl; constructor; auto.
Qed.

Lemma rows_rename old new d : rows (rename old new d) = map (rename_key old new) (rows d).
Proof. done. Qed.

Lemma rename_matching_rows (P : gmap string value -> Prop) (p : string -> bool) new d :
  (forall c r, p c = true -> P r -> P (rename_key c new r)) ->
  Forall P (rows d) ->
  Forall P (rows (rename_matching p new d))
  /\ length (rows (rename_matching p new d)) = length (rows d).
Proof.
  intros HP. unfold rename_matching. generalize (columns d) as cs. intros cs. revert d.
  induction cs as [|c cs IH]; intros d Hd; simpl; [done|].
  destruct (p c) eqn:E.
  - destruct (IH (rename c new d)) as [H1 H2].
    + rewrite rows_rename. apply Forall_fmap. eapply Forall_impl; [exact Hd|].
      intros r Hr. by apply HP.
    + split; [done|]. rewrite H2, rows_rename. by rewrite length_map.
  - by apply IH.
Qed.

Lemma length_map_result {A B} (f : A -> result B) l l' :
  map_result f l = Ok l' -> length l' = length l.
Proof. intros Hl%map_result_Ok_Forall2. symmetry. by eapply Forall2_length. Qed.

Section TransformFacts.
Context `{Pandas}.

Lemma coerce_column_Ok c fill astype scalar d d' :
  (forall col col', astype col = Ok col' -> length col' = length col) ->
  coerce_column c fill astype scalar d = Ok d' ->
  exists col', d' = setitem c col' d /\ length col' = length (rows d).
Proof.
  intros Hlen. unfold coerce_column. destruct (df_get c d) as [|col|] eqn:E; try done.
  destruct (astype _) as [col'|e] eqn:E'; [|done]. intros [= <-].
  exists col'. split; [done|]. rewrite (Hlen _ _ E'), length_fillna, length_to_numeric.
  unfold df_get in E. destruct (count_occ _ _ _) as [|[|n]]; try done.
  injection E as <-. unfold column. by rewrite length_map.
Qed.

Lemma lower_order_date_not_qty : String.eqb (lower "order_date") "qty" = false.
Proof. reflexivity. Qed.

Lemma add_order_total_preserves (df out : DataFrame) :
  add_order_total df = Ok out ->
  length (rows out) = length (rows df)
  /\ (Forall dated (rows df) -> Forall dated (rows out)).
Proof.
  unfold add_order_total.
  set (df0 := if negb (has_column "qty" df) then _ else df).
  set (df0' := if negb (has_column "unit_price" df0) then _ else df0).
  assert (H0 : length (rows df0') = length (rows df)
               /\ (Forall dated (rows df) -> Forall dated (rows df0'))).
  { assert (H1 : length (rows df0) = length (rows df)
                 /\ (Forall dated (rows df) -> Forall dated (rows df0))).
    { unfold df0. destruct (negb (has_column "qty" df)); [|done].
      split.
      - apply (rename_matching_rows (fun _ => True)); [done|]. by apply Forall_forall.
      - intros Hd. apply rename_matching_rows; [|done].
        intros c r Hc Hr. apply dated_rename_key; [|done|done].
        intros ->. vm_compute in Hc. done. }
    destruct H1 as [H1 H1'].
    unfold df0'. destruct (negb (has_column "unit_price" df0)); [|by split].
    split.
    - rewrite <- H1. apply (rename_matching_rows (fun _ => True)); [done|]. by apply Forall_forall.
    - intros Hd. apply rename_matching_rows; [|by apply H1'].
      intros c r Hc Hr. apply dated_rename_key; [|done|done].
      intros ->. vm_compute in Hc. done. }
  destruct H0 as [Hl0 Hd0]. clearbody df0'. clear df0.
  destruct (coerce_column "qty" _ _ _ df0') as [df1|e] eqn:E1; [|done]. cbn [rbind].
  destruct (coerce_column "unit_price" _ _ _ df1) as [df2|e] eqn:E2; [|done]. cbn [rbind].
  intros [= <-].
  apply coerce_column_Ok in E1 as (q' & -> & Hq'); [|apply length_map_result].
  apply coerce_column_Ok in E2 as (p' & -> & Hp'); [|apply length_map_result].
  rewrite length_setitem_rows in Hp' by done.
  set (df2 := setitem "unit_price" p' (setitem "qty" q' df0')).
  assert (Hl2 : length (rows df2) = length (rows df)).
  { unfold df2. rewrite !length_setitem_rows; try done. by rewrite length_setitem_rows. }
  split.
  - rewrite length_setitem_rows; [done|].
    unfold round_series. assert (forall l : list value, length (if forallb is_VFloat l then
        map (fun v => match v with VFloat f => VFloat (round2 f) | _ => v end) l else l) = length l) as ->.
    { intros l. destruct (forallb _ _); by rewrite ?length_map. }
    unfold mul_series. rewrite length_zip_with. unfold column. rewrite !length_map. lia.
  - intros Hd. repeat apply rows_setitem_Forall; try (intros; by apply dated_insert).
    by apply Hd0.
Qed.

End TransformFacts.


Lemma dated_attach rcols m l :
  Forall (fun c => snd c <> "order_date") rcols -> dated l -> dated (attach rcols m l).
Proof.
  unfold attach. intros Hr; revert l. induction Hr as [|c rcols Hc Hr IH]; intros l Hl; simpl.
  - done.
  - apply IH. by apply dated_insert.
Qed.

Lemma dated_suffix_x overlap l :
  Forall (fun c => c <> "order_date" /\ c +:+ "_x" <> "order_date") overlap ->
  dated l -> dated (fold_left (fun acc c => rename_key c (c +:+ "_x") acc) overlap l).
Proof.
  intros Ho; revert l. induction Ho as [|c overlap [Hc Hc'] Ho IH]; intros l Hl; simpl.
  - done.
  - apply IH. by apply dated_rename_key.
Qed.

Lemma join_row_nonempty on overlap rcols rs l : (1 <= length (join_row on overlap rcols rs l))%nat.
Proof.
  unfold join_row. destruct (List.filter _ rs) as [|m ms]; simpl; lia.
Qed.

Lemma join_row_dated on overlap rcols rs l :
  Forall (fun c => c <> "order_date" /\ c +:+ "_x" <> "order_date") overlap ->
  Forall (fun c => snd c <> "order_date") rcols ->
  dated l -> Forall dated (join_row on overlap rcols rs l).
Proof.
  intros Ho Hr Hl. unfold join_row.
  pose proof (dated_suffix_x overlap l Ho Hl) as Hb.
  destruct (List.filter _ rs) as [|m ms].
  - constructor; [|constructor]. by apply dated_attach.
  - apply Forall_fmap, Forall_forall. intros r _. by apply dated_attach.
Qed.

Lemma length_flat_map_ge {A B} (f : A -> list B) (l : list A) :
  (forall x, 1 <= length (f x))%nat -> (length l <= length (flat_map f l))%nat.
Proof.
  intros Hf. induction l as [|x l IH]; simpl; [lia|].
  rewrite length_app. specialize (Hf x). lia.
Qed.

Section TransformInvariant.
Context `{Pandas}.

Lemma merge_left_preserves on left right merged :
  merge_left on left right = Ok merged ->
  Forall (fun c => c <> "order_date" /\ c +:+ "_x" <> "order_date"
                   /\ c +:+ "_y" <> "order_date") (columns right) ->
  (length (rows left) <= length (rows merged))%nat
  /\ (Forall dated (rows left) -> Forall dated (rows merged)).
Proof.
  unfold merge_left. intros Hm Hcols.
  destruct (negb (keys_unique _)); [done|].
  destruct (_ ++ _) as [|? ?]; [|done].
  injection Hm as <-. cbn [rows]. split.
  - apply length_flat_map_ge. intros l. apply join_row_nonempty.
  - intros Hd. apply Forall_flat_map. eapply Forall_impl; [exact Hd|].
    intros l Hl. apply join_row_dated; [| |done].
    + apply Forall_forall. intros c Hc.
      apply list_elem_of_In, filter_In in Hc as [Hc _].
      apply filter_In in Hc as [Hc _]. apply list_elem_of_In in Hc.
      rewrite Forall_forall in Hcols. destruct (Hcols c Hc) as (? & ? & ?). done.
    + apply Forall_fmap, Forall_forall. intros c Hc. simpl.
      apply list_elem_of_In, filter_In in Hc as [Hc _]. apply list_elem_of_In in Hc.
      rewrite Forall_forall in Hcols. destruct (Hcols c Hc) as (? & ? & ?).
      by destruct (bool_decide _).
Qed.

Lemma fill_column_preserves c fill d :
  c <> "order_date" ->
  length (rows (fill_column c fill d)) = length (rows d)
  /\ (Forall dated (rows d) -> Forall dated (rows (fill_column c fill d))).
Proof.
  intros Hc. unfold fill_column. destruct (has_column c d) eqn:E; [|done].
  split.
  - apply length_setitem_rows. unfold fillna, column. by rewrite !length_map.
  - intros Hd. apply rows_setitem_Forall; [|done]. intros; by apply dated_insert.
Qed.

Lemma coerce_key_preserves c d d' :
  c <> "order_date" ->
  coerce_key c d = Ok d' ->
  length (rows d') = length (rows d) /\ (Forall dated (rows d) -> Forall dated (rows d')).
Proof.
  intros Hc. unfold coerce_key. destruct (has_column c d); [|done]. intros [= <-]. split.
  - apply length_setitem_rows. rewrite length_to_numeric. unfold column. by rewrite length_map.
  - intros Hd. apply rows_setitem_Forall; [|done]. intros; by apply dated_insert.
Qed.

Lemma enrich_with_products_preserves o p e :
  enrich_with_products o p = Ok e ->
  (length (rows o) <= length (rows e))%nat
  /\ (Forall dated (rows o) -> Forall dated (rows e)).
Proof.
  unfold enrich_with_products.
  destruct (coerce_key "product_id" o) as [left|?] eqn:E1; [|done]. cbn [rbind].
  destruct (coerce_key "product_id" p) as [right|?] eqn:E2; [|done]. cbn [rbind].
  destruct (df_project _ right) as [proj|?] eqn:E3; [|done]. cbn [rbind].
  destruct (merge_left _ _ _) as [merged|?] eqn:E4; [|done]. cbn [rbind].
  intros [= <-].
  apply coerce_key_preserves in E1 as [Hl1 Hd1]; [|done].
  assert (Hcols : columns (rename "price" "product_price" proj)
                  = ["product_id"; "product_name"; "category"; "product_price"]).
  { unfold df_project in E3. destruct (List.filter _ _) as [|? ?].
    - by injection E3 as <-.
    - by destruct (_ =? _)%nat. }
  apply merge_left_preserves in E4 as [Hl4 Hd4].
  2:{ rewrite Hcols. repeat constructor; done. }
  destruct (fill_column_preserves "product_name" (VStr "unknown_product") merged) as [Hl5 Hd5];
    [done|].
  destruct (fill_column_preserves "category" (VStr "unknown_category")
              (fill_column "product_name" (VStr "unknown_product") merged)) as [Hl6 Hd6];
    [done|].
  split; [lia|]. auto.
Qed.

Lemma dated_column_is_datetime rs :
  Forall dated rs ->
  is_datetime64_any_dtype (map (fun r => cell r "order_date") rs) = true
  /\ dt_strftime (map as_time (map (fun r => cell r "order_date") rs))
     = map (fun r => match cell r "order_date" with
                     | VTime t => VStr (strftime_ymd t)
                     | _ => NaN
                     end) rs.
Proof.
  induction 1 as [|r rs [t Ht] Hrs [IH1 IH2]]; simpl; [done|].
  unfold cell at 1 3 4. rewrite Ht. simpl. split; [done|]. unfold cell at 1. rewrite Ht; simpl.
  f_equal. exact IH2.
Qed.

Lemma add_order_date_iso_dated df out :
  add_order_date_iso df "order_date" "order_date_iso" = Ok out ->
  length (rows out) = length (rows df)
  /\ (Forall dated (rows df) -> Forall iso_dated (rows out)).
Proof.
  unfold add_order_date_iso. destruct (negb (has_column _ df)); [done|].
  intros [= <-]. split.
  - rewrite length_setitem_rows.
    + destruct (negb _); [|done]. apply length_setitem_rows.
      rewrite length_map, length_to_datetime. unfold column. by rewrite length_map.
    + unfold dt_strftime, column. rewrite !length_map. done.
  - intros Hd. unfold column.
    destruct (dated_column_is_datetime _ Hd) as [Hdt Hiso].
    rewrite Hdt. cbn [negb]. rewrite Hiso.
    unfold setitem; cbn [rows]. clear Hdt Hiso.
    induction Hd as [|r rs [t Ht] Hrs IH]; simpl; constructor; [|exact IH].
    exists t. unfold cell. rewrite Ht; simpl.
    rewrite lookup_insert_ne by done. by rewrite lookup_insert_eq.
Qed.

Lemma transform_rows valid products e :
  transform valid products = Ok e ->
  (length (rows valid) <= length (rows e))%nat
  /\ (Forall dated (rows valid) -> Forall iso_dated (rows e)).
Proof.
  unfold transform.
  destruct (add_order_total valid) as [d1|?] eqn:E1; [|done]. cbn [rbind].
  destruct (enrich_with_products d1 products) as [d2|?] eqn:E2; [|done]. cbn [rbind].
  intros E3.
  apply add_order_total_preserves in E1 as [Hl1 Hd1].
  apply enrich_with_products_preserves in E2 as [Hl2 Hd2].
  apply add_order_date_iso_dated in E3 as [Hl3 Hd3].
  split; [lia|]. auto.
Qed.

End TransformInvariant.


Lemma df_empty_false_rows d : df_empty d = false -> rows d <> [].
Proof.
  unfold df_empty. intros Hd%orb_false_iff. destruct Hd as [Hd _].
  apply Nat.eqb_neq in Hd. by destruct (rows d).
Qed.

Lemma io_bind_Ok {A B} (m : IO A) (k : A -> IO B) fs a fs' :
  m fs = (Ok a, fs') -> io_bind m k fs = k a fs'.
Proof. intros Hm. unfold io_bind. by rewrite Hm. Qed.

Lemma io_bind_Raise {A B} (m : IO A) (k : A -> IO B) fs e fs' :
  m fs = (Raise e, fs') -> io_bind m k fs = (Raise e, fs').
Proof. intros Hm. unfold io_bind. by rewrite Hm. Qed.

Lemma write_bad_rows_csv_total bad name out fs :
  exists p fs', write_bad_rows_csv bad name out fs = (Ok p, fs').
Proof.
  unfold write_bad_rows_csv, io_bind, io_do, io_ret.
  destruct bad as [d|]; [|by eexists _, _]. destruct (df_empty d); by eexists _, _.
Qed.

Lemma quarantine_products_total pb out dry fs :
  exists fs', quarantine_products pb out dry fs = (Ok tt, fs') /\ (dry = true -> fs' = fs).
Proof.
  unfold quarantine_products. destruct dry; simpl.
  - rewrite andb_false_r. by exists fs.
  - rewrite andb_true_r. destruct (negb (df_empty pb)); [|by exists fs].
    destruct (write_bad_rows_csv_total (Some pb) "products-bad" (path_join out "bad_rows") fs)
      as (p & fs' & Hw).
    exists fs'. split; [|done]. by rewrite (io_bind_Ok _ _ _ _ _ Hw).
Qed.

Lemma flush_bad_rows_total bad date_str out fs :
  exists fs', flush_bad_rows bad date_str out fs = (Ok tt, fs').
Proof.
  unfold flush_bad_rows. destruct bad as [d|]; [|by exists fs].
  destruct (negb (df_empty d)); [|by exists fs].
  destruct (write_bad_rows_csv_total (Some d) ("orders-" +:+ date_str +:+ "-bad")
              (path_join out "bad_rows") fs) as (p & fs' & Hw).
  exists fs'. by rewrite (io_bind_Ok _ _ _ _ _ Hw).
Qed.

Section DryRun.
Context `{Pandas}.
Variable mkdtemp : FileSystem -> path.
Variable OrderSchema : Schema.

Lemma write_outputs_total enriched n rev bad date_str out fs :
  rows enriched <> [] ->
  exists p fs', write_outputs mkdtemp enriched n rev bad date_str out fs = (Ok p, fs').
Proof.
  intros Hne. unfold write_outputs.
  unfold column. destruct (rows enriched) as [|r rs]; [done|]. cbn [map].
  unfold io_bind at 1. unfold io_lift.
  unfold io_bind at 1.
  destruct (write_parquet_partition mkdtemp enriched (cell r "order_date_iso")
              (path_join out "processed") fs) as [[p|e] fs1] eqn:E1.
  2:{ exfalso. unfold write_parquet_partition, io_bind, io_do, io_ret in E1. done. }
  unfold io_bind at 1.
  destruct (write_summary_json _ (path_join out "summaries") fs1) as [[p2|e] fs2] eqn:E2.
  2:{ exfalso. unfold write_summary_json, io_bind, io_do, io_ret in E2. done. }
  destruct (flush_bad_rows_total bad date_str out fs2) as (fs3 & Hf).
  rewrite (io_bind_Ok _ _ _ _ _ Hf). by eexists _, _.
Qed.

(** C3.  On the same inputs a dry run returns what the real run returns:
    the same rows and revenue (and date and bad-row count) when it returns
    a summary, the same exception when it raises; and the dry run leaves
    the file system exactly as it was. *)
Theorem dry_run_same_summary_no_writes (date_str : string) (data : DataDir)
    (data_path : string) (out_base : path) (fs : FileSystem) :
  snd (run_for_date mkdtemp OrderSchema date_str data data_path out_base true fs) = fs
  /\ match fst (run_for_date mkdtemp OrderSchema date_str data data_path out_base false fs),
           fst (run_for_date mkdtemp OrderSchema date_str data data_path out_base true fs) with
     | Ok w, Ok d =>
         s_rows d = s_rows w /\ s_revenue d = s_revenue w
         /\ s_date d = s_date w /\ s_bad_rows d = s_bad_rows w
     | Raise e, Raise e' => e = e'
     | _, _ => False
     end.
Proof.
  unfold run_for_date.
  destruct (read_products data data_path) as [[products_df products_bad]|e].
  2:{ rewrite !(io_bind_Raise _ _ _ e fs) by done. done. }
  rewrite !(io_bind_Ok _ _ _ (products_df, products_bad) fs) by done.
  destruct (quarantine_products_total products_bad out_base true fs) as (fsd & Hqd & Hfsd).
  destruct (quarantine_products_total products_bad out_base false fs) as (fsw & Hqw & _).
  rewrite (io_bind_Ok _ _ _ _ _ Hqd), (io_bind_Ok _ _ _ _ _ Hqw).
  rewrite (Hfsd eq_refl). clear Hqd Hqw Hfsd fsd.
  destruct (read_orders_for_date date_str data data_path) as [[pg pb]|e].
  2:{ rewrite (io_bind_Raise _ _ _ e fs), (io_bind_Raise _ _ _ e fsw) by done. done. }
  rewrite (io_bind_Ok _ _ _ (pg, pb) fs), (io_bind_Ok _ _ _ (pg, pb) fsw) by done.
  destruct (validate_dataframe pg OrderSchema) as [valid vbad].
  destruct (df_empty valid) eqn:Ev.
  - cbn [negb].
    destruct (flush_bad_rows_total (combine_bad_rows pb vbad) date_str out_base fsw)
      as (fs' & Hf).
    rewrite (io_bind_Ok _ _ _ _ _ Hf). done.
  - destruct (transform valid products_df) as [enriched|e] eqn:Et.
    2:{ rewrite (io_bind_Raise _ _ _ e fs), (io_bind_Raise _ _ _ e fsw) by done. done. }
    rewrite (io_bind_Ok _ _ _ enriched fs), (io_bind_Ok _ _ _ enriched fsw) by done.
    cbn [negb].
    destruct (write_outputs_total enriched (len enriched) (total_revenue_of enriched)
                (combine_bad_rows pb vbad) date_str out_base fsw) as (p & fs' & Hw).
    { apply transform_rows in Et as [Hl _]. apply df_empty_false_rows in Ev.
      destruct (rows valid); [done|]. destruct (rows enriched); [simpl in Hl; lia|done]. }
    rewrite (io_bind_Ok _ _ _ None fs) by done.
    rewrite (io_bind_Ok _ _ _ (Some p) fs').
    2:{ by rewrite (io_bind_Ok _ _ _ _ _ Hw). }
    done.
Qed.

End DryRun.


Lemma df_empty_true_len d : df_empty d = true -> columns d <> [] -> len d = 0%nat.
Proof.
  unfold df_empty, len. intros [Hd|Hd]%orb_true_iff Hc.
  - by apply Nat.eqb_eq in Hd.
  - apply Nat.eqb_eq in Hd. by destruct (columns d).
Qed.

Lemma has_column_columns c d : has_column c d = true -> columns d <> [].
Proof.
  intros Hc%bool_decide_eq_true Hn. rewrite Hn in Hc. by apply elem_of_nil in Hc.
Qed.

Lemma has_column_setitem_scalar_other c c' v d :
  has_column c d = true -> has_column c (setitem_scalar c' v d) = true.
Proof. apply has_column_setitem_other. Qed.

Lemma len_df_concat a b : len (df_concat a b) = (len a + len b)%nat.
Proof. unfold len, df_concat; simpl. by rewrite length_app. Qed.

Lemma count_bad_combine pb vb :
  (df_empty pb = true -> len pb = 0%nat) ->
  (df_empty vb = true -> len vb = 0%nat) ->
  count_bad (combine_bad_rows pb vb) = (len pb + len vb)%nat
  /\ (forall d, combine_bad_rows pb vb = Some d -> df_empty d = false)
  /\ ((len pb + len vb)%nat <> 0%nat -> exists d, combine_bad_rows pb vb = Some d).
Proof.
  intros Hp Hv. unfold combine_bad_rows, count_bad, concat_all.
  assert (Hne : forall a b, df_empty a = false -> df_empty (df_concat a b) = false).
  { intros a b Ha. unfold df_empty in *. apply orb_false_iff in Ha as [Ha1 Ha2].
    apply Nat.eqb_neq in Ha1, Ha2. apply orb_false_iff.
    split; apply Nat.eqb_neq; unfold df_concat; simpl; rewrite length_app; lia. }
  destruct (df_empty pb) eqn:Ep, (df_empty vb) eqn:Ev; simpl.
  - rewrite Hp, Hv by done. split; [done|]. split; [done|]. intros; lia.
  - rewrite Hp by done. split; [done|]. split; [by intros d [= <-]|]. by eexists.
  - rewrite Hv by done. split; [lia|]. split; [by intros d [= <-]|]. by eexists.
  - rewrite len_df_concat. split; [done|]. split; [|by eexists].
    intros d [= <-]. by apply Hne.
Qed.

Lemma validate_dataframe_shape (df : DataFrame) (schema : Schema) :
  columns df <> [] ->
  (len (validate_dataframe df schema).1 + len (validate_dataframe df schema).2 = len df)%nat
  /\ (df_empty (validate_dataframe df schema).1 = true ->
      len (validate_dataframe df schema).1 = 0%nat)
  /\ (df_empty (validate_dataframe df schema).2 = true ->
      len (validate_dataframe df schema).2 = 0%nat).
Proof.
  intros Hc.
  destruct (validate_rows_positions schema (iterrows df) 0) as (G & B & Hp & HG & HB).
  apply Forall2_length in HG, HB. apply Permutation_length in Hp.
  rewrite length_app, length_seq, length_iterrows in Hp.
  unfold validate_dataframe. destruct (validate_rows schema (iterrows df)) as [good bad].
  simpl in *. unfold len. rewrite !rows_frame_of_records.
  split; [lia|]. split.
  - intros He. destruct good as [|g good]; [done|].
    apply df_empty_true_len in He; [done|]. done.
  - intros He. destruct bad as [|b bad]; [done|].
    apply df_empty_true_len in He; [done|]. simpl.
    destruct (has_column "_error" df); [done|]. by destruct (columns df).
Qed.

Section ParseShape.
Context `{Pandas}.

Lemma has_column_strict_bad df c fmt :
  has_column c df = true -> has_column c (strict_bad df c fmt) = true.
Proof.
  intros Hc. unfold strict_bad. destruct (negb _); [|done].
  by apply has_column_setitem_scalar_other.
Qed.

Lemma parse_date_column_shape df c fmt good bad :
  parse_date_column df c fmt = Ok (good, bad) ->
  has_column c df = true
  /\ (len good + len bad = len df)%nat
  /\ has_column c good = true
  /\ has_column c bad = true.
Proof.
  intros Hp. destruct (has_column c df) eqn:Hc.
  2:{ unfold parse_date_column in Hp. by rewrite Hc in Hp. }
  split; [done|].
  destruct (parse_date_column_rows df c fmt Hc) as (good' & bad' & gs & gr & Hp' & Hg & HS & HR & HB).
  rewrite Hp in Hp'. injection Hp' as <- <-.
  pose proof (parse_positions_perm df c fmt Hc) as Hperm.
  apply Forall2_length in HS, HR, HB. apply Permutation_length in Hperm.
  rewrite !length_app, length_seq in Hperm.
  split.
  { unfold len in *. rewrite Hg, length_app. lia. }
  unfold parse_date_column in Hp. rewrite Hc in Hp. cbn [negb] in Hp.
  pose proof (has_column_strict_bad df c fmt Hc) as Hsb.
  destruct (negb (df_empty (strict_bad df c fmt))); injection Hp as <- <-.
  - split.
    + unfold has_column, df_concat; simpl. apply bool_decide_eq_true, elem_of_app. left.
      destruct (has_column c (df_select _ df)) eqn:E.
      * by apply bool_decide_eq_true in E.
      * apply elem_of_app. right. by apply list_elem_of_singleton.
    + by apply has_column_setitem_scalar_other.
  - split; [apply has_column_setitem|done].
Qed.

End ParseShape.


Lemma read_products_bad_empty data dp pdf pbad :
  read_products data dp = Ok (pdf, pbad) -> pbad = empty_frame.
Proof. unfold read_products. destruct (List.find _ _); [|done]. by intros [= _ <-]. Qed.

Lemma read_orders_for_date_candidate `{Pandas} date data dp name df rest :
  order_candidates date data = (name, df) :: rest ->
  read_orders_for_date date data dp = parse_date_column df "order_date" (Some "%Y-%m-%d").
Proof. intros Hc. unfold read_orders_for_date. by rewrite Hc. Qed.

(** What writing a non-empty bad-rows frame leaves on disk. *)
Lemma write_bad_rows_csv_nonempty d name out fs :
  df_empty d = false ->
  exists fs',
    write_bad_rows_csv (Some d) name out fs = (Ok (Some (path_join out (name +:+ ".csv"))), fs')
    /\ files fs' !! path_join out (name +:+ ".csv") = Some (Csv d)
    /\ (forall p, p <> path_join out (name +:+ ".csv") ->
                  p <> path_join out ("." +:+ name +:+ ".csv.tmp") ->
                  files fs' !! p = files fs !! p).
Proof.
  intros Hd. unfold write_bad_rows_csv. rewrite Hd.
  unfold io_bind, io_do, io_ret, os_replace, write_file, mkdir_parents; cbn [files dirs].
  rewrite lookup_insert_eq. eexists. split; [reflexivity|]. cbn [files]. split.
  - apply lookup_insert_eq.
  - intros p Hp1 Hp2. rewrite lookup_insert_ne by done.
    rewrite lookup_delete_ne by done. by rewrite lookup_insert_ne.
Qed.

Section NoValidOrders.
Context `{Pandas}.
Variable mkdtemp : FileSystem -> path.
Variable OrderSchema : Schema.

(** C5.  When the products and the date's order file are read and no row
    of the file is left valid, [run_for_date] returns (it does not raise)
    the summary with [rows = 0], [revenue = 0.0], no parquet path and
    [bad_rows] equal to the number of rows of the file.  A dry run writes
    nothing; a real run writes the combined bad rows, all of them, to
    [bad_rows/orders-<date>-bad.csv] (there is nothing to write when the
    file has no row). *)
Theorem no_valid_orders_summary (date_str : string) (data : DataDir) (data_path : string)
    (out_base : path) (dry_run : bool) (fs : FileSystem)
    (products_df products_bad : DataFrame) (name : string) (df : DataFrame)
    (rest : DataDir) (good bad : DataFrame) :
  read_products data data_path = Ok (products_df, products_bad) ->
  order_candidates date_str data = (name, df) :: rest ->
  parse_date_column df "order_date" (Some "%Y-%m-%d") = Ok (good, bad) ->
  df_empty (validate_dataframe good OrderSchema).1 = true ->
  exists fs',
    run_for_date mkdtemp OrderSchema date_str data data_path out_base dry_run fs
    = (Ok {| s_date := date_str; s_rows := 0; s_revenue := 0%float;
             s_bad_rows := len df; s_parquet_path := None |}, fs')
    /\ (dry_run = true -> fs' = fs)
    /\ (dry_run = false -> len df <> 0%nat ->
        exists d,
          combine_bad_rows bad (validate_dataframe good OrderSchema).2 = Some d
          /\ len d = len df
          /\ files fs' !! path_join (path_join out_base "bad_rows")
                            (("orders-" +:+ date_str +:+ "-bad") +:+ ".csv")
             = Some (Csv d)).
Proof.
  intros Hprod Hcand Hparse Hvalid.
  pose proof (read_products_bad_empty _ _ _ _ Hprod) as ->.
  apply parse_date_column_shape in Hparse as Hshape.
  destruct Hshape as (Hc & Hlen & Hgc & Hbc).
  destruct (validate_dataframe_shape good OrderSchema (has_column_columns _ _ Hgc))
    as (Hvlen & Hv0 & Hb0).
  specialize (Hv0 Hvalid).
  destruct (count_bad_combine bad (validate_dataframe good OrderSchema).2)
    as (Hcount & Hne & Hex); [|done|].
  { intros He. by apply df_empty_true_len, has_column_columns with "order_date". }
  assert (Htot : (len bad + len (validate_dataframe good OrderSchema).2 = len df)%nat) by lia.
  unfold run_for_date.
  rewrite (io_bind_Ok _ _ _ (products_df, empty_frame) fs) by (by unfold io_lift; rewrite Hprod).
  rewrite (io_bind_Ok _ _ _ tt fs).
  2:{ unfold quarantine_products. done. }
  rewrite (io_bind_Ok _ _ _ (good, bad) fs).
  2:{ unfold io_lift. by rewrite (read_orders_for_date_candidate _ _ _ _ _ _ Hcand), Hparse. }
  destruct (validate_dataframe good OrderSchema) as [valid vbad]. cbn [fst snd] in *.
  rewrite Hvalid, Hcount, Htot.
  destruct dry_run; cbn [negb].
  - exists fs. split; [done|]. split; [done|]. done.
  - destruct (flush_bad_rows_total (combine_bad_rows bad vbad) date_str out_base fs)
      as (fs' & Hf).
    exists fs'. split; [by rewrite (io_bind_Ok _ _ _ _ _ Hf)|]. split; [done|].
    intros _ Hn. destruct Hex as [d Hd]; [lia|]. exists d. split; [done|].
    split.
    + rewrite Hd in Hcount. simpl in Hcount. lia.
    + unfold flush_bad_rows in Hf. rewrite Hd, (Hne d Hd) in Hf. cbn [negb] in Hf.
      destruct (write_bad_rows_csv_nonempty d ("orders-" +:+ date_str +:+ "-bad")
                  (path_join out_base "bad_rows") fs (Hne d Hd)) as (fs2 & Hw & Hfile & _).
      rewrite (io_bind_Ok _ _ _ _ _ Hw) in Hf. unfold io_ret in Hf.
      injection Hf as <-. done.
Qed.

End NoValidOrders.

(** C7, as amended.  For an absent or empty bad-rows table
    [write_bad_rows_csv] returns [None] and writes no file: the files are
    exactly those of before.  It is not without effect, though: the output
    directory and its parents exist afterwards. *)
Theorem write_bad_rows_csv_empty_writes_no_file (bad_df : option DataFrame) (name : string)
    (output_dir : path) (fs : FileSystem) :
  match bad_df with
  | None => True
  | Some d => df_empty d = true
  end ->
  write_bad_rows_csv bad_df name output_dir fs = (Ok None, mkdir_parents output_dir fs)
  /\ files (mkdir_parents output_dir fs) = files fs
  /\ dirs (mkdir_parents output_dir fs) = dirs fs ∪ list_to_set (prefixes output_dir).
Proof.
  intros Hb. split; [|done].
  unfold write_bad_rows_csv. destruct bad_df as [d|]; [rewrite Hb|]; done.
Qed.

(** C7 as stated fails: on a disk with no directory, the call on an empty
    table creates [output/bad_rows]. *)
Lemma write_bad_rows_csv_empty_not_noop :
  snd (write_bad_rows_csv (Some empty_frame) "orders-20251025-bad" ["output"; "bad_rows"]
         fresh_disk) <> fresh_disk
  /\ ["output"; "bad_rows"] ∈ dirs (snd (write_bad_rows_csv (Some empty_frame)
                                          "orders-20251025-bad" ["output"; "bad_rows"]
                                          fresh_disk)).
Proof.
  assert (Hin : ["output"; "bad_rows"] ∈ dirs (snd (write_bad_rows_csv (Some empty_frame)
                   "orders-20251025-bad" ["output"; "bad_rows"] fresh_disk))).
  { unfold write_bad_rows_csv, io_bind, io_do, io_ret, mkdir_parents; simpl. set_solver. }
  split; [|done]. intros Heq. rewrite Heq in Hin. unfold fresh_disk in Hin; simpl in Hin.
  set_solver.
Qed.


Lemma all_digits_app a b : all_digits (a +:+ b) = all_digits a && all_digits b.
Proof.
  induction a as [|x a IH]; simpl; [done|].
  change (String x a +:+ b) with (String x (a +:+ b)). simpl.
  by rewrite IH, andb_assoc.
Qed.

Lemma strftime_ymd_not_digits t : all_digits (strftime_ymd t) = false.
Proof.
  unfold strftime_ymd. rewrite all_digits_app.
  change ("-" +:+ ?x) with (String "-" x). simpl.
  apply andb_false_r.
Qed.

Lemma strftime_ymd_not_yyyymmdd t s : is_yyyymmdd s = true -> strftime_ymd t <> s.
Proof.
  unfold is_yyyymmdd. intros [_ Hs]%andb_true_iff <-.
  by rewrite strftime_ymd_not_digits in Hs.
Qed.

Lemma path_join_inj p q a b x y :
  path_join (path_join p a) x = path_join (path_join q b) y -> length p = length q -> a = b.
Proof.
  unfold path_join. intros Heq Hl.
  apply app_inj_tail in Heq as [Heq _]. apply app_inj_tail in Heq as [_ Heq]. done.
Qed.

Lemma flush_bad_rows_preserves bad date_str out fs fs' p :
  flush_bad_rows bad date_str out fs = (Ok tt, fs') ->
  (forall x, p <> path_join (path_join out "bad_rows") x) ->
  files fs' !! p = files fs !! p.
Proof.
  unfold flush_bad_rows. intros Hf Hp. destruct bad as [d|].
  2:{ unfold io_ret in Hf. by injection Hf as <-. }
  destruct (df_empty d) eqn:E; cbn [negb] in Hf.
  { unfold io_ret in Hf. by injection Hf as <-. }
  destruct (write_bad_rows_csv_nonempty d ("orders-" +:+ date_str +:+ "-bad")
              (path_join out "bad_rows") fs E) as (fs2 & Hw & _ & Hother).
  rewrite (io_bind_Ok _ _ _ _ _ Hw) in Hf. unfold io_ret in Hf. injection Hf as <-.
  apply Hother; apply Hp.
Qed.

Lemma write_summary_json_file `{Pandas} obj out fs :
  exists final fs',
    write_summary_json obj out fs = (Ok final, fs')
    /\ final = path_join out ("summary_" +:+ match dict_get "date" obj with
                                              | Some v => py_str v
                                              | None => "run"
                                              end +:+ ".json")
    /\ files fs' !! final = Some (Json obj).
Proof.
  unfold write_summary_json, io_bind, io_do, io_ret, os_replace, write_file, mkdir_parents;
    cbn [files dirs].
  rewrite lookup_insert_eq. eexists _, _. split; [reflexivity|]. split; [done|].
  cbn [files]. apply lookup_insert_eq.
Qed.

Section PersistedSummary.
Context `{Pandas}.
Variable mkdtemp : FileSystem -> path.
Variable OrderSchema : Schema.

Lemma write_parquet_partition_total df v out fs :
  exists p fs', write_parquet_partition mkdtemp df v out fs = (Ok p, fs').
Proof.
  unfold write_parquet_partition, _atomic_write_file, io_bind, io_do, io_ret.
  by eexists _, _.
Qed.

Lemma parse_good_dated df fmt good bad :
  parse_date_column df "order_date" fmt = Ok (good, bad) -> Forall dated (rows good).
Proof.
  intros Hp. apply parse_date_column_shape in Hp as Hs. destruct Hs as (Hc & _).
  destruct (parse_date_column_rows df "order_date" fmt Hc)
    as (good' & bad' & gs & gr & Hp' & Hg & HS & HR & HB).
  rewrite Hp in Hp'. injection Hp' as <- <-. rewrite Hg. apply Forall_app. split.
  - apply Forall_forall. intros g Hg'.
    apply list_elem_of_lookup in Hg' as [i Hi].
    destruct (Forall2_lookup_r _ _ _ _ _ HS Hi) as (j & _ & r & t & _ & _ & ->).
    exists t. apply lookup_insert_eq.
  - apply Forall_forall. intros g Hg'.
    apply list_elem_of_lookup in Hg' as [i Hi].
    destruct (Forall2_lookup_r _ _ _ _ _ HR Hi) as (j & _ & k & r & t & _ & _ & _ & ->).
    exists t. apply lookup_insert_eq.
Qed.

Lemma dated_upcast t r : dated r -> dated (upcast t <$> r).
Proof. intros [ts Hts]. exists ts. rewrite lookup_fmap, Hts. by destruct t. Qed.

Lemma validate_rows_subset (P : gmap string value -> Prop) df (schema : Schema) :
  (forall r, P r -> P (upcast (values_dtype df) <$> r)) ->
  Forall P (rows df) -> Forall P (rows (validate_dataframe df schema).1).
Proof.
  intros Hup HP.
  destruct (validate_dataframe_positions df schema) as (G & B & _ & HG & _).
  apply Forall_forall. intros g Hg. apply list_elem_of_lookup in Hg as [i Hi].
  destruct (Forall2_lookup_r _ _ _ _ _ HG Hi) as (j & _ & r & Hr & -> & _).
  rewrite Forall_forall in HP. apply Hup, HP. by eapply list_elem_of_lookup_2.
Qed.

(** C10.  After a real run that returned a summary with at least one row,
    the file [summaries/summary_<iso>.json] holds the dict whose [date] is
    [<iso>], the [order_date_iso] of the first enriched row, which is the
    [%Y-%m-%d] form of that row's timestamp; the summary returned has the
    input string as its date; and the two differ whenever the input is of
    the form [YYYYMMDD]. *)
Theorem persisted_summary_date_is_iso (date_str : string) (data : DataDir)
    (data_path : string) (out_base : path) (fs fs' : FileSystem) (s : Summary) :
  run_for_date mkdtemp OrderSchema date_str data data_path out_base false fs = (Ok s, fs') ->
  s_rows s <> 0%nat ->
  exists products_df products_bad good bad enriched first rest t,
    read_products data data_path = Ok (products_df, products_bad)
    /\ read_orders_for_date date_str data data_path = Ok (good, bad)
    /\ transform (validate_dataframe good OrderSchema).1 products_df = Ok enriched
    /\ rows enriched = first :: rest
    /\ first !! "order_date" = Some (VTime t)
    /\ first !! "order_date_iso" = Some (VStr (strftime_ymd t))
    /\ files fs' !! path_join (path_join out_base "summaries")
                      ("summary_" +:+ strftime_ymd t +:+ ".json")
       = Some (Json [("date", VStr (strftime_ymd t));
                     ("rows", VInt (Z.of_nat (s_rows s)));
                     ("revenue", VFloat (s_revenue s))])
    /\ s_date s = date_str
    /\ (is_yyyymmdd date_str = true -> strftime_ymd t <> date_str).
Proof.
  unfold run_for_date. intros Hrun Hrows.
  destruct (read_products data data_path) as [[products_df products_bad]|e] eqn:Eprod.
  2:{ rewrite (io_bind_Raise _ _ _ e fs) in Hrun by done. done. }
  rewrite (io_bind_Ok _ _ _ (products_df, products_bad) fs) in Hrun by done.
  destruct (quarantine_products_total products_bad out_base false fs) as (fs1 & Hq & _).
  rewrite (io_bind_Ok _ _ _ _ _ Hq) in Hrun.
  destruct (read_orders_for_date date_str data data_path) as [[good bad]|e] eqn:Eord.
  2:{ rewrite (io_bind_Raise _ _ _ e fs1) in Hrun by done. done. }
  rewrite (io_bind_Ok _ _ _ (good, bad) fs1) in Hrun by done.
  assert (Hgood : Forall dated (rows good)).
  { unfold read_orders_for_date in Eord. destruct (order_candidates _ _) as [|f ?]; [done|].
    by eapply parse_good_dated. }
  pose proof (validate_rows_subset dated good OrderSchema (dated_upcast _) Hgood) as Hvalid.
  destruct (validate_dataframe good OrderSchema) as [valid vbad] eqn:Eval. cbn [fst] in *.
  destruct (df_empty valid) eqn:Ev.
  { cbn [negb] in Hrun.
    destruct (flush_bad_rows_total (combine_bad_rows bad vbad) date_str out_base fs1)
      as (fs2 & Hf).
    rewrite (io_bind_Ok _ _ _ _ _ Hf) in Hrun. unfold io_ret in Hrun.
    injection Hrun as <- _. done. }
  destruct (transform valid products_df) as [enriched|e] eqn:Et.
  2:{ rewrite (io_bind_Raise _ _ _ e fs1) in Hrun by done. done. }
  rewrite (io_bind_Ok _ _ _ enriched fs1) in Hrun by done. cbn [negb] in Hrun.
  apply transform_rows in Et as Htr. destruct Htr as [Hl Hiso]. specialize (Hiso Hvalid).
  apply df_empty_false_rows in Ev.
  destruct (rows enriched) as [|first rest] eqn:Erows.
  { destruct (rows valid); [done|simpl in Hl; lia]. }
  apply Forall_cons in Hiso as [(t & Hdate & Hisod) _].
  exists products_df, products_bad, good, bad, enriched, first, rest, t.
  split; [done|]. split; [done|]. split; [by rewrite Eval|]. split; [done|].
  split; [done|]. split; [done|].
  (* the writes *)
  assert (Hcell : cell first "order_date_iso" = VStr (strftime_ymd t)).
  { unfold cell. by rewrite Hisod. }
  destruct (write_outputs mkdtemp enriched (len enriched) (total_revenue_of enriched)
              (combine_bad_rows bad vbad) date_str out_base fs1) as [[p|e] fs2] eqn:Ew.
  2:{ unfold io_bind in Hrun. rewrite Ew in Hrun. done. }
  unfold io_bind in Hrun. rewrite Ew in Hrun. unfold io_ret in Hrun.
  injection Hrun as <- <-. cbn [s_rows s_revenue s_date].
  split; [|split; [done|by apply strftime_ymd_not_yyyymmdd]].
  unfold write_outputs in Ew. unfold column in Ew. rewrite Erows in Ew. cbn [map] in Ew.
  rewrite Hcell in Ew.
  rewrite (io_bind_Ok _ _ _ (VStr (strftime_ymd t)) fs1) in Ew by done.
  destruct (write_parquet_partition_total enriched (VStr (strftime_ymd t))
              (path_join out_base "processed") fs1) as (pp & fsp & Hpp).
  rewrite (io_bind_Ok _ _ _ _ _ Hpp) in Ew.
  match type of Ew with
  | io_bind (write_summary_json ?obj ?o) _ ?f = _ =>
      destruct (write_summary_json_file obj o f) as (final & fs3 & Hw & Hfinal & Hfile)
  end.
  rewrite (io_bind_Ok _ _ _ _ _ Hw) in Ew.
  destruct (flush_bad_rows_total (combine_bad_rows bad vbad) date_str out_base fs3)
    as (fs4 & Hf).
  rewrite (io_bind_Ok _ _ _ _ _ Hf) in Ew. unfold io_ret in Ew. injection Ew as _ <-.
  rewrite (flush_bad_rows_preserves _ _ _ _ _ _ Hf).
  - rewrite <- Hfile. f_equal. rewrite Hfinal. reflexivity.
  - intros x Heq. apply path_join_inj in Heq; done.
Qed.

End PersistedSummary.


Lemma find_ext_elem {A} (p q : A -> bool) (l : list A) :
  (forall x, x ∈ l -> p x = q x) -> List.find p l = List.find q l.
Proof.
  induction l as [|x l IH]; intros Hpq; simpl; [done|].
  rewrite (Hpq x) by (by left). destruct (q x); [done|].
  apply IH. intros y Hy. apply Hpq. by right.
Qed.

Lemma prefix_insert_above (base st : Obj.Store) (r : nat) (d : DataFrame) :
  base `prefix_of` st -> (length base <= r)%nat -> base `prefix_of` <[r := d]> st.
Proof.
  intros [k ->] Hr. exists (<[(r - length base)%nat := d]> k).
  by rewrite insert_app_r_alt.
Qed.

Lemma obj_bind_Ok {A B} (m : Obj.Py A) (k : A -> Obj.Py B) a st st' :
  m st = (Ok a, st') -> Obj.bind m k st = k a st'.
Proof. intros Hm. unfold Obj.bind. by rewrite Hm. Qed.

Lemma obj_bind_Raise {A B} (m : Obj.Py A) (k : A -> Obj.Py B) e st st' :
  m st = (Raise e, st') -> Obj.bind m k st = (Raise e, st').
Proof. intros Hm. unfold Obj.bind. by rewrite Hm. Qed.

Lemma obj_get r st d : st !! r = Some d -> Obj.get r st = (Ok d, st).
Proof. intros Hr. unfold Obj.get. by rewrite Hr. Qed.

Lemma obj_copy r st d :
  st !! r = Some d -> Obj.copy r st = (Ok (length st), st ++ [d]).
Proof. intros Hr. unfold Obj.copy. by rewrite (obj_bind_Ok _ _ _ _ _ (obj_get _ _ _ Hr)). Qed.

Lemma lookup_snoc_new (st : Obj.Store) d : (st ++ [d]) !! length st = Some d.
Proof. rewrite lookup_app_r by lia. by rewrite Nat.sub_diag. Qed.

Lemma obj_assign f r st d :
  st !! r = Some d ->
  Obj.assign f r st = match f d with
                      | Ok d' => (Ok tt, <[r := d']> st)
                      | Raise e => (Raise e, st)
                      end.
Proof.
  intros Hr. unfold Obj.assign. rewrite (obj_bind_Ok _ _ _ _ _ (obj_get _ _ _ Hr)).
  unfold Obj.bind, Obj.lift, Obj.put. by destruct (f d).
Qed.

Lemma returns_new_step {A} base (m : Obj.Py A) (k : A -> Obj.Py Obj.ref) a st st1 res :
  m st = (Ok a, st1) -> returns_new base (k a) st1 res ->
  returns_new base (Obj.bind m k) st res.
Proof.
  intros Hm (st' & Hp & Hres). exists st'. split; [done|].
  by rewrite (obj_bind_Ok _ _ _ _ _ Hm).
Qed.

Lemma returns_new_fail {A} base (m : Obj.Py A) (k : A -> Obj.Py Obj.ref) e st st1 :
  m st = (Raise e, st1) -> base `prefix_of` st1 ->
  returns_new base (Obj.bind m k) st (Raise e).
Proof. intros Hm Hp. exists st1. split; [done|]. by apply obj_bind_Raise. Qed.

(** What is left to do once the table is there as the new object [r]. *)
Lemma returns_new_bind base (m : Obj.Py Obj.ref) (k : Obj.ref -> Obj.Py Obj.ref) st d res :
  returns_new base m st (Ok d) ->
  (forall r st', base `prefix_of` st' -> (length base <= r)%nat -> st' !! r = Some d ->
                 returns_new base (k r) st' res) ->
  returns_new base (Obj.bind m k) st res.
Proof.
  intros (st' & Hp & r & Hm & Hr & Hd) Hk.
  destruct (Hk r st' Hp Hr Hd) as (st'' & Hp' & Hres).
  exists st''. split; [done|]. by rewrite (obj_bind_Ok _ _ _ _ _ Hm).
Qed.

Lemma returns_new_raise base (m : Obj.Py Obj.ref) (k : Obj.ref -> Obj.Py Obj.ref) st e :
  returns_new base m st (Raise e) -> returns_new base (Obj.bind m k) st (Raise e).
Proof.
  intros (st' & Hp & Hm). exists st'. split; [done|]. by apply obj_bind_Raise.
Qed.

Lemma returns_new_ret base r st d :
  base `prefix_of` st -> (length base <= r)%nat -> st !! r = Some d ->
  returns_new base (Obj.ret r) st (Ok d).
Proof. intros Hp Hr Hd. exists st. split; [done|]. by exists r. Qed.

Lemma returns_new_copy base r st d :
  base `prefix_of` st -> st !! r = Some d -> returns_new base (Obj.copy r) st (Ok d).
Proof.
  intros Hp Hr. exists (st ++ [d]). split; [by apply prefix_app_r|].
  exists (length st). split; [by apply obj_copy|]. split.
  - by apply prefix_length.
  - apply lookup_snoc_new.
Qed.

(** A statement that changes the new object [r] in place. *)
Lemma returns_new_assign base f r (k : Obj.Py Obj.ref) st d res :
  base `prefix_of` st -> (length base <= r)%nat -> st !! r = Some d ->
  match f d with
  | Ok d' => forall st', base `prefix_of` st' -> st' !! r = Some d' ->
                         returns_new base k st' res
  | Raise e => res = Raise e
  end ->
  returns_new base (Obj.bind (Obj.assign f r) (fun _ => k)) st res.
Proof.
  intros Hp Hr Hd Hk. pose proof (obj_assign f r st d Hd) as Ha.
  destruct (f d) as [d'|e].
  - destruct (Hk (<[r := d']> st)) as (st'' & Hp' & Hres).
    + by apply prefix_insert_above.
    + apply list_lookup_insert_eq. by eapply lookup_lt_Some.
    + exists st''. split; [done|]. by rewrite (obj_bind_Ok _ _ _ _ _ Ha).
  - subst res. exists st. split; [done|]. by apply obj_bind_Raise.
Qed.

Section Aggregates.
Context `{Pandas}.

Lemma key_of_agree keys cs (r r' : gmap string value) :
  keys ⊆ cs -> (forall c, c ∈ cs -> cell r c = cell r' c) -> key_of keys r = key_of keys r'.
Proof.
  intros Hk Hc. unfold key_of. apply map_ext_in. intros c Hin%list_elem_of_In. apply Hc.
  by apply Hk.
Qed.

Lemma group_cells_agree keys cs k src (a b : DataFrame) :
  keys ⊆ cs -> src ∈ cs ->
  Forall2 (fun r r' => forall c, c ∈ cs -> cell r c = cell r' c) (rows a) (rows b) ->
  group_cells keys k src a = group_cells keys k src b.
Proof.
  intros Hk Hs HF. unfold group_cells.
  induction HF as [|r r' rs rs' Hr HF IH]; simpl; [done|].
  rewrite (key_of_agree keys cs r r' Hk Hr).
  destruct (keys_eqb _ k); simpl; [|done]. by rewrite IH, (Hr src Hs).
Qed.

Lemma groupby_sum_agree keys aggs (a b : DataFrame) :
  agree_on (keys ++ map snd aggs) a b ->
  groupby_sum keys aggs a = groupby_sum keys aggs b.
Proof.
  intros [HF Hh]. unfold groupby_sum.
  rewrite (find_ext_elem _ (fun c => negb (has_column c b))).
  2:{ intros c Hc. by rewrite Hh. }
  destruct (List.find _ _); [done|]. f_equal. f_equal.
  assert (Hkeys : map (key_of keys) (rows a) = map (key_of keys) (rows b)).
  { clear Hh. induction HF as [|r r' rs rs' Hr HF IH]; simpl; [done|].
    rewrite IH. f_equal. eapply key_of_agree; [|exact Hr]. set_solver. }
  rewrite Hkeys. apply map_ext. intros k. unfold group_row. f_equal. f_equal.
  apply map_ext_in. intros [out src] Hin. simpl. f_equal. f_equal.
  eapply group_cells_agree; [| |exact HF]; [set_solver|].
  apply elem_of_app. right. apply list_elem_of_fmap. exists (out, src).
  split; [done|]. by apply list_elem_of_In.
Qed.

Lemma obj_rename_matching base p new_label r st d :
  base `prefix_of` st -> (length base <= r)%nat -> st !! r = Some d ->
  returns_new base (Obj.rename_matching p new_label r) st (Ok (rename_matching p new_label d)).
Proof.
  intros Hp Hr Hd. unfold Obj.rename_matching, rename_matching.
  apply (returns_new_step _ _ _ d _ st); [by apply obj_get|].
  assert (Hgen : forall cols (m : Obj.Py Obj.ref) d0,
             returns_new base m st (Ok d0) ->
             returns_new base
               (fold_left (fun m c => Obj.bind m (fun df =>
                    if p c then Obj.bind (Obj.get df) (fun d => Obj.new (rename c new_label d))
                    else Obj.ret df)) cols m) st
               (Ok (fold_left (fun d c => if p c then rename c new_label d else d) cols d0))).
  { induction cols as [|c cols IH]; intros m d0 Hm; simpl; [done|].
    apply IH. apply (returns_new_bind _ _ _ _ d0); [done|].
    intros r' st' Hp' Hr' Hd'. destruct (p c).
    - exists (st' ++ [rename c new_label d0]). split; [by apply prefix_app_r|].
      exists (length st'). split; [|split].
      + by rewrite (obj_bind_Ok _ _ _ _ _ (obj_get _ _ _ Hd')).
      + by apply prefix_length.
      + apply lookup_snoc_new.
    - by apply returns_new_ret. }
  apply Hgen. by apply returns_new_ret.
Qed.

Lemma obj_add_order_total base r st d :
  base `prefix_of` st -> st !! r = Some d ->
  returns_new base (Obj.add_order_total r) st (add_order_total d).
Proof.
  intros Hp Hd. unfold Obj.add_order_total, add_order_total.
  apply (returns_new_bind _ _ _ _ d); [by apply returns_new_copy|].
  intros r1 st1 Hp1 Hr1 Hd1.
  eapply returns_new_step; [by apply obj_get|].
  set (d2 := if negb (has_column "qty" d)
             then rename_matching (fun c => String.eqb (lower c) "qty") "qty" d else d).
  apply (returns_new_bind _ _ _ _ d2).
  { unfold d2. destruct (negb (has_column "qty" d)).
    - by apply obj_rename_matching.
    - by apply returns_new_ret. }
  intros r2 st2 Hp2 Hr2 Hd2.
  eapply returns_new_step; [by apply obj_get|].
  set (d3 := if negb (has_column "unit_price" d2)
             then rename_matching
                    (fun c => bool_decide (lower c ∈ ["unitprice"; "unit_price"; "price"]))
                    "unit_price" d2
             else d2).
  apply (returns_new_bind _ _ _ _ d3).
  { unfold d3. destruct (negb (has_column "unit_price" d2)).
    - by apply obj_rename_matching.
    - by apply returns_new_ret. }
  intros r3 st3 Hp3 Hr3 Hd3.
  apply (returns_new_assign _ _ _ _ _ d3); [done..|].
  destruct (coerce_column "qty" (VInt 0) astype_int "'int'" d3) as [d4|e]; [|done].
  intros st4 Hp4 Hd4. cbn [rbind].
  apply (returns_new_assign _ _ _ _ _ d4); [done..|].
  destruct (coerce_column "unit_price" (VFloat 0) astype_float "'float'" d4) as [d5|e]; [|done].
  intros st5 Hp5 Hd5. cbn [rbind].
  apply (returns_new_assign _ _ _ _ _ d5); [done..|].
  intros st6 Hp6 Hd6. by apply returns_new_ret.
Qed.

Lemma obj_add_order_date_iso base r st d date_col out_col :
  base `prefix_of` st -> st !! r = Some d ->
  returns_new base (Obj.add_order_date_iso r date_col out_col) st
    (add_order_date_iso d date_col out_col).
Proof.
  intros Hp Hd. unfold Obj.add_order_date_iso, add_order_date_iso.
  apply (returns_new_bind _ _ _ _ d); [by apply returns_new_copy|].
  intros r1 st1 Hp1 Hr1 Hd1.
  eapply returns_new_step; [by apply obj_get|].
  destruct (negb (has_column date_col d)).
  { exists st1. split; done. }
  destruct (negb (is_datetime64_any_dtype (column date_col d))).
  - apply (returns_new_assign _ _ _ _ _ d); [done..|].
    intros st2 Hp2 Hd2.
    apply (returns_new_assign _ _ _ _ _ _ _ Hp2 Hr1 Hd2).
    intros st3 Hp3 Hd3. by apply returns_new_ret.
  - eapply (returns_new_step _ _ _ tt); [done|].
    apply (returns_new_assign _ _ _ _ _ d); [done..|].
    intros st3 Hp3 Hd3. by apply returns_new_ret.
Qed.

Lemma obj_compute_daily_category_revenue base r st d :
  base `prefix_of` st -> st !! r = Some d ->
  returns_new base (Obj.compute_daily_category_revenue r) st
    (compute_daily_category_revenue d).
Proof.
  intros Hp Hd. unfold Obj.compute_daily_category_revenue, compute_daily_category_revenue.
  apply (returns_new_bind _ _ _ _ d); [by apply returns_new_copy|].
  intros r1 st1 Hp1 Hr1 Hd1.
  eapply returns_new_step; [by apply obj_get|].
  set (R2 := if negb (has_column "order_total" d) then add_order_total d else Ok d).
  assert (H2 : returns_new base
                 (if negb (has_column "order_total" d)
                  then Obj.add_order_total r1 else Obj.ret r1) st1 R2).
  { unfold R2. destruct (negb (has_column "order_total" d)).
    - by apply obj_add_order_total.
    - by apply returns_new_ret. }
  destruct R2 as [d2|e]; [|by apply returns_new_raise].
  cbn [rbind]. apply (returns_new_bind _ _ _ _ d2); [done|].
  intros r2 st2 Hp2 Hr2 Hd2.
  eapply returns_new_step; [by apply obj_get|].
  set (R3 := if negb (has_column "order_date_iso" d2)
             then add_order_date_iso d2 "order_date" "order_date_iso" else Ok d2).
  assert (H3 : returns_new base
                 (if negb (has_column "order_date_iso" d2)
                  then Obj.add_order_date_iso r2 "order_date" "order_date_iso"
                  else Obj.ret r2) st2 R3).
  { unfold R3. destruct (negb (has_column "order_date_iso" d2)).
    - by apply obj_add_order_date_iso.
    - by apply returns_new_ret. }
  destruct R3 as [d3|e]; [|by apply returns_new_raise].
  cbn [rbind]. apply (returns_new_bind _ _ _ _ d3); [done|].
  intros r3 st3 Hp3 Hr3 Hd3.
  eapply returns_new_step; [by apply obj_get|].
  unfold daily_category_aggregate.
  destruct (groupby_sum ["order_date_iso"; "category"] _ d3) as [a|e] eqn:Eg.
  2:{ by eapply returns_new_fail. }
  eapply (returns_new_step _ _ _ a); [done|].
  eapply (returns_new_step _ _ _ (length st3) _ (st3 ++ [a])); [done|].
  cbn [rbind].
  apply (returns_new_assign _ _ _ _ _ a).
  - by apply prefix_app_r.
  - by apply prefix_length.
  - apply lookup_snoc_new.
  - intros st4 Hp4 Hd4. apply returns_new_ret; [done| |done]. by apply prefix_length.
Qed.

Lemma obj_top_n_products_by_revenue base r st d n :
  base `prefix_of` st -> st !! r = Some d ->
  returns_new base (Obj.top_n_products_by_revenue r n) st (top_n_products_by_revenue d n).
Proof.
  intros Hp Hd. unfold Obj.top_n_products_by_revenue, top_n_products_by_revenue.
  apply (returns_new_bind _ _ _ _ d); [by apply returns_new_copy|].
  intros r1 st1 Hp1 Hr1 Hd1.
  eapply returns_new_step; [by apply obj_get|].
  set (R2 := if negb (has_column "order_total" d) then add_order_total d else Ok d).
  assert (H2 : returns_new base
                 (if negb (has_column "order_total" d)
                  then Obj.add_order_total r1 else Obj.ret r1) st1 R2).
  { unfold R2. destruct (negb (has_column "order_total" d)).
    - by apply obj_add_order_total.
    - by apply returns_new_ret. }
  destruct R2 as [d2|e]; [|by apply returns_new_raise].
  cbn [rbind]. apply (returns_new_bind _ _ _ _ d2); [done|].
  intros r2 st2 Hp2 Hr2 Hd2.
  eapply returns_new_step; [by apply obj_get|].
  unfold top_products_aggregate.
  destruct (groupby_sum ["product_id"; "product_name"; "category"] _ d2) as [a|e] eqn:Eg.
  2:{ by eapply returns_new_fail. }
  eapply (returns_new_step _ _ _ a); [done|].
  eapply (returns_new_step _ _ _ (length st2) _ (st2 ++ [a])); [done|].
  eapply returns_new_step; [apply obj_get, lookup_snoc_new|].
  set (st3 := st2 ++ [a]).
  eapply (returns_new_step _ _ _ (length st3) _
            (st3 ++ [sort_values_desc "total_revenue" a])); [done|].
  eapply returns_new_step; [apply obj_get, lookup_snoc_new|].
  set (st4 := st3 ++ [sort_values_desc "total_revenue" a]).
  eapply (returns_new_step _ _ _ (length st4) _
            (st4 ++ [df_head n (sort_values_desc "total_revenue" a)])); [done|].
  cbn [rbind].
  assert (Hp4 : base `prefix_of` st4) by (by do 2 apply prefix_app_r).
  apply (returns_new_assign _ _ _ _ _ (df_head n (sort_values_desc "total_revenue" a))).
  - by apply prefix_app_r.
  - by apply prefix_length.
  - apply lookup_snoc_new.
  - intros st5 Hp5 Hd5. apply returns_new_ret; [done| |done]. by apply prefix_length.
Qed.

(** C8.  Let the object [r] of the store be a table with [order_total]
    and [order_date_iso].  Called on [r], each helper returns, as an object
    that was not in the store, the aggregation of the table as it is: the
    guards skip both derivations, nothing is computed anew.  The store the
    call leaves extends the one it found, so [r] and every other object
    there before hold what they held.  And the result is a function of the
    grouping columns, [order_total] and [qty] alone: a table with the same
    cells in those columns gives the same result, whatever its
    [unit_price] or any other column holds. *)
Theorem existing_totals_are_reused (st : list DataFrame) (r : Obj.ref) (df : DataFrame) :
  st !! r = Some df ->
  has_column "order_total" df = true ->
  has_column "order_date_iso" df = true ->
  returns_new st (Obj.compute_daily_category_revenue r) st (daily_category_aggregate df)
  /\ (forall n, returns_new st (Obj.top_n_products_by_revenue r n) st
                  (top_products_aggregate df n))
  /\ (forall res st',
        Obj.compute_daily_category_revenue r st = (res, st') -> st' !! r = Some df)
  /\ (forall n res st',
        Obj.top_n_products_by_revenue r n st = (res, st') -> st' !! r = Some df)
  /\ compute_daily_category_revenue df = daily_category_aggregate df
  /\ (forall n, top_n_products_by_revenue df n = top_products_aggregate df n)
  /\ (forall df',
        agree_on ["order_date_iso"; "category"; "order_total"; "qty"] df df' ->
        compute_daily_category_revenue df' = compute_daily_category_revenue df)
  /\ (forall df' n,
        agree_on ["product_id"; "product_name"; "category"; "order_total"; "qty"] df df' ->
        top_n_products_by_revenue df' n = top_n_products_by_revenue df n).
Proof.
  intros Hr Ht Hi.
  assert (Hd : compute_daily_category_revenue df = daily_category_aggregate df).
  { unfold compute_daily_category_revenue. rewrite Ht. cbn [negb rbind]. by rewrite Hi. }
  assert (Hn : forall n, top_n_products_by_revenue df n = top_products_aggregate df n).
  { intros n. unfold top_n_products_by_revenue. by rewrite Ht. }
  assert (Hod : returns_new st (Obj.compute_daily_category_revenue r) st
                  (daily_category_aggregate df)).
  { rewrite <- Hd. by apply obj_compute_daily_category_revenue. }
  assert (Hon : forall n, returns_new st (Obj.top_n_products_by_revenue r n) st
                            (top_products_aggregate df n)).
  { intros n. rewrite <- Hn. by apply obj_top_n_products_by_revenue. }
  split; [done|]. split; [done|]. split.
  { intros res st' Hrun. destruct Hod as (st1 & Hp & Hres).
    assert (st1 = st') as <-.
    { destruct (daily_category_aggregate df); [destruct Hres as (r' & Hres & _)|];
        rewrite Hres in Hrun; by injection Hrun as _ <-. }
    by eapply prefix_lookup_Some. }
  split.
  { intros n res st' Hrun. destruct (Hon n) as (st1 & Hp & Hres).
    assert (st1 = st') as <-.
    { destruct (top_products_aggregate df n); [destruct Hres as (r' & Hres & _)|];
        rewrite Hres in Hrun; by injection Hrun as _ <-. }
    by eapply prefix_lookup_Some. }
  split; [done|]. split; [done|]. split.
  - intros df' Hag. rewrite Hd.
    assert (Ht' : has_column "order_total" df' = true).
    { destruct Hag as [_ Hh]. rewrite <- Hh; [done|set_solver]. }
    assert (Hi' : has_column "order_date_iso" df' = true).
    { destruct Hag as [_ Hh]. rewrite <- Hh; [done|set_solver]. }
    unfold compute_daily_category_revenue. rewrite Ht'. cbn [negb rbind]. rewrite Hi'.
    cbn [negb]. unfold daily_category_aggregate.
    rewrite (groupby_sum_agree _ _ df df'); [done|].
    destruct Hag as [HF Hh]. split.
    + eapply Forall2_impl; [exact HF|]. intros r0 r' Hr0 c Hc. apply Hr0. set_solver.
    + intros c Hc. apply Hh. set_solver.
  - intros df' n Hag. rewrite Hn.
    assert (Ht' : has_column "order_total" df' = true).
    { destruct Hag as [_ Hh]. rewrite <- Hh; [done|set_solver]. }
    unfold top_n_products_by_revenue. rewrite Ht'. cbn [negb rbind].
    unfold top_products_aggregate.
    rewrite (groupby_sum_agree _ _ df df'); [done|].
    destruct Hag as [HF Hh]. split.
    + eapply Forall2_impl; [exact HF|]. intros r0 r' Hr0 c Hc. apply Hr0. set_solver.
    + intros c Hc. apply Hh. set_solver.
Qed.

End Aggregates.




(** When the orders table has a [category] column of its own, the join
    names the two [category_x] and [category_y]: the result has no
    [category] column, and the row without a match keeps a null
    [category_y]. *)
Lemma enrich_orders_with_category :
  columns (ok_or empty_frame (enrich_with_products demo_labelled_order demo_products))
  = ["order_id"; "product_id"; "category_x"; "product_name"; "category_y"; "product_price"]
  /\ column "category_x"
       (ok_or empty_frame (enrich_with_products demo_labelled_order demo_products))
     = [VStr "Gift"]
  /\ column "category_y"
       (ok_or empty_frame (enrich_with_products demo_labelled_order demo_products))
     = [NaN]
  /\ column "product_name"
       (ok_or empty_frame (enrich_with_products demo_labelled_order demo_products))
     = [VStr "unknown_product"].
Proof. vm_compute. repeat split; done. Qed.

Lemma fallback_rows_follow_strict_rows_witness :
  has_column "order_date" demo_orders = true
  /\ exists a b, (a < b)%nat
       /\ (strict_positions demo_orders "order_date" (Some "%Y-%m-%d")
           ++ recovered_positions demo_orders "order_date" (Some "%Y-%m-%d")) !! a
          = Some 1%nat
       /\ (strict_positions demo_orders "order_date" (Some "%Y-%m-%d")
           ++ recovered_positions demo_orders "order_date" (Some "%Y-%m-%d")) !! b
          = Some 0%nat.
Proof.
  split; [reflexivity|].
  destruct (fallback_rows_follow_strict_rows demo_orders "order_date" (Some "%Y-%m-%d")
              eq_refl) as (good & bad & _ & _ & _ & _ & _ & _ & _ & Horder).
  apply (Horder 0%nat 1%nat).
  - vm_compute. apply list_elem_of_here.
  - vm_compute. apply list_elem_of_here.
  - lia.
Defined.

Lemma missing_date_column_is_fatal_witness :
  has_column "order_date" no_date_table = false
  /\ parse_date_column no_date_table "order_date" (Some "%Y-%m-%d")
     = Raise (KeyError "Column 'order_date' not in dataframe")
  /\ add_order_date_iso no_date_table "order_date" "order_date_iso"
     = Raise (KeyError "order_date not found in dataframe for add_order_date_iso").
Proof.
  split; [reflexivity|].
  exact (missing_date_column_is_fatal no_date_table "order_date" "order_date_iso"
           (Some "%Y-%m-%d") eq_refl).
Defined.



Lemma write_bad_rows_csv_empty_witness :
  df_empty empty_frame = true
  /\ write_bad_rows_csv (Some empty_frame) "orders-20251025-bad" ["output"; "bad_rows"]
       fresh_disk
     = (Ok None, mkdir_parents ["output"; "bad_rows"] fresh_disk)
  /\ files (mkdir_parents ["output"; "bad_rows"] fresh_disk) = files fresh_disk.
Proof.
  split; [reflexivity|].
  destruct (write_bad_rows_csv_empty_writes_no_file (Some empty_frame) "orders-20251025-bad"
              ["output"; "bad_rows"] fresh_disk eq_refl) as (Hw & Hf & _).
  split; [exact Hw|exact Hf].
Defined.

Lemma no_valid_orders_summary_witness :
  read_products demo_data "data" = Ok (demo_products, empty_frame)
  /\ order_candidates "20251026" demo_data = [("orders_20251026.csv", demo_rejected_orders)]
  /\ parse_date_column demo_rejected_orders "order_date" (Some "%Y-%m-%d")
     = Ok (demo_rejected_parse.1, demo_rejected_parse.2)
  /\ df_empty (validate_dataframe demo_rejected_parse.1 demo_schema).1 = true
  /\ exists fs',
       run_for_date demo_mkdtemp demo_schema "20251026" demo_data "data" ["output"] false
         fresh_disk
       = (Ok {| s_date := "20251026"; s_rows := 0; s_revenue := 0%float;
                s_bad_rows := 2; s_parquet_path := None |}, fs')
       /\ exists d, files fs' !! ["output"; "bad_rows"; "orders-20251026-bad.csv"]
                    = Some (Csv d) /\ len d = 2%nat.
Proof.
  assert (H1 : read_products demo_data "data" = Ok (demo_products, empty_frame))
    by reflexivity.
  assert (H2 : order_candidates "20251026" demo_data
               = [("orders_20251026.csv", demo_rejected_orders)]) by reflexivity.
  assert (H3 : parse_date_column demo_rejected_orders "order_date" (Some "%Y-%m-%d")
               = Ok (demo_rejected_parse.1, demo_rejected_parse.2)) by reflexivity.
  assert (H4 : df_empty (validate_dataframe demo_rejected_parse.1 demo_schema).1 = true)
    by reflexivity.
  do 4 (split; [assumption|]).
  destruct (no_valid_orders_summary demo_mkdtemp demo_schema "20251026" demo_data "data"
              ["output"] false fresh_disk _ _ _ _ _ _ _ H1 H2 H3 H4)
    as (fs' & Hrun & _ & Hfile).
  exists fs'. split; [exact Hrun|].
  destruct (Hfile eq_refl) as (d & _ & Hlen & Hd); [vm_compute; lia|].
  exists d. split; [exact Hd|exact Hlen].
Defined.

Lemma persisted_summary_date_is_iso_witness :
  demo_run = (Ok demo_summary, snd demo_run)
  /\ s_rows demo_summary <> 0%nat
  /\ is_yyyymmdd "20251025" = true
  /\ exists t,
       files (snd demo_run)
         !! ["output"; "summaries"; "summary_" +:+ strftime_ymd t +:+ ".json"]
       = Some (Json [("date", VStr (strftime_ymd t)); ("rows", VInt 3);
                     ("revenue", VFloat 47.25)])
       /\ s_date demo_summary = "20251025"
       /\ strftime_ymd t <> "20251025".
Proof.
  assert (H1 : demo_run = (Ok demo_summary, snd demo_run)) by (vm_compute; reflexivity).
  assert (H2 : s_rows demo_summary <> 0%nat) by (simpl; lia).
  split; [exact H1|]. split; [exact H2|]. split; [reflexivity|].
  destruct (persisted_summary_date_is_iso demo_mkdtemp demo_schema "20251025" demo_data
              "data" ["output"] fresh_disk (snd demo_run) demo_summary H1 H2)
    as (pdf & pbad & good & bad & enriched & first & rest & t & _ & _ & _ & _ & _ & _
        & Hfile & Hdate & Hne).
  exists t. split; [exact Hfile|]. split; [exact Hdate|]. apply Hne. reflexivity.
Defined.

Lemma existing_totals_are_reused_witness :
  [demo_enriched] !! 0%nat = Some demo_enriched
  /\ has_column "order_total" demo_enriched = true
  /\ has_column "order_date_iso" demo_enriched = true
  /\ compute_daily_category_revenue demo_enriched = daily_category_aggregate demo_enriched
  /\ column "total_revenue" (ok_or empty_frame (compute_daily_category_revenue demo_enriched))
     = [VFloat 27.75]
  /\ snd (Obj.compute_daily_category_revenue 0%nat [demo_enriched]) !! 0%nat
     = Some demo_enriched.
Proof.
  split; [reflexivity|]. split; [reflexivity|]. split; [reflexivity|].
  destruct (existing_totals_are_reused [demo_enriched] 0%nat demo_enriched
              eq_refl eq_refl eq_refl) as (_ & _ & Hsame & _ & Hd & _).
  split; [exact Hd|]. split; [vm_compute; reflexivity|].
  apply (Hsame (fst (Obj.compute_daily_category_revenue 0%nat [demo_enriched]))).
  apply surjective_pairing.
Defined.

Lemma add_order_total_missing_qty_raises `{Pandas} :
  add_order_total no_qty_order
  = Raise (AttributeError "'int' object has no attribute 'fillna'").
Proof. vm_compute. reflexivity. Qed.


Lemma contains_char_false a s :
  contains (String a "") s = false -> remove_char a s = s.
Proof.
  unfold contains. induction s as [|b s IH]; simpl; [done|].
  destruct (Ascii.ascii_dec a b) as [->|Hne].
  - by destruct s.
  - destruct (String.index 0 (String a "") s); [done|].
    intros _. rewrite (proj2 (Ascii.eqb_neq a b) Hne). f_equal. by apply IH.
Qed.

Lemma contains_remove_char a s : contains (String a "") (remove_char a s) = false.
Proof.
  unfold contains. induction s as [|b s IH]; simpl; [done|].
  destruct (Ascii.eqb a b) eqn:E; [done|]. simpl.
  destruct (Ascii.ascii_dec a b) as [->|Hne].
  - by rewrite Ascii.eqb_refl in E.
  - by destruct (String.index 0 (String a "") (remove_char a s)).
Qed.

(** [_normalize_date_str] drops every dash, whichever branch it takes. *)
Lemma normalize_date_str_remove s : _normalize_date_str s = remove_char "-" s.
Proof.
  unfold _normalize_date_str. destruct (contains "-" s) eqn:E; [done|].
  symmetry. by apply contains_char_false.
Qed.

Lemma remove_char_app a s1 s2 :
  remove_char a (s1 +:+ s2) = remove_char a s1 +:+ remove_char a s2.
Proof.
  induction s1 as [|b s1 IH]; simpl; [done|].
  change (String b s1 +:+ s2) with (String b (s1 +:+ s2)). simpl.
  destruct (Ascii.eqb a b); [done|]. by rewrite IH.
Qed.

Lemma remove_char_length a s : (String.length (remove_char a s) <= String.length s)%nat.
Proof. induction s as [|b s IH]; simpl; [done|]. destruct (Ascii.eqb a b); simpl; lia. Qed.

Lemma remove_dash_digits s : all_digits s = true -> remove_char "-" s = s.
Proof.
  induction s as [|b s IH]; cbn [remove_char all_digits]; [done|].
  intros [Hb Hs]%andb_prop. destruct (Ascii.eqb "-" b) eqn:E.
  - apply Ascii.eqb_eq in E. subst b. vm_compute in Hb. discriminate Hb.
  - rewrite IH; [reflexivity|exact Hs].
Qed.

Lemma is_digit_of_nat k : (k < 10)%nat -> is_digit (ascii_of_nat (48 + k)) = true.
Proof. intros Hk. do 10 (destruct k as [|k]; [reflexivity|]). lia. Qed.

Lemma all_digits_decimal_aux fuel n acc :
  all_digits acc = true -> all_digits (decimal_aux fuel n acc) = true.
Proof.
  revert n acc. induction fuel as [|fuel IH]; intros n acc Hacc; cbn [decimal_aux]; [done|].
  assert (Hd : all_digits (String (ascii_of_nat (48 + n mod 10)) acc) = true).
  { cbn [all_digits]. rewrite Hacc, andb_true_r. apply is_digit_of_nat.
    apply Nat.mod_upper_bound. lia. }
  destruct (n / 10 =? 0)%nat; [exact Hd|]. apply IH. exact Hd.
Qed.

Lemma all_digits_zeros k : all_digits (zeros k) = true.
Proof. induction k; simpl; done. Qed.

Lemma all_digits_zfill w n : all_digits (zfill w n) = true.
Proof.
  unfold zfill. rewrite all_digits_app, all_digits_zeros. simpl.
  by apply all_digits_decimal_aux.
Qed.

Lemma length_append (a b : string) :
  String.length (a +:+ b) = (String.length a + String.length b)%nat.
Proof.
  induction a as [|x a IH]; simpl; [done|].
  change (String x a +:+ b) with (String x (a +:+ b)). simpl. by rewrite IH.
Qed.

Lemma length_zfill_4 y : (Z.of_nat y < 10000)%Z -> String.length (zfill 4 y) = 4%nat.
Proof.
  intros Hy.
  assert (Hall : forallb (fun y => (String.length (zfill 4 y) =? 4)%nat)
                   (seq 0 (Z.to_nat 10000)) = true)
    by (vm_compute; reflexivity).
  rewrite forallb_forall in Hall. apply Nat.eqb_eq, Hall, in_seq. lia.
Qed.

Lemma length_zfill_2 m : (m < 100)%nat -> String.length (zfill 2 m) = 2%nat.
Proof.
  intros Hm.
  assert (Hall : forallb (fun m => (String.length (zfill 2 m) =? 2)%nat) (seq 0 100) = true)
    by (vm_compute; reflexivity).
  rewrite forallb_forall in Hall. apply Nat.eqb_eq, Hall, in_seq. lia.
Qed.

(** X1.  [_normalize_date_str] returns a string without a dash, no longer
    than its argument; applying it twice is applying it once; and a string of
    digits, such as a date that is in the form [YYYYMMDD] already, comes
    back as it is. *)
Theorem normalize_date_str_no_dash (s : string) :
  contains "-" (_normalize_date_str s) = false
  /\ _normalize_date_str (_normalize_date_str s) = _normalize_date_str s
  /\ (String.length (_normalize_date_str s) <= String.length s)%nat
  /\ (all_digits s = true -> _normalize_date_str s = s).
Proof.
  rewrite !normalize_date_str_remove. split; [apply contains_remove_char|].
  split; [|split; [apply remove_char_length|apply remove_dash_digits]].
  apply contains_char_false, contains_remove_char.
Qed.

(** X2.  The two date forms of the pipeline meet in [_normalize_date_str]:
    the ISO form [%Y-%m-%d] of a timestamp, which names the partition and
    the summary file, normalises to the digits of its year, month and day,
    and for a year below 10000 that is a date of the form [YYYYMMDD], the
    form [run_for_date] takes. *)
Theorem normalize_iso_date (t : Timestamp) :
  _normalize_date_str (strftime_ymd t)
  = zfill 4 (ts_year t) +:+ zfill 2 (ts_month t) +:+ zfill 2 (ts_day t)
  /\ ((Z.of_nat (ts_year t) < 10000)%Z -> (ts_month t < 100)%nat -> (ts_day t < 100)%nat ->
      is_yyyymmdd (_normalize_date_str (strftime_ymd t)) = true).
Proof.
  assert (Heq : _normalize_date_str (strftime_ymd t)
                = zfill 4 (ts_year t) +:+ zfill 2 (ts_month t) +:+ zfill 2 (ts_day t)).
  { rewrite normalize_date_str_remove. unfold strftime_ymd.
    rewrite !remove_char_app.
    rewrite (remove_dash_digits (zfill 4 (ts_year t))) by apply all_digits_zfill.
    rewrite (remove_dash_digits (zfill 2 (ts_month t))) by apply all_digits_zfill.
    rewrite (remove_dash_digits (zfill 2 (ts_day t))) by apply all_digits_zfill.
    reflexivity. }
  split; [done|]. intros Hy Hm Hd. rewrite Heq. unfold is_yyyymmdd.
  rewrite !length_append, length_zfill_4, !length_zfill_2 by done.
  rewrite !all_digits_app, !all_digits_zfill. done.
Qed.


Lemma dict_set_fresh {V} (k : string) (v : V) (d : list (string * V)) :
  k ∉ map fst d -> dict_set k v d = d ++ [(k, v)].
Proof.
  induction d as [|[k' v'] d IH]; simpl; [done|].
  intros Hk. apply not_elem_of_cons in Hk as [Hne Hk].
  destruct (String.eqb k' k) eqn:E.
  - apply String.eqb_eq in E. congruence.
  - by rewrite IH.
Qed.

Lemma elem_of_dates a n d : d ∈ dates a n <-> (a <= d < a + Z.of_nat n)%Z.
Proof.
  revert a. induction n as [|n IH]; intros a; simpl.
  - rewrite elem_of_nil. lia.
  - rewrite elem_of_cons, IH. lia.
Qed.

Lemma NoDup_dates a n : NoDup (dates a n).
Proof.
  revert a. induction n as [|n IH]; intros a; simpl; constructor; [|apply IH].
  rewrite elem_of_dates. lia.
Qed.

Section RunFacts.
Context `{Pandas}.
Variable mkdtemp : FileSystem -> path.
Variable OrderSchema : Schema.

(** The path [write_outputs] returns does not depend on the disk. *)
Lemma write_outputs_path enriched n rev bad date_str out fs r rest :
  rows enriched = r :: rest ->
  exists fs',
    write_outputs mkdtemp enriched n rev bad date_str out fs
    = (Ok (path_join (path_join (path_join out "processed")
                        ("date=" +:+ py_str (cell r "order_date_iso"))) "data.parquet"), fs').
Proof.
  intros Hr. unfold write_outputs. unfold column. rewrite Hr. cbn [map].
  unfold io_bind at 1. unfold io_lift.
  unfold io_bind at 1.
  destruct (write_parquet_partition mkdtemp enriched (cell r "order_date_iso")
              (path_join out "processed") fs) as [[p|e] fs1] eqn:E1.
  2:{ exfalso. unfold write_parquet_partition, io_bind, io_do, io_ret in E1. done. }
  assert (p = path_join (path_join (path_join out "processed")
                           ("date=" +:+ py_str (cell r "order_date_iso"))) "data.parquet")
    as ->.
  { unfold write_parquet_partition, io_bind, io_do, io_ret in E1. by injection E1 as <- _. }
  unfold io_bind at 1.
  destruct (write_summary_json _ (path_join out "summaries") fs1) as [[p2|e] fs2] eqn:E2.
  2:{ exfalso. unfold write_summary_json, io_bind, io_do, io_ret in E2. done. }
  destruct (flush_bad_rows_total bad date_str out fs2) as (fs3 & Hf).
  rewrite (io_bind_Ok _ _ _ _ _ Hf). by eexists.
Qed.

(** A run either raises, whatever the disk and with or without
    [dry_run], and leaves the disk as it is; or returns one summary,
    whatever the disk, and a dry run leaves it as it is. *)
Lemma run_for_date_outcome date_str data data_path out_base :
  (exists e, forall dry fs,
      run_for_date mkdtemp OrderSchema date_str data data_path out_base dry fs = (Raise e, fs))
  \/ (forall dry, exists s, forall fs, exists fs',
        run_for_date mkdtemp OrderSchema date_str data data_path out_base dry fs = (Ok s, fs')
        /\ (dry = true -> fs' = fs)).
Proof.
  unfold run_for_date.
  destruct (read_products data data_path) as [[products_df products_bad]|e] eqn:Eprod.
  2:{ left. exists e. intros dry fs. by rewrite (io_bind_Raise _ _ _ e fs). }
  pose proof (read_products_bad_empty _ _ _ _ Eprod) as ->.
  destruct (read_orders_for_date date_str data data_path) as [[pg pb]|e] eqn:Eord.
  2:{ left. exists e. intros dry fs.
      rewrite (io_bind_Ok _ _ _ (products_df, empty_frame) fs) by done.
      rewrite (io_bind_Ok _ _ _ tt fs) by done.
      by rewrite (io_bind_Raise _ _ _ e fs). }
  destruct (validate_dataframe pg OrderSchema) as [valid vbad] eqn:Eval.
  destruct (df_empty valid) eqn:Ev.
  - right. intros dry. eexists. intros fs.
    rewrite (io_bind_Ok _ _ _ (products_df, empty_frame) fs) by done.
    rewrite (io_bind_Ok _ _ _ tt fs) by done.
    rewrite (io_bind_Ok _ _ _ (pg, pb) fs) by done.
    rewrite Eval, Ev. destruct dry; cbn [negb].
    + exists fs. by rewrite (io_bind_Ok _ _ _ tt fs).
    + destruct (flush_bad_rows_total (combine_bad_rows pb vbad) date_str out_base fs)
        as (fs' & Hf).
      exists fs'. by rewrite (io_bind_Ok _ _ _ _ _ Hf).
  - destruct (transform valid products_df) as [enriched|e] eqn:Et.
    2:{ left. exists e. intros dry fs.
        rewrite (io_bind_Ok _ _ _ (products_df, empty_frame) fs) by done.
        rewrite (io_bind_Ok _ _ _ tt fs) by done.
        rewrite (io_bind_Ok _ _ _ (pg, pb) fs) by done.
        rewrite Eval, Ev.
        rewrite (io_bind_Raise _ _ _ e fs); [done|]. unfold io_lift. by rewrite Et. }
    assert (Hrows : exists r rest, rows enriched = r :: rest).
    { apply transform_rows in Et as [Hl _]. apply df_empty_false_rows in Ev.
      destruct (rows valid); [done|]. destruct (rows enriched) as [|r rest]; [simpl in Hl; lia|].
      by exists r, rest. }
    destruct Hrows as (r & rest & Hrows).
    right. intros dry. destruct dry; eexists; intros fs;
      rewrite (io_bind_Ok _ _ _ (products_df, empty_frame) fs) by done;
      rewrite (io_bind_Ok _ _ _ tt fs) by done;
      rewrite (io_bind_Ok _ _ _ (pg, pb) fs) by done;
      rewrite Eval, Ev;
      rewrite (io_bind_Ok _ _ _ enriched fs) by (unfold io_lift; by rewrite Et);
      cbn [negb].
    + exists fs. by rewrite (io_bind_Ok _ _ _ None fs).
    + destruct (write_outputs_path enriched (len enriched) (total_revenue_of enriched)
                  (combine_bad_rows pb vbad) date_str out_base fs r rest Hrows) as (fs' & Hw).
      exists fs'. split; [|done].
      rewrite (io_bind_Ok _ _ _
                 (Some (path_join (path_join (path_join out_base "processed")
                                     ("date=" +:+ py_str (cell r "order_date_iso")))
                          "data.parquet")) fs'); [reflexivity|].
      by rewrite (io_bind_Ok _ _ _ _ _ Hw).
Qed.

Lemma run_for_date_fst date_str data data_path out_base dry fs fs' :
  fst (run_for_date mkdtemp OrderSchema date_str data data_path out_base dry fs)
  = fst (run_for_date mkdtemp OrderSchema date_str data data_path out_base dry fs').
Proof.
  destruct (run_for_date_outcome date_str data data_path out_base) as [[e He]|Hs].
  - by rewrite !He.
  - destruct (Hs dry) as [s Hs'].
    destruct (Hs' fs) as (fs1 & -> & _). destruct (Hs' fs') as (fs2 & -> & _). done.
Qed.

Lemma run_for_date_dry_fs date_str data data_path out_base fs :
  snd (run_for_date mkdtemp OrderSchema date_str data data_path out_base true fs) = fs.
Proof.
  destruct (run_for_date_outcome date_str data data_path out_base) as [[e He]|Hs].
  - by rewrite He.
  - destruct (Hs true) as [s Hs']. destruct (Hs' fs) as (fs1 & -> & Hfs). simpl. by apply Hfs.
Qed.

(** X15.  A run that raises has written nothing: everything that can fail
    in [run_for_date] comes before its first write.  It leaves the disk as
    it found it, and the same call raises the same exception on any disk,
    with or without [dry_run]. *)
Theorem run_for_date_fails_before_writing (date_str : string) (data : DataDir)
    (data_path : string) (out_base : path) (dry : bool) (fs fs' : FileSystem) (e : exn) :
  run_for_date mkdtemp OrderSchema date_str data data_path out_base dry fs = (Raise e, fs') ->
  fs' = fs
  /\ forall dry' fs0,
       run_for_date mkdtemp OrderSchema date_str data data_path out_base dry' fs0
       = (Raise e, fs0).
Proof.
  intros Hrun.
  destruct (run_for_date_outcome date_str data data_path out_base) as [[e' He]|Hs].
  - rewrite He in Hrun. injection Hrun as <- <-. by split.
  - destruct (Hs dry) as [s Hs']. destruct (Hs' fs) as (fs1 & Hok & _). congruence.
Qed.

End RunFacts.

Section MainFacts.
Context `{Pandas} `{Datetime}.
Variable mkdtemp : FileSystem -> path.
Variable OrderSchema : Schema.
Variable data : DataDir.
Variable data_path : string.
Variable out_base : path.

Lemma run_dates_entries days cur dry results fs0 fs :
  (cur + Z.of_nat days <= MAXORDINAL)%Z ->
  NoDup (map fst results ++ map strftime (dates cur days)) ->
  exists fs',
    run_dates mkdtemp OrderSchema data data_path out_base days cur dry results fs
    = (Returns
         (results
          ++ map (fun d => (strftime d,
                            entry_of (fst (run_for_date mkdtemp OrderSchema (strftime d) data
                                             data_path out_base dry fs0))))
                 (dates cur days)), fs').
Proof.
  revert cur results fs. induction days as [|days IH]; intros cur results fs Hmax Hnd.
  - exists fs. simpl. by rewrite app_nil_r.
  - cbn [run_dates dates map].
    destruct (run_for_date mkdtemp OrderSchema (strftime cur) data data_path out_base dry fs)
      as [res fs1] eqn:Erun.
    assert (Hres : res = fst (run_for_date mkdtemp OrderSchema (strftime cur) data data_path
                                out_base dry fs0)).
    { rewrite (run_for_date_fst _ _ _ _ _ _ _ fs0 fs), Erun. done. }
    assert (Hlt : (cur <? MAXORDINAL)%Z = true) by (apply Z.ltb_lt; lia).
    rewrite Hlt.
    cbn [dates map] in Hnd.
    rewrite dict_set_fresh.
    2:{ apply NoDup_app in Hnd as (_ & Hdis & _). intros Hin. apply (Hdis _ Hin). by left. }
    destruct (IH (cur + 1)%Z
                (results ++ [(strftime cur, match res with
                                            | Ok summary => Done summary
                                            | Raise e => Failed (str_exn e)
                                            end)]) fs1) as (fs' & Hrun).
    + lia.
    + rewrite map_app. cbn [map fst]. rewrite <- app_assoc. exact Hnd.
    + exists fs'. rewrite Hrun. rewrite <- app_assoc. cbn [app]. rewrite <- Hres. done.
Qed.

Lemma run_dates_dry days cur results fs :
  snd (run_dates mkdtemp OrderSchema data data_path out_base days cur true results fs) = fs.
Proof.
  revert cur results fs. induction days as [|days IH]; intros cur results fs; [done|].
  cbn [run_dates].
  pose proof (run_for_date_dry_fs mkdtemp OrderSchema (strftime cur) data data_path out_base fs)
    as Hdry.
  destruct (run_for_date mkdtemp OrderSchema (strftime cur) data data_path out_base true fs)
    as [res fs1]. simpl in Hdry. subst fs1.
  destruct (cur <? MAXORDINAL)%Z; [apply IH|done].
Qed.

Lemma run_dates_overflow days cur dry results fs :
  (cur <= MAXORDINAL < cur + Z.of_nat days)%Z ->
  exists fs',
    run_dates mkdtemp OrderSchema data data_path out_base days cur dry results fs
    = (Raises (OverflowError "date value out of range"), fs').
Proof.
  revert cur results fs. induction days as [|days IH]; intros cur results fs Hr; [lia|].
  cbn [run_dates].
  destruct (run_for_date mkdtemp OrderSchema (strftime cur) data data_path out_base dry fs)
    as [res fs1].
  destruct (cur <? MAXORDINAL)%Z eqn:E.
  - apply Z.ltb_lt in E. apply IH. lia.
  - by exists fs1.
Qed.

(** X3.  Let the two dates parse, to the days [a] and [b], with [b] before
    9999-12-31, and let the days from [a] to [b] print as different strings.
    Then [main] returns, and the dict it prints has one entry for each day
    from [a] to [b], in that order and no other: the summary of the day's
    run, or its error when the run raised.  So a run that fails stops no
    later run, and no exception of a run leaves [main].  The dict is empty
    when [b] is before [a], and has the start date alone when [--end-date]
    is absent. *)
Theorem main_runs_every_date (args : Args) (fs : FileSystem) (a b : Z) :
  strptime (_normalize_date_str (start_date args)) = inl a ->
  strptime (end_arg args) = inl b ->
  (b < MAXORDINAL)%Z ->
  (forall d d', (a <= d <= b)%Z -> (a <= d' <= b)%Z -> strftime d = strftime d' -> d = d') ->
  exists fs',
    main mkdtemp OrderSchema data data_path out_base args fs
    = (Returns
         (map (fun d => (strftime d,
                         entry_of (fst (run_for_date mkdtemp OrderSchema (strftime d) data
                                          data_path out_base (dry_run args) fs))))
              (dates a (Z.to_nat (b - a + 1)))), fs').
Proof.
  intros Ha Hb Hmax Hinj. unfold main. rewrite Ha.
  fold (end_arg args). rewrite Hb.
  destruct (Z.lt_ge_cases b a) as [Hlt|Hge].
  { replace (Z.to_nat (b - a + 1)) with O by lia. by exists fs. }
  destruct (run_dates_entries (Z.to_nat (b - a + 1)) a (dry_run args) [] fs fs) as (fs' & Hrun).
  - lia.
  - cbn [map app]. apply NoDup_fmap_2_strong; [|apply NoDup_dates].
    intros d d' Hd Hd' Heq. apply elem_of_dates in Hd, Hd'. apply Hinj; [lia|lia|done].
  - exists fs'. exact Hrun.
Qed.

(** X4.  What [main] itself raises.  A date that does not parse, be it the
    end date after a start date that parsed, is a ValueError before any run:
    the disk is as it was.  And a range that reaches 9999-12-31 ends in an
    OverflowError, when the loop steps past the last day there is: the runs
    are made, but nothing is printed. *)
Theorem main_own_failures (args : Args) (fs : FileSystem) :
  (forall msg, strptime (_normalize_date_str (start_date args)) = inr msg ->
     main mkdtemp OrderSchema data data_path out_base args fs = (Raises (ValueError msg), fs))
  /\ (forall a msg, strptime (_normalize_date_str (start_date args)) = inl a ->
        strptime (end_arg args) = inr msg ->
        main mkdtemp OrderSchema data data_path out_base args fs = (Raises (ValueError msg), fs))
  /\ (forall a b, strptime (_normalize_date_str (start_date args)) = inl a ->
        strptime (end_arg args) = inl b ->
        (a <= MAXORDINAL <= b)%Z ->
        exists fs',
          main mkdtemp OrderSchema data data_path out_base args fs
          = (Raises (OverflowError "date value out of range"), fs')).
Proof.
  split; [|split].
  - intros msg Ha. unfold main. by rewrite Ha.
  - intros a msg Ha Hb. unfold main. rewrite Ha. fold (end_arg args). by rewrite Hb.
  - intros a b Ha Hb Hr. unfold main. rewrite Ha. fold (end_arg args). rewrite Hb.
    apply run_dates_overflow. lia.
Qed.

(** X5.  With [--dry-run], [main] leaves the disk as it found it, over any
    range of dates and whatever the runs do, also when it raises. *)
Theorem main_dry_run_writes_nothing (args : Args) (fs : FileSystem) :
  dry_run args = true ->
  snd (main mkdtemp OrderSchema data data_path out_base args fs) = fs.
Proof.
  intros Hdry. unfold main.
  destruct (strptime (_normalize_date_str (start_date args))) as [a|msg]; [|done].
  destruct (strptime _) as [b|msg]; [|done].
  rewrite Hdry. apply run_dates_dry.
Qed.

End MainFacts.


Lemma select_none {A} (m : list bool) (l : list A) :
  Forall (fun b => b = false) m -> select m l = [].
Proof.
  intros Hm. revert l. induction Hm as [|b m -> _ IH]; intros [|x l]; simpl; auto.
Qed.

Lemma select_all {A} (m : list bool) (l : list A) :
  Forall (fun b => b = true) m -> length m = length l -> select m l = l.
Proof.
  intros Hm. revert l. induction Hm as [|b m -> _ IH]; intros [|x l]; simpl; try done.
  intros [= Hl]. by rewrite IH.
Qed.

Section ParseTags.
Context `{Pandas}.

(** X6.  The error tags of [parse_date_column], for a date column other
    than [_parse_error].  Every row of the bad table carries
    ["Flexible parsing also failed"]: the message of the first parse, with
    the column and the format in it, never reaches the bad table.  It stays
    instead on the rows the fallback recovered, which sit in the good table
    with a timestamp and with that tag.  A row the first parse read has
    the [_parse_error] cell of its input row, if any.  Every good row has a
    timestamp in the date column. *)
Theorem parse_error_tags (df : DataFrame) (c : string) (fmt : option string) :
  has_column c df = true ->
  c <> "_parse_error" ->
  exists good bad gs gr,
    parse_date_column df c fmt = Ok (good, bad)
    /\ rows good = gs ++ gr
    /\ length gs = length (strict_positions df c fmt)
    /\ length gr = length (recovered_positions df c fmt)
    /\ Forall (fun b => b !! "_parse_error" = Some (VStr "Flexible parsing also failed"))
         (rows bad)
    /\ Forall (fun g => exists t, g !! c = Some (VTime t)) (rows good)
    /\ Forall2 (fun i g => exists r, rows df !! i = Some r
                  /\ g !! "_parse_error" = r !! "_parse_error")
         (strict_positions df c fmt) gs
    /\ Forall (fun g => g !! "_parse_error"
                        = Some (VStr ("Failed to parse '" +:+ c +:+ "' with format='"
                                      +:+ format_repr fmt +:+ "'"))) gr.
Proof.
  intros Hc Hne.
  destruct (parse_date_column_rows df c fmt Hc) as (good & bad & gs & gr & Hp & Hg & HS & HR & HB).
  exists good, bad, gs, gr. split; [done|]. split; [done|].
  split; [symmetry; by eapply Forall2_length|].
  split; [symmetry; by eapply Forall2_length|].
  split; [|split; [|split]].
  - apply Forall_forall. intros b Hb. apply list_elem_of_lookup in Hb as [k Hk].
    destruct (Forall2_lookup_r _ _ _ _ _ HB Hk) as (i & _ & j & r & _ & _ & _ & ->).
    apply lookup_insert_eq.
  - rewrite Hg. apply Forall_app. split.
    + apply Forall_forall. intros g Hin. apply list_elem_of_lookup in Hin as [k Hk].
      destruct (Forall2_lookup_r _ _ _ _ _ HS Hk) as (i & _ & r & t & _ & _ & ->).
      exists t. apply lookup_insert_eq.
    + apply Forall_forall. intros g Hin. apply list_elem_of_lookup in Hin as [k Hk].
      destruct (Forall2_lookup_r _ _ _ _ _ HR Hk) as (i & _ & j & r & t & _ & _ & _ & ->).
      exists t. apply lookup_insert_eq.
  - eapply Forall2_impl; [exact HS|]. intros i g (r & t & Hr & _ & ->).
    exists r. split; [done|]. by rewrite lookup_insert_ne.
  - apply Forall_forall. intros g Hin. apply list_elem_of_lookup in Hin as [k Hk].
    destruct (Forall2_lookup_r _ _ _ _ _ HR Hk) as (i & _ & j & r & t & _ & _ & _ & ->).
    rewrite lookup_insert_ne by done. apply lookup_insert_eq.
Qed.

(** X7.  When the first parse reads every cell of the column,
    [parse_date_column] returns the input with the timestamps in that
    column, rows and labels as they were, and a bad table that has the
    input's labels and no row: no [_parse_error] column is made. *)
Theorem parse_clean_column (df : DataFrame) (c : string) (fmt : option string) :
  has_column c df = true ->
  Forall (fun o => is_NaT o = false) (strict_parsed df c fmt) ->
  parse_date_column df c fmt
  = Ok (setitem c (map time_cell (strict_parsed df c fmt)) df,
        {| columns := columns df; rows := [] |})
  /\ columns (setitem c (map time_cell (strict_parsed df c fmt)) df) = columns df
  /\ len (setitem c (map time_cell (strict_parsed df c fmt)) df) = len df.
Proof.
  intros Hc Hall.
  pose proof (length_strict_parsed df c fmt) as Hlen.
  assert (Hmask : Forall (fun b => b = false) (map is_NaT (strict_parsed df c fmt))).
  { apply Forall_fmap. eapply Forall_impl; [exact Hall|]. done. }
  assert (Hnot : Forall (fun b => b = true) (map negb (map is_NaT (strict_parsed df c fmt)))).
  { apply Forall_fmap. eapply Forall_impl; [exact Hmask|]. by intros b ->. }
  assert (Hbad : strict_bad df c fmt = {| columns := columns df; rows := [] |}).
  { unfold strict_bad, df_select. rewrite (select_none _ _ Hmask).
    unfold df_empty. simpl. done. }
  split; [|split].
  - unfold parse_date_column. rewrite Hc. cbn [negb]. rewrite Hbad.
    unfold df_empty at 1. cbn [rows length Nat.eqb orb negb].
    unfold df_select.
    rewrite (select_all _ (map time_cell (strict_parsed df c fmt)) Hnot)
      by (by rewrite !length_map).
    rewrite (select_all _ (rows df) Hnot) by (by rewrite !length_map).
    by destruct df.
  - by apply columns_setitem_has.
  - unfold len. apply length_setitem_rows. by rewrite length_map.
Qed.

(** X8.  [read_inventory]: without a file [inventory.csv] it raises
    FileNotFoundError; when the file has no [last_restock_date] column it
    raises KeyError; otherwise it returns the split of the file's rows, all
    of them, the good ones with a timestamp in that column and the bad ones
    tagged. *)
Theorem read_inventory_outcomes (data : DataDir) (base : string) :
  (List.find (fun f => String.eqb (fst f) "inventory.csv") data = None ->
   read_inventory data base
   = Raise (FileNotFoundError ("inventory.csv not found in " +:+ base)))
  /\ (forall f, List.find (fun f => String.eqb (fst f) "inventory.csv") data = Some f ->
        fst f = "inventory.csv"
        /\ (has_column "last_restock_date" (snd f) = false ->
            read_inventory data base
            = Raise (KeyError "Column 'last_restock_date' not in dataframe"))
        /\ (has_column "last_restock_date" (snd f) = true ->
            exists good bad,
              read_inventory data base = Ok (good, bad)
              /\ (len good + len bad = len (snd f))%nat
              /\ Forall (fun g => exists t, g !! "last_restock_date" = Some (VTime t))
                   (rows good)
              /\ Forall (fun b => b !! "_parse_error"
                                  = Some (VStr "Flexible parsing also failed")) (rows bad))).
Proof.
  split.
  - intros Hf. unfold read_inventory. by rewrite Hf.
  - intros f Hf. split; [|split].
    + apply find_some in Hf as [_ Hf]. by apply String.eqb_eq in Hf.
    + intros Hc. unfold read_inventory, parse_date_column. by rewrite Hf, Hc.
    + intros Hc. unfold read_inventory. rewrite Hf.
      destruct (parse_date_column_rows (snd f) "last_restock_date" (Some "%Y-%m-%d") Hc)
        as (good & bad & gs & gr & Hp & Hg & HS & HR & HB).
      exists good, bad. split; [done|]. split; [|split].
      * by apply parse_date_column_shape in Hp as (_ & Hlen & _).
      * rewrite Hg. apply Forall_app. split.
        -- apply Forall_forall. intros g Hin. apply list_elem_of_lookup in Hin as [k Hk].
           destruct (Forall2_lookup_r _ _ _ _ _ HS Hk) as (i & _ & r & t & _ & _ & ->).
           exists t. apply lookup_insert_eq.
        -- apply Forall_forall. intros g Hin. apply list_elem_of_lookup in Hin as [k Hk].
           destruct (Forall2_lookup_r _ _ _ _ _ HR Hk) as (i & _ & j & r & t & _ & _ & _ & ->).
           exists t. apply lookup_insert_eq.
      * apply Forall_forall. intros b Hb. apply list_elem_of_lookup in Hb as [k Hk].
        destruct (Forall2_lookup_r _ _ _ _ _ HB Hk) as (i & _ & j & r & _ & _ & _ & ->).
        apply lookup_insert_eq.
Qed.

End ParseTags.


Lemma parent_prefix (p : path) : parent p `prefix_of` p.
Proof.
  unfold parent. destruct (decide (p = [])) as [->|Hne]; [done|].
  rewrite (app_removelast_last "" Hne) at 2. by apply prefix_app_r.
Qed.

Lemma iter_parent_prefix k (p : path) : Nat.iter k parent p `prefix_of` p.
Proof.
  induction k as [|k IH]; simpl; [done|].
  etrans; [apply parent_prefix|exact IH].
Qed.

Lemma iter_parent_shift k (p : path) : Nat.iter k parent (parent p) = Nat.iter (S k) parent p.
Proof. induction k as [|k IH]; simpl; [done|]. by rewrite IH. Qed.

Lemma iter_parent_root k : Nat.iter k parent [] = [].
Proof. induction k as [|k IH]; simpl; [done|]. by rewrite IH. Qed.

Lemma find_project_root_from_spec n cur fs :
  match find_project_root_from n cur fs with
  | Some r =>
      exists k, (k < n)%nat /\ r = Nat.iter k parent cur /\ is_project_root r fs = true
                /\ forall j, (j < k)%nat -> is_project_root (Nat.iter j parent cur) fs = false
  | None => forall j, (j < n)%nat -> is_project_root (Nat.iter j parent cur) fs = false
  end.
Proof.
  revert cur. induction n as [|n IH]; intros cur; cbn [find_project_root_from].
  { intros j Hj. lia. }
  destruct (path_exists (path_join cur "data") fs) eqn:Ed.
  { exists O. split; [lia|]. split; [done|]. split; [|intros j Hj; lia].
    unfold is_project_root. by rewrite Ed. }
  destruct (existsb _ PROJECT_MARKERS) eqn:Em.
  { exists O. split; [lia|]. split; [done|]. split; [|intros j Hj; lia].
    unfold is_project_root. by rewrite Ed, Em. }
  assert (Hcur : is_project_root cur fs = false).
  { unfold is_project_root. by rewrite Ed, Em. }
  destruct (bool_decide (parent cur = cur)) eqn:Ep.
  { apply bool_decide_eq_true in Ep.
    assert (Hroot : cur = []).
    { unfold parent in Ep. destruct (decide (cur = [])) as [|Hne]; [done|].
      apply (f_equal length) in Ep.
      rewrite (app_removelast_last "" Hne) in Ep at 2. rewrite length_app in Ep.
      simpl in Ep. lia. }
    subst cur. intros j _. by rewrite iter_parent_root. }
  specialize (IH (parent cur)).
  destruct (find_project_root_from n (parent cur) fs) as [r|].
  - destruct IH as (k & Hk & -> & Hr & Hbefore).
    exists (S k). split; [lia|]. split; [apply iter_parent_shift|].
    split; [exact Hr|].
    intros [|j] Hj; [exact Hcur|]. rewrite <- iter_parent_shift. apply Hbefore. lia.
  - intros [|j] Hj; [exact Hcur|]. rewrite <- iter_parent_shift. apply IH. lia.
Qed.

Section DataDirectoryFacts.
Variable resolve : path -> path.
Variable cwd : path.
Variable this_file : path.

(** X9.  [find_project_root] returns the nearest directory, among
    [start] as resolved and its nine nearest ancestors, that has an entry
    [data] or a project marker, and nothing when none of the ten has: the
    search climbs nine levels and no further.  What it returns is an
    ancestor of the start or the start itself. *)
Theorem find_project_root_nearest (start : path) (fs : FileSystem) :
  match find_project_root resolve start fs with
  | Some r =>
      exists k, (k < 10)%nat /\ r = Nat.iter k parent (resolve start)
                /\ r `prefix_of` resolve start
                /\ is_project_root r fs = true
                /\ forall j, (j < k)%nat ->
                             is_project_root (Nat.iter j parent (resolve start)) fs = false
  | None =>
      forall j, (j < 10)%nat -> is_project_root (Nat.iter j parent (resolve start)) fs = false
  end.
Proof.
  unfold find_project_root.
  pose proof (find_project_root_from_spec 10 (resolve start) fs) as Hspec.
  destruct (find_project_root_from 10 (resolve start) fs) as [r|]; [|exact Hspec].
  destruct Hspec as (k & Hk & -> & Hr & Hbefore).
  exists k. split; [done|]. split; [done|]. split; [apply iter_parent_prefix|done].
Qed.

(** X10.  [resolve_data_dir]: an explicit directory that exists is the
    answer, resolved; one that does not exist is passed over without an
    error, as if none had been given.  Whatever is returned is the resolved
    working directory or a path that exists (as it is, or resolved).  The one
    exception there can be is NotADirectoryError, when [/mnt/data] is a file
    and no earlier rule applied. *)
Theorem resolve_data_dir_outcome (explicit : option path) (fs : FileSystem) :
  (forall p, explicit = Some p -> path_exists p fs = true ->
     resolve_data_dir resolve cwd this_file explicit fs = Returns (resolve p))
  /\ (forall p, explicit = Some p -> path_exists p fs = false ->
        resolve_data_dir resolve cwd this_file explicit fs
        = resolve_data_dir resolve cwd this_file None fs)
  /\ (forall q, resolve_data_dir resolve cwd this_file explicit fs = Returns q ->
        q = resolve cwd
        \/ exists p, path_exists p fs = true /\ (q = p \/ q = resolve p))
  /\ (forall e, resolve_data_dir resolve cwd this_file explicit fs = Raises e ->
        e = NotADirectoryError "[Errno 20] Not a directory: '/mnt/data'"
        /\ is_Some (files fs !! ["mnt"; "data"])
        /\ ["mnt"; "data"] ∉ dirs fs).
Proof.
  split; [|split; [|split]].
  - intros p -> Hp. unfold resolve_data_dir. by rewrite Hp.
  - intros p -> Hp. unfold resolve_data_dir. by rewrite Hp.
  - intros q. unfold resolve_data_dir.
    destruct explicit as [p|].
    + destruct (path_exists p fs) eqn:Ep.
      { intros [= <-]. right. exists p. auto. }
      destruct (path_exists (path_join (parent (parent (resolve this_file))) "data") fs) eqn:Ec.
      { intros [= <-]. right. eexists. split; [exact Ec|by left]. }
      destruct (find_project_root resolve cwd fs) as [root|].
      * destruct (path_exists (path_join root "data") fs) eqn:Er.
        { intros [= <-]. right. eexists. split; [exact Er|by right]. }
        destruct (path_exists ["mnt"; "data"] fs) eqn:Em; [|intros [= <-]; by left].
        destruct (bool_decide (["mnt"; "data"] ∈ dirs fs)); [|done].
        destruct (bool_decide (iterdir ["mnt"; "data"] fs ≠ ∅)); intros [= <-];
          [right; eexists; split; [exact Em|by left]|by left].
      * destruct (path_exists ["mnt"; "data"] fs) eqn:Em; [|intros [= <-]; by left].
        destruct (bool_decide (["mnt"; "data"] ∈ dirs fs)); [|done].
        destruct (bool_decide (iterdir ["mnt"; "data"] fs ≠ ∅)); intros [= <-];
          [right; eexists; split; [exact Em|by left]|by left].
    + destruct (path_exists (path_join (parent (parent (resolve this_file))) "data") fs) eqn:Ec.
      { intros [= <-]. right. eexists. split; [exact Ec|by left]. }
      destruct (find_project_root resolve cwd fs) as [root|].
      * destruct (path_exists (path_join root "data") fs) eqn:Er.
        { intros [= <-]. right. eexists. split; [exact Er|by right]. }
        destruct (path_exists ["mnt"; "data"] fs) eqn:Em; [|intros [= <-]; by left].
        destruct (bool_decide (["mnt"; "data"] ∈ dirs fs)); [|done].
        destruct (bool_decide (iterdir ["mnt"; "data"] fs ≠ ∅)); intros [= <-];
          [right; eexists; split; [exact Em|by left]|by left].
      * destruct (path_exists ["mnt"; "data"] fs) eqn:Em; [|intros [= <-]; by left].
        destruct (bool_decide (["mnt"; "data"] ∈ dirs fs)); [|done].
        destruct (bool_decide (iterdir ["mnt"; "data"] fs ≠ ∅)); intros [= <-];
          [right; eexists; split; [exact Em|by left]|by left].
  - intros e. unfold resolve_data_dir.
    destruct (match explicit with
              | Some p => if path_exists p fs then Some (resolve p) else None
              | None => None
              end); [done|].
    destruct (path_exists (path_join (parent (parent (resolve this_file))) "data") fs); [done|].
    destruct (match find_project_root resolve cwd fs with
              | Some root =>
                  if path_exists (path_join root "data") fs
                  then Some (resolve (path_join root "data")) else None
              | None => None
              end); [done|].
    destruct (path_exists ["mnt"; "data"] fs) eqn:Em; [|done].
    destruct (bool_decide (["mnt"; "data"] ∈ dirs fs)) eqn:Ed.
    { by destruct (bool_decide (iterdir ["mnt"; "data"] fs ≠ ∅)). }
    intros [= <-]. split; [done|].
    apply bool_decide_eq_false in Ed. unfold path_exists in Em.
    rewrite bool_decide_eq_false_2 in Em by done. simpl in Em.
    apply bool_decide_eq_true in Em. done.
Qed.

End DataDirectoryFacts.


Lemma path_join_name_inj (p : path) (a b : string) : path_join p a = path_join p b -> a = b.
Proof. unfold path_join. intros Heq. apply app_inj_tail in Heq as [_ Heq]. done. Qed.

Lemma append_suffix_ne (s t : string) : t <> "" -> s +:+ t <> s.
Proof.
  intros Ht Heq. apply (f_equal String.length) in Heq. rewrite length_append in Heq.
  destruct t; [done|]. simpl in Heq. lia.
Qed.


Lemma prefixes_self (p : path) : p <> [] -> p ∈ prefixes p.
Proof.
  intros Hne. unfold prefixes. apply list_elem_of_fmap. exists (length p).
  split; [by rewrite firstn_all|].
  apply elem_of_seq. destruct p; [done|]. simpl. lia.
Qed.

Section WriterFacts.
Context `{Pandas}.
Variable mkdtemp : FileSystem -> path.


(** X12.  The summary and the bad-rows writers go through a temporary
    file in the target directory and leave none.  [write_summary_json]
    returns [summary_<date>.json], or [summary_run.json] for a summary
    without a date; [write_bad_rows_csv] on a table that is not empty
    returns [<name>.csv].  Afterwards the file returned holds what was
    given, the temporary file ([summary_....json.tmp], [.<name>.csv.tmp])
    is not there, the directory exists, and every other file is as it
    was. *)
Theorem writers_leave_no_temporary_file (output_dir : path) (fs : FileSystem) :
  (forall summary,
     let filename := "summary_" +:+ match dict_get "date" summary with
                                    | Some d => py_str d
                                    | None => "run"
                                    end +:+ ".json" in
     exists fs',
       write_summary_json summary output_dir fs = (Ok (path_join output_dir filename), fs')
       /\ files fs' !! path_join output_dir filename = Some (Json summary)
       /\ files fs' !! path_join output_dir (filename +:+ ".tmp") = None
       /\ (output_dir <> [] -> output_dir ∈ dirs fs')
       /\ (forall p, p <> path_join output_dir filename ->
                     p <> path_join output_dir (filename +:+ ".tmp") ->
                     files fs' !! p = files fs !! p))
  /\ (forall bad_df name,
        df_empty bad_df = false ->
        exists fs',
          write_bad_rows_csv (Some bad_df) name output_dir fs
          = (Ok (Some (path_join output_dir (name +:+ ".csv"))), fs')
          /\ files fs' !! path_join output_dir (name +:+ ".csv") = Some (Csv bad_df)
          /\ files fs' !! path_join output_dir ("." +:+ name +:+ ".csv.tmp") = None
          /\ (output_dir <> [] -> output_dir ∈ dirs fs')
          /\ (forall p, p <> path_join output_dir (name +:+ ".csv") ->
                        p <> path_join output_dir ("." +:+ name +:+ ".csv.tmp") ->
                        files fs' !! p = files fs !! p)).
Proof.
  assert (Hdir : forall fs0 : FileSystem, output_dir <> [] ->
                   output_dir ∈ dirs (mkdir_parents output_dir fs0)).
  { intros fs0 Hne. unfold mkdir_parents; cbn [dirs].
    apply elem_of_union. right. by apply elem_of_list_to_set, prefixes_self. }
  split.
  - intros summary filename.
    assert (Hne : path_join output_dir (filename +:+ ".tmp") <> path_join output_dir filename).
    { intros Heq%path_join_name_inj. by apply append_suffix_ne in Heq. }
    unfold write_summary_json, io_bind, io_do, io_ret, os_replace, write_file;
      cbn [files dirs].
    fold filename. rewrite lookup_insert_eq. eexists. split; [reflexivity|]. cbn [files dirs].
    split; [apply lookup_insert_eq|]. split; [|split].
    + rewrite lookup_insert_ne by done. apply lookup_delete_eq.
    + apply Hdir.
    + intros p Hp1 Hp2. rewrite lookup_insert_ne by done.
      rewrite lookup_delete_ne by done. by rewrite lookup_insert_ne.
  - intros bad_df name Hd.
    assert (Hne : path_join output_dir ("." +:+ name +:+ ".csv.tmp")
                  <> path_join output_dir (name +:+ ".csv")).
    { intros Heq%path_join_name_inj. apply (f_equal String.length) in Heq.
      rewrite !length_append in Heq. simpl in Heq. lia. }
    unfold write_bad_rows_csv. rewrite Hd.
    unfold io_bind, io_do, io_ret, os_replace, write_file; cbn [files dirs].
    rewrite lookup_insert_eq. eexists. split; [reflexivity|]. cbn [files dirs].
    split; [apply lookup_insert_eq|]. split; [|split].
    + rewrite lookup_insert_ne by done. apply lookup_delete_eq.
    + apply Hdir.
    + intros p Hp1 Hp2. rewrite lookup_insert_ne by done.
      rewrite lookup_delete_ne by done. by rewrite lookup_insert_ne.
Qed.

End WriterFacts.


Lemma not_product_label (k c : string) :
  k ∉ product_labels -> bool_decide (c ∈ product_labels) = true -> k <> c.
Proof. intros Hk Hc%bool_decide_eq_true ->. done. Qed.

Lemma has_int_cell k r : has_int k r -> exists z, cell r k = VInt z.
Proof. intros [z Hz]. exists z. unfold cell. by rewrite Hz. Qed.

Lemma keys_unique_one_match (on : string) (rs : list (gmap string value)) (z : Z) :
  Forall (has_int on) rs ->
  keys_unique (map (fun r => cell r on) rs) = true ->
  (length (List.filter (fun r => value_eqb (VInt z) (cell r on)) rs) <= 1)%nat.
Proof.
  induction 1 as [|r rs Hr Hrs IH]; cbn [map keys_unique List.filter]; [simpl; lia|].
  intros [Hex Hu]%andb_prop. apply negb_true_iff in Hex.
  destruct (has_int_cell _ _ Hr) as [x Hx]. rewrite Hx in *.
  change (value_eqb (VInt z) (VInt x)) with (z =? x)%Z.
  destruct (z =? x)%Z eqn:E; [|by apply IH].
  apply Z.eqb_eq in E. subst x.
  assert (Hnone : List.filter (fun r => value_eqb (VInt z) (cell r on)) rs = []).
  { clear -Hex. induction rs as [|r' rs IH]; cbn [map existsb List.filter] in *; [done|].
    apply orb_false_iff in Hex as [-> Hex]. by apply IH. }
  rewrite Hnone. simpl. lia.
Qed.

Lemma lookup_suffix_x (overlap : list string) (l : gmap string value) (k : string) :
  Forall (fun c => k <> c /\ k <> c +:+ "_x") overlap ->
  fold_left (fun acc c => rename_key c (c +:+ "_x") acc) overlap l !! k = l !! k.
Proof.
  intros Ho. revert l. induction Ho as [|c overlap [Hc Hc'] Ho IH]; intros l; simpl; [done|].
  rewrite IH. by apply lookup_rename_key_other.
Qed.

Lemma lookup_attach (rcols : list (string * string)) m (l : gmap string value) (k : string) :
  Forall (fun c => k <> snd c) rcols -> attach rcols m l !! k = l !! k.
Proof.
  unfold attach. intros Hr. revert l.
  induction Hr as [|c rcols Hc Hr IH]; intros l; simpl; [done|].
  rewrite IH. by apply lookup_insert_ne.
Qed.

Section EnrichMore.
Context `{Pandas}.

Lemma to_numeric_ints (col : list value) :
  Forall (fun v => exists z, v = VInt z) col -> to_numeric col = col.
Proof.
  intros Hc. unfold to_numeric.
  assert (Hall : forallb is_NInt (map to_numeric_cell col) = true).
  { induction Hc as [|v col [z ->] _ IH]; simpl; [done|]. exact IH. }
  rewrite Hall. induction Hc as [|v col [z ->] _ IH]; simpl; [done|].
  f_equal. apply IH. simpl in Hall. exact Hall.
Qed.

Lemma column_has_int k d :
  Forall (has_int k) (rows d) -> Forall (fun v => exists z, v = VInt z) (column k d).
Proof.
  intros Hd. unfold column. apply Forall_fmap. eapply Forall_impl; [exact Hd|].
  intros r Hr. by apply has_int_cell.
Qed.

(** With integer keys on both sides, a join that passed the [m:1] check
    gives one row for each left row. *)
Lemma merge_left_one_row on left right merged :
  merge_left on left right = Ok merged ->
  Forall (has_int on) (rows left) ->
  Forall (has_int on) (rows right) ->
  exists f,
    rows merged = map f (rows left)
    /\ forall l k,
         Forall (fun c => k <> c /\ k <> c +:+ "_x" /\ k <> c +:+ "_y")
           (List.filter (fun c => negb (String.eqb c on)) (columns right)) ->
         f l !! k = l !! k.
Proof.
  unfold merge_left. intros Hm Hl Hr.
  destruct (keys_unique (column on right)) eqn:Hu; [|done]. cbn [negb] in Hm.
  destruct (_ ++ _) as [|? ?]; [|done].
  injection Hm as <-. cbn [rows].
  set (others := List.filter (fun c => negb (String.eqb c on)) (columns right)).
  set (overlap := List.filter (fun c => bool_decide (c ∈ columns left)) others).
  set (rcols := map (fun c => (c, if bool_decide (c ∈ overlap) then c +:+ "_y" else c)) others).
  set (pick := fun l : gmap string value =>
                 hd None (map Some (List.filter (fun r => value_eqb (cell l on) (cell r on))
                                      (rows right)))).
  exists (fun l => attach rcols (pick l)
                     (fold_left (fun acc c => rename_key c (c +:+ "_x") acc) overlap l)).
  split.
  - induction Hl as [|l ls Hl0 Hls IH]; simpl; [done|].
    rewrite IH. f_equal. unfold join_row, pick.
    destruct (has_int_cell _ _ Hl0) as [z Hz]. rewrite Hz.
    pose proof (keys_unique_one_match on (rows right) z Hr Hu) as Hle.
    destruct (List.filter _ (rows right)) as [|m [|m' ms]]; simpl in *; [done|done|lia].
  - intros l k Hk. rewrite lookup_attach.
    + apply lookup_suffix_x. apply Forall_forall. intros c Hc.
      apply list_elem_of_In, filter_In in Hc as [Hc _]. apply list_elem_of_In in Hc.
      rewrite Forall_forall in Hk. destruct (Hk c Hc) as (? & ? & ?). done.
    + apply Forall_fmap, Forall_forall. intros c Hc. simpl.
      rewrite Forall_forall in Hk. destruct (Hk c Hc) as (? & ? & ?).
      by destruct (bool_decide _).
Qed.

Lemma lookup_fill_column_rows c fill d k :
  k <> c ->
  Forall2 (fun r r' => r' !! k = r !! k) (rows d) (rows (fill_column c fill d)).
Proof.
  intros Hk. destruct (has_column c d) eqn:E.
  - rewrite rows_fill_column by done. apply Forall2_fmap_r, Forall2_same_length_lookup_2; [done|].
    intros i r r' Hr Hr'. rewrite Hr in Hr'. injection Hr' as <-. unfold compose.
    by rewrite lookup_insert_ne.
  - unfold fill_column. rewrite E. apply Forall2_same_length_lookup_2; [done|].
    intros i r r' Hr Hr'. congruence.
Qed.

Lemma rows_coerce_key c d d' :
  coerce_key c d = Ok d' ->
  has_column c d = true
  /\ rows d' = zip_with (fun r v => <[c := v]> r) (rows d) (to_numeric (column c d)).
Proof.
  unfold coerce_key. destruct (has_column c d); [|done]. by intros [= <-].
Qed.

Lemma rows_coerce_key_int c d d' :
  coerce_key c d = Ok d' -> Forall (has_int c) (rows d) -> rows d' = rows d.
Proof.
  intros [_ ->]%rows_coerce_key Hd.
  rewrite (to_numeric_ints _ (column_has_int _ _ Hd)). unfold column.
  induction Hd as [|r rs [z Hz] _ IH]; simpl; [done|]. rewrite IH. f_equal.
  unfold cell. rewrite Hz. simpl. by apply insert_id.
Qed.

(** What [enrich_with_products] joins: the order rows with their coerced
    key, and the product view. *)
Lemma enrich_with_products_steps o p e :
  enrich_with_products o p = Ok e ->
  exists left right merged,
    coerce_key "product_id" o = Ok left
    /\ coerce_key "product_id" p = Ok right
    /\ merge_left "product_id" left
         {| columns := ["product_id"; "product_name"; "category"; "product_price"];
            rows := map product_view (rows right) |} = Ok merged
    /\ e = fill_column "category" (VStr "unknown_category")
             (fill_column "product_name" (VStr "unknown_product") merged).
Proof.
  unfold enrich_with_products.
  destruct (coerce_key "product_id" o) as [left|?] eqn:E1; [|done]. cbn [rbind].
  destruct (coerce_key "product_id" p) as [right|?] eqn:E2; [|done]. cbn [rbind].
  destruct (df_project _ right) as [proj|?] eqn:E3; [|done]. cbn [rbind].
  assert (Hview : rename "price" "product_price" proj
                  = {| columns := ["product_id"; "product_name"; "category"; "product_price"];
                       rows := map product_view (rows right) |}).
  { unfold df_project in E3. destruct (List.filter _ _) as [|? ?].
    2: { by destruct (_ =? _)%nat. }
    injection E3 as <-.
    unfold rename; simpl. f_equal. by rewrite map_map. }
  rewrite Hview.
  destruct (merge_left _ _ _) as [merged|?] eqn:E4; [|done]. cbn [rbind].
  intros [= <-]. by exists left, right, merged.
Qed.

(** With integer keys on both sides, the rows of the result are those of
    the orders, one for one, up to the product labels. *)
Lemma enrich_int_keys (o p e : DataFrame) :
  enrich_with_products o p = Ok e ->
  Forall (has_int "product_id") (rows o) ->
  Forall (has_int "product_id") (rows p) ->
  Forall2 (fun r e' => forall k, k ∉ product_labels -> e' !! k = r !! k) (rows o) (rows e).
Proof.
  intros He Ho Hp.
  apply enrich_with_products_steps in He as (left & right & merged & E1 & E2 & E4 & ->).
  pose proof (rows_coerce_key_int _ _ _ E1 Ho) as Hleft.
  pose proof (rows_coerce_key_int _ _ _ E2 Hp) as Hright.
  destruct (merge_left_one_row _ _ _ _ E4) as (f & Hrows & Hf).
  { by rewrite Hleft. }
  { cbn [rows]. rewrite Hright. apply Forall_fmap. eapply Forall_impl; [exact Hp|].
    intros r [z Hz]. exists z.
    destruct (product_view_cells r) as [Hid _]. unfold cell in Hid. rewrite Hz in Hid.
    destruct (product_view r !! "product_id") as [v|]; simpl in Hid; [by subst|].
    discriminate Hid. }
  assert (HF : Forall2 (fun r e' => forall k, k ∉ product_labels -> e' !! k = r !! k)
                 (rows o) (rows (fill_column "category" (VStr "unknown_category")
                                   (fill_column "product_name" (VStr "unknown_product")
                                      merged)))).
  { apply Forall2_same_length_lookup_2.
    - pose proof (Forall2_length _ _ _ (lookup_fill_column_rows "category"
        (VStr "unknown_category") (fill_column "product_name" (VStr "unknown_product") merged)
        "order_id" ltac:(done))) as H1.
      pose proof (Forall2_length _ _ _ (lookup_fill_column_rows "product_name"
        (VStr "unknown_product") merged "order_id" ltac:(done))) as H2.
      rewrite <- H1, <- H2, Hrows, length_map. by rewrite Hleft.
    - intros i r e' Hr He' k Hk.
      assert (k <> "category" /\ k <> "product_name") as [Hkc Hkn].
      { split; by apply (not_product_label _ _ Hk). }
      pose proof (lookup_fill_column_rows "category" (VStr "unknown_category")
                    (fill_column "product_name" (VStr "unknown_product") merged) k Hkc) as H1.
      pose proof (lookup_fill_column_rows "product_name" (VStr "unknown_product") merged
                    k Hkn) as H2.
      destruct (Forall2_lookup_r _ _ _ _ _ H1 He') as (e1 & He1 & ->).
      destruct (Forall2_lookup_r _ _ _ _ _ H2 He1) as (e2 & He2 & ->).
      rewrite Hrows, list_lookup_fmap, Hleft, Hr in He2. injection He2 as <-.
      apply Hf. cbn [columns].
      change (List.filter _ _) with ["product_name"; "category"; "product_price"].
      repeat (constructor; [repeat split; by apply (not_product_label _ _ Hk)|]).
      constructor. }
  exact HF.
Qed.

(** X13.  With integer product ids in both tables, whenever
    [enrich_with_products] returns it returns one row for each order row, in
    the order of the orders: the join neither drops nor repeats an order.
    Each row has the cells of its order, [product_id] among them, under
    every label but the product columns and their suffixed forms. *)
Theorem enrich_one_row_per_order (o p e : DataFrame) :
  enrich_with_products o p = Ok e ->
  Forall (has_int "product_id") (rows o) ->
  Forall (has_int "product_id") (rows p) ->
  len e = len o
  /\ Forall2 (fun r e' => forall k, k ∉ product_labels -> e' !! k = r !! k) (rows o) (rows e).
Proof.
  intros He Ho Hp. pose proof (enrich_int_keys o p e He Ho Hp) as HF.
  split; [|exact HF]. unfold len. symmetry. by eapply Forall2_length.
Qed.

(** X14.  A product table in which two rows have the same [product_id]
    makes [enrich_with_products] raise MergeError, whatever the orders: the
    join is checked to be many-to-one before any row is joined. *)
Theorem enrich_duplicate_product_ids (o p : DataFrame) :
  has_column "product_id" o = true ->
  has_column "product_id" p = true ->
  has_column "product_name" p = true ->
  has_column "category" p = true ->
  has_column "price" p = true ->
  keys_unique (to_numeric (column "product_id" p)) = false ->
  enrich_with_products o p
  = Raise (MergeError "Merge keys are not unique in right dataset; not a many-to-one merge").
Proof.
  intros Ho Hp Hpn Hpc Hpp Hu.
  unfold enrich_with_products. rewrite (coerce_key_Ok _ _ Ho), (coerce_key_Ok _ _ Hp).
  cbn [rbind].
  set (right := setitem "product_id" (to_numeric (column "product_id" p)) p).
  assert (Hrc : columns right = columns p) by (by apply columns_setitem_has).
  assert (Hproj : exists proj,
             df_project ["product_id"; "product_name"; "category"; "price"] right = Ok proj
             /\ rows proj = map (fun r => list_to_map
                                    (map (fun c => (c, cell r c))
                                       ["product_id"; "product_name"; "category"; "price"]))
                                 (rows right)).
  { unfold df_project. cbn [List.filter].
    assert (forall c, has_column c p = true -> has_column c right = true) as Hhas.
    { intros c Hc. unfold has_column. rewrite Hrc. exact Hc. }
    rewrite (Hhas _ Hp), (Hhas _ Hpn), (Hhas _ Hpc), (Hhas _ Hpp). by eexists. }
  destruct Hproj as (proj & -> & Hrows). cbn [rbind].
  assert (Hkeys : column "product_id" (rename "price" "product_price" proj)
                  = to_numeric (column "product_id" p)).
  { unfold column at 1. rewrite rows_rename, Hrows, !map_map.
    transitivity (column "product_id" right).
    - unfold column. apply map_ext. intros r.
      change (cell (product_view r) "product_id" = cell r "product_id").
      by destruct (product_view_cells r) as [-> _].
    - apply column_setitem_same. rewrite length_to_numeric. unfold column.
      by rewrite length_map. }
  unfold merge_left. rewrite Hkeys, Hu. done.
Qed.

End EnrichMore.


Lemma has_int_insert k c v r : c <> k -> has_int k r -> has_int k (<[c := v]> r).
Proof. intros Hc [z Hz]. exists z. by rewrite lookup_insert_ne. Qed.

Lemma has_int_rename_key k old new r :
  k <> old -> k <> new -> has_int k r -> has_int k (rename_key old new r).
Proof. intros Ho Hn [z Hz]. exists z. by rewrite lookup_rename_key_other. Qed.

(** A frame whose rows have a timestamp under one of its labels yields
    its rows as they are. *)
Lemma validate_dated_rows (P : gmap string value -> Prop) df (schema : Schema) :
  has_column "order_date" df = true ->
  Forall dated (rows df) ->
  Forall P (rows df) -> Forall P (rows (validate_dataframe df schema).1).
Proof.
  intros Hc Hd HP. apply validate_rows_subset; [|exact HP].
  intros r Hr. destruct (rows df) as [|r0 rs] eqn:Er.
  - rewrite upcast_row_id; [done|]. unfold values_dtype. by rewrite Er.
  - rewrite upcast_row_id; [done|].
    rewrite (values_dtype_object df r0 "order_date"); [done| | |].
    + rewrite Er. by left.
    + unfold has_column in Hc. by apply bool_decide_eq_true in Hc.
    + apply Forall_cons in Hd as [[t Ht] _]. unfold cell. by rewrite Ht.
Qed.

Section Counts.
Context `{Pandas}.

Lemma parse_good_has_int k df fmt good bad :
  k <> "order_date" -> k <> "_parse_error" ->
  parse_date_column df "order_date" fmt = Ok (good, bad) ->
  Forall (has_int k) (rows df) -> Forall (has_int k) (rows good).
Proof.
  intros Hk1 Hk2 Hp Hdf. apply parse_date_column_shape in Hp as Hs. destruct Hs as (Hc & _).
  destruct (parse_date_column_rows df "order_date" fmt Hc)
    as (good' & bad' & gs & gr & Hp' & Hg & HS & HR & HB).
  rewrite Hp in Hp'. injection Hp' as <- <-. rewrite Hg.
  rewrite Forall_forall in Hdf. apply Forall_app. split.
  - apply Forall_forall. intros g Hg'.
    apply list_elem_of_lookup in Hg' as [i Hi].
    destruct (Forall2_lookup_r _ _ _ _ _ HS Hi) as (j & _ & r & t & Hr & _ & ->).
    apply has_int_insert; [done|]. apply Hdf. by eapply list_elem_of_lookup_2.
  - apply Forall_forall. intros g Hg'.
    apply list_elem_of_lookup in Hg' as [i Hi].
    destruct (Forall2_lookup_r _ _ _ _ _ HR Hi) as (j & _ & k' & r & t & _ & Hr & _ & ->).
    apply has_int_insert; [done|]. apply has_int_insert; [done|].
    apply Hdf. by eapply list_elem_of_lookup_2.
Qed.

(** [add_order_total] touches the quantity and price labels only. *)
Lemma add_order_total_Forall (P : gmap string value -> Prop) (df out : DataFrame) :
  (forall c v r, c ∈ ["qty"; "unit_price"; "order_total"] -> P r -> P (<[c := v]> r)) ->
  (forall c r, String.eqb (lower c) "qty" = true -> P r -> P (rename_key c "qty" r)) ->
  (forall c r, bool_decide (lower c ∈ ["unitprice"; "unit_price"; "price"]) = true ->
               P r -> P (rename_key c "unit_price" r)) ->
  add_order_total df = Ok out ->
  Forall P (rows df) -> Forall P (rows out).
Proof.
  intros Hins Hq Hu. unfold add_order_total.
  set (df0 := if negb (has_column "qty" df) then _ else df).
  set (df0' := if negb (has_column "unit_price" df0) then _ else df0).
  intros Hout Hd.
  assert (H0 : Forall P (rows df0')).
  { assert (H1 : Forall P (rows df0)).
    { unfold df0. destruct (negb (has_column "qty" df)); [|done].
      by apply rename_matching_rows. }
    unfold df0'. destruct (negb (has_column "unit_price" df0)); [|done].
    by apply rename_matching_rows. }
  clearbody df0'. clear df0.
  destruct (coerce_column "qty" _ _ _ df0') as [df1|e] eqn:E1; [|done]. cbn [rbind] in Hout.
  destruct (coerce_column "unit_price" _ _ _ df1) as [df2|e] eqn:E2; [|done].
  cbn [rbind] in Hout. injection Hout as <-.
  apply coerce_column_Ok in E1 as (q' & -> & Hq'); [|apply length_map_result].
  apply coerce_column_Ok in E2 as (p' & -> & Hp'); [|apply length_map_result].
  repeat apply rows_setitem_Forall; try done.
  all: intros r v Hr; apply Hins; [|done]; set_solver.
Qed.

Lemma add_order_total_has_int (df out : DataFrame) :
  add_order_total df = Ok out ->
  Forall (has_int "product_id") (rows df) -> Forall (has_int "product_id") (rows out).
Proof.
  apply add_order_total_Forall.
  - intros c v r Hc Hr. apply has_int_insert; [|done]. intros ->.
    apply (bool_decide_pack _) in Hc. by vm_compute in Hc.
  - intros c r Hc Hr. apply has_int_rename_key; [|done|done]. intros <-. by vm_compute in Hc.
  - intros c r Hc Hr. apply has_int_rename_key; [|done|done]. intros <-. by vm_compute in Hc.
Qed.

End Counts.

Section RunCounts.
Context `{Pandas}.
Variable mkdtemp : FileSystem -> path.
Variable OrderSchema : Schema.

(** What the summary of a run that returned counts. *)
Lemma run_for_date_summary date_str data data_path out_base dry fs fs' s name orders rest :
  order_candidates date_str data = (name, orders) :: rest ->
  run_for_date mkdtemp OrderSchema date_str data data_path out_base dry fs = (Ok s, fs') ->
  exists products good bad,
    read_products data data_path = Ok (products, empty_frame)
    /\ parse_date_column orders "order_date" (Some "%Y-%m-%d") = Ok (good, bad)
    /\ s_bad_rows s = count_bad (combine_bad_rows bad (validate_dataframe good OrderSchema).2)
    /\ ((df_empty (validate_dataframe good OrderSchema).1 = true /\ s_rows s = O)
        \/ (exists enriched,
              transform (validate_dataframe good OrderSchema).1 products = Ok enriched
              /\ s_rows s = len enriched)).
Proof.
  intros Hcand. unfold run_for_date.
  destruct (read_products data data_path) as [[products_df products_bad]|e] eqn:Eprod.
  2:{ by rewrite (io_bind_Raise _ _ _ e fs). }
  pose proof (read_products_bad_empty _ _ _ _ Eprod) as ->.
  rewrite (io_bind_Ok _ _ _ (products_df, empty_frame) fs) by done.
  rewrite (io_bind_Ok _ _ _ tt fs) by done.
  pose proof (read_orders_for_date_candidate date_str data data_path name orders rest Hcand)
    as Hread.
  destruct (parse_date_column orders "order_date" (Some "%Y-%m-%d")) as [[pg pb]|e] eqn:Eord.
  2:{ rewrite (io_bind_Raise _ _ _ e fs); [done|]. unfold io_lift. by rewrite Hread. }
  rewrite (io_bind_Ok _ _ _ (pg, pb) fs) by (unfold io_lift; by rewrite Hread).
  destruct (validate_dataframe pg OrderSchema) as [valid vbad] eqn:Eval. cbn [fst snd].
  intros Hrun. exists products_df, pg, pb. rewrite Eval. cbn [fst snd].
  split; [done|]. split; [done|].
  destruct (df_empty valid) eqn:Ev.
  - destruct dry; cbn [negb] in Hrun.
    + rewrite (io_bind_Ok _ _ _ tt fs) in Hrun by done. injection Hrun as <- _.
      split; [done|]. by left.
    + destruct (flush_bad_rows_total (combine_bad_rows pb vbad) date_str out_base fs)
        as (fs1 & Hf).
      rewrite (io_bind_Ok _ _ _ _ _ Hf) in Hrun. injection Hrun as <- _.
      split; [done|]. by left.
  - destruct (transform valid products_df) as [enriched|e] eqn:Et.
    2:{ by rewrite (io_bind_Raise _ _ _ e fs) in Hrun. }
    rewrite (io_bind_Ok _ _ _ enriched fs) in Hrun by done.
    destruct dry; cbn [negb] in Hrun.
    + rewrite (io_bind_Ok _ _ _ None fs) in Hrun by done. injection Hrun as <- _.
      split; [done|]. right. by exists enriched.
    + destruct (write_outputs_total mkdtemp enriched (len enriched) (total_revenue_of enriched)
                  (combine_bad_rows pb vbad) date_str out_base fs) as (p & fs1 & Hw).
      { apply transform_rows in Et as [Hl _]. apply df_empty_false_rows in Ev.
        destruct (rows valid); [done|]. destruct (rows enriched); [simpl in Hl; lia|done]. }
      rewrite (io_bind_Ok _ _ _ (Some p) fs1) in Hrun
        by (by rewrite (io_bind_Ok _ _ _ _ _ Hw)).
      injection Hrun as <- _. split; [done|]. right. by exists enriched.
Qed.

(** X16.  No order is lost on the way: when [run_for_date] returns, the
    rows it processed and the rows it quarantined are together at least
    the rows of the order file it read; and when the product ids of that
    file and of [products.csv] are all integers, they are exactly the
    rows of the file, [rows + bad_rows = len(file)], in a dry run as in
    a real one. *)
Theorem run_for_date_counts_every_order (date_str : string) (data : DataDir)
    (data_path : string) (out_base : path) (dry : bool) (fs fs' : FileSystem) (s : Summary)
    (name : string) (orders : DataFrame) (rest : DataDir) :
  order_candidates date_str data = (name, orders) :: rest ->
  run_for_date mkdtemp OrderSchema date_str data data_path out_base dry fs = (Ok s, fs') ->
  (len orders <= s_rows s + s_bad_rows s)%nat
  /\ (Forall (has_int "product_id") (rows orders) ->
      (forall f, List.find (fun f => String.eqb (fst f) "products.csv") data = Some f ->
                 Forall (has_int "product_id") (rows (snd f))) ->
      (s_rows s + s_bad_rows s = len orders)%nat).
Proof.
  intros Hcand Hrun.
  destruct (run_for_date_summary _ _ _ _ _ _ _ _ _ _ _ Hcand Hrun)
    as (products & good & bad & Hprod & Hparse & Hbad & Hrows).
  apply parse_date_column_shape in Hparse as Hshape.
  destruct Hshape as (Hc & Hlen & Hgc & Hbc).
  destruct (validate_dataframe_shape good OrderSchema (has_column_columns _ _ Hgc))
    as (Hvlen & Hv0 & Hb0).
  destruct (count_bad_combine bad (validate_dataframe good OrderSchema).2)
    as (Hcount & _ & _); [|done|].
  { intros He. by apply df_empty_true_len, has_column_columns with "order_date". }
  rewrite Hcount in Hbad.
  destruct Hrows as [[He Hs]|(enriched & Ht & Hs)].
  - specialize (Hv0 He). split; [lia|]. intros _ _. lia.
  - pose proof (transform_rows _ _ _ Ht) as [Hge _]. unfold len in *.
    split; [lia|]. intros Ho Hp.
    assert (Hvalid : Forall (has_int "product_id")
                       (rows (validate_dataframe good OrderSchema).1)).
    { apply validate_dated_rows; [done|by eapply parse_good_dated|].
      by eapply parse_good_has_int. }
    unfold transform in Ht.
    destruct (add_order_total _) as [d1|?] eqn:E1; [|done]. cbn [rbind] in Ht.
    destruct (enrich_with_products d1 products) as [d2|?] eqn:E2; [|done].
    cbn [rbind] in Ht.
    pose proof (add_order_total_has_int _ _ E1 Hvalid) as Hd1.
    apply add_order_total_preserves in E1 as [Hl1 _].
    apply add_order_date_iso_dated in Ht as [Hl3 _].
    assert (Hprods : Forall (has_int "product_id") (rows products)).
    { unfold read_products in Hprod.
      destruct (List.find _ data) as [f|] eqn:Ef; [|done].
      injection Hprod as <-. by apply Hp. }
    pose proof (Forall2_length _ _ _ (enrich_int_keys _ _ _ E2 Hd1 Hprods)) as Hl2.
    lia.
Qed.

End RunCounts.


Lemma validate_rows_filter (schema : Schema) (rs : list (gmap string value)) :
  validate_rows schema rs
  = (List.filter (fun r => bool_decide (schema r = None)) rs, omap (rejected_by schema) rs).
Proof.
  induction rs as [|r rs IH]; [done|]. cbn [validate_rows List.filter].
  rewrite IH. clear IH.
  assert (Hcons : omap (rejected_by schema) (r :: rs)
                  = match rejected_by schema r with
                    | Some b => b :: omap (rejected_by schema) rs
                    | None => omap (rejected_by schema) rs
                    end) by done.
  assert (Hr : rejected_by schema r = (fun err => <["_error" := VStr err]> r) <$> schema r)
    by done.
  rewrite Hcons, Hr. by destruct (schema r) as [err|].
Qed.

(** X19.  [validate_dataframe] is a filter by the schema, on the rows as
    [iterrows] yields them: the valid table holds the rows the schema
    accepts and the invalid table the rows it rejects, each with the
    message of its rejection under [_error], both in the order of the
    input.  A side with no row is a frame with no column; otherwise the
    valid table has the labels of the input, and the invalid table these
    and [_error]. *)
Theorem validate_dataframe_filters (df : DataFrame) (schema : Schema) :
  rows (validate_dataframe df schema).1
  = List.filter (fun r => bool_decide (schema r = None)) (iterrows df)
  /\ rows (validate_dataframe df schema).2 = omap (rejected_by schema) (iterrows df)
  /\ columns (validate_dataframe df schema).1
     = match rows (validate_dataframe df schema).1 with
       | [] => []
       | _ => columns df
       end
  /\ columns (validate_dataframe df schema).2
     = match rows (validate_dataframe df schema).2 with
       | [] => []
       | _ => if has_column "_error" df then columns df else columns df ++ ["_error"]
       end.
Proof.
  unfold validate_dataframe. rewrite validate_rows_filter. cbv beta iota. cbn [fst snd].
  rewrite !rows_frame_of_records. split; [done|]. split; [done|].
  split.
  - by destruct (List.filter _ _).
  - by destruct (omap _ _).
Qed.

Section CopyFacts.
Context `{Pandas}.

(** X17.  [add_order_total] and [add_order_date_iso] work on a copy: run
    on the object [r] of a store, each returns an object that was not in
    the store, holding the table the function computes from the table of
    [r] (or raises what it raises), and leaves every object of the store,
    [r] among them, as it was. *)
Theorem transforms_copy_their_input (st : list DataFrame) (r : Obj.ref) (d : DataFrame)
    (date_col out_col : string) :
  st !! r = Some d ->
  returns_new st (Obj.add_order_total r) st (add_order_total d)
  /\ returns_new st (Obj.add_order_date_iso r date_col out_col) st
       (add_order_date_iso d date_col out_col).
Proof.
  intros Hd. split.
  - by apply obj_add_order_total.
  - by apply obj_add_order_date_iso.
Qed.





End CopyFacts.


Lemma normalize_date_str_no_dash_witness :
  all_digits "20251025" = true /\ _normalize_date_str "20251025" = "20251025".
Proof.
  split; [reflexivity|].
  destruct (normalize_date_str_no_dash "20251025") as (_ & _ & _ & Hsame).
  exact (Hsame eq_refl).
Defined.

Lemma normalize_iso_date_witness :
  strftime_ymd demo_day = "2025-10-25"
  /\ is_yyyymmdd (_normalize_date_str (strftime_ymd demo_day)) = true.
Proof.
  split; [reflexivity|].
  destruct (normalize_iso_date demo_day) as [_ Hform].
  apply Hform; simpl; lia.
Defined.

Lemma main_runs_every_date_witness :
  strptime (_normalize_date_str (start_date demo_args)) = inl 739549%Z
  /\ strptime (end_arg demo_args) = inl 739550%Z
  /\ exists fs',
       main demo_mkdtemp demo_schema demo_data "data" ["output"] demo_args fresh_disk
       = (Returns
            (map (fun d => (strftime d,
                            entry_of (fst (run_for_date demo_mkdtemp demo_schema (strftime d)
                                             demo_data "data" ["output"] true fresh_disk))))
                 [739549%Z; 739550%Z]), fs').
Proof.
  assert (Ha : strptime (_normalize_date_str (start_date demo_args)) = inl 739549%Z)
    by (vm_compute; reflexivity).
  assert (Hb : strptime (end_arg demo_args) = inl 739550%Z) by (vm_compute; reflexivity).
  split; [exact Ha|]. split; [exact Hb|].
  apply (main_runs_every_date demo_mkdtemp demo_schema demo_data "data" ["output"] demo_args
           fresh_disk 739549 739550 Ha Hb).
  - reflexivity.
  - intros d d' Hd Hd' Heq.
    assert (Hcase : (d = 739549 \/ d = 739550)%Z) by lia.
    assert (Hcase' : (d' = 739549 \/ d' = 739550)%Z) by lia.
    destruct Hcase as [-> | ->], Hcase' as [-> | ->]; try reflexivity;
      vm_compute in Heq; discriminate Heq.
Defined.

Lemma main_own_failures_witness :
  main demo_mkdtemp demo_schema demo_data "data" ["output"] bad_args fresh_disk
  = (Raises (ValueError "time data 'garbage' does not match format '%Y%m%d'"), fresh_disk).
Proof.
  destruct (main_own_failures demo_mkdtemp demo_schema demo_data "data" ["output"] bad_args
              fresh_disk) as [Hstart _].
  apply Hstart. vm_compute. reflexivity.
Defined.

Lemma main_dry_run_writes_nothing_witness :
  dry_run demo_args = true
  /\ snd (main demo_mkdtemp demo_schema demo_data "data" ["output"] demo_args fresh_disk)
     = fresh_disk.
Proof.
  split; [reflexivity|].
  apply (main_dry_run_writes_nothing demo_mkdtemp demo_schema demo_data "data" ["output"]
           demo_args fresh_disk).
  reflexivity.
Defined.

Lemma parse_error_tags_witness :
  has_column "order_date" demo_orders = true
  /\ exists good bad,
       parse_date_column demo_orders "order_date" (Some "%Y-%m-%d") = Ok (good, bad)
       /\ Forall (fun b => b !! "_parse_error" = Some (VStr "Flexible parsing also failed"))
            (rows bad)
       /\ Forall (fun g => exists t, g !! "order_date" = Some (VTime t)) (rows good).
Proof.
  split; [reflexivity|].
  destruct (parse_error_tags demo_orders "order_date" (Some "%Y-%m-%d") eq_refl)
    as (good & bad & gs & gr & Hp & _ & _ & _ & Hbad & Hgood & _); [discriminate|].
  exists good, bad. split; [exact Hp|]. split; [exact Hbad|exact Hgood].
Defined.

Lemma parse_clean_column_witness :
  has_column "order_date" clean_orders = true
  /\ strict_parsed clean_orders "order_date" (Some "%Y-%m-%d")
     = [Some (mkTimestamp 2025 10 27 0); Some (mkTimestamp 2025 10 27 0)]
  /\ exists good,
       parse_date_column clean_orders "order_date" (Some "%Y-%m-%d")
       = Ok (good, {| columns := columns clean_orders; rows := [] |})
       /\ len good = len clean_orders.
Proof.
  assert (Hs : strict_parsed clean_orders "order_date" (Some "%Y-%m-%d")
               = [Some (mkTimestamp 2025 10 27 0); Some (mkTimestamp 2025 10 27 0)])
    by (vm_compute; reflexivity).
  split; [reflexivity|]. split; [exact Hs|].
  destruct (parse_clean_column clean_orders "order_date" (Some "%Y-%m-%d") eq_refl)
    as (Hp & _ & Hlen).
  { rewrite Hs. repeat constructor. }
  eexists. split; [exact Hp|exact Hlen].
Defined.

Lemma read_inventory_outcomes_witness :
  List.find (fun f => String.eqb (fst f) "inventory.csv") demo_data = None
  /\ read_inventory demo_data "data"
     = Raise (FileNotFoundError "inventory.csv not found in data").
Proof.
  split; [reflexivity|].
  destruct (read_inventory_outcomes demo_data "data") as [Hnone _].
  exact (Hnone eq_refl).
Defined.

Lemma resolve_data_dir_outcome_witness :
  path_exists ["srv"; "data"] data_disk = true
  /\ resolve_data_dir (fun p => p) ["home"] ["app"; "quickshop_etl"; "readers.py"]
       (Some ["srv"; "data"]) data_disk
     = Returns ["srv"; "data"].
Proof.
  assert (He : path_exists ["srv"; "data"] data_disk = true) by (vm_compute; reflexivity).
  split; [exact He|].
  destruct (resolve_data_dir_outcome (fun p => p) ["home"]
              ["app"; "quickshop_etl"; "readers.py"] (Some ["srv"; "data"]) data_disk)
    as [Hexplicit _].
  exact (Hexplicit ["srv"; "data"] eq_refl He).
Defined.


Lemma writers_leave_no_temporary_file_witness :
  df_empty demo_rejected_orders = false
  /\ exists fs',
       write_bad_rows_csv (Some demo_rejected_orders) "orders-20251026-bad"
         ["output"; "bad_rows"] fresh_disk
       = (Ok (Some ["output"; "bad_rows"; "orders-20251026-bad.csv"]), fs')
       /\ files fs' !! ["output"; "bad_rows"; "orders-20251026-bad.csv"]
          = Some (Csv demo_rejected_orders)
       /\ files fs' !! ["output"; "bad_rows"; ".orders-20251026-bad.csv.tmp"] = None.
Proof.
  split; [reflexivity|].
  destruct (writers_leave_no_temporary_file (H := demo) ["output"; "bad_rows"] fresh_disk)
    as [_ Hcsv].
  destruct (Hcsv demo_rejected_orders "orders-20251026-bad" eq_refl)
    as (fs' & Hw & Hfile & Htmp & _).
  exists fs'. split; [exact Hw|]. split; [exact Hfile|exact Htmp].
Defined.

Lemma enrich_one_row_per_order_witness :
  enrich_with_products demo_orders demo_products
  = Ok (ok_or empty_frame (enrich_with_products demo_orders demo_products))
  /\ len (ok_or empty_frame (enrich_with_products demo_orders demo_products)) = 5%nat.
Proof.
  assert (He : enrich_with_products demo_orders demo_products
               = Ok (ok_or empty_frame (enrich_with_products demo_orders demo_products)))
    by (vm_compute; reflexivity).
  split; [exact He|].
  destruct (enrich_one_row_per_order demo_orders demo_products _ He) as [Hlen _].
  - repeat constructor; eexists; reflexivity.
  - repeat constructor; eexists; reflexivity.
  - exact Hlen.
Defined.

Lemma enrich_duplicate_product_ids_witness :
  column "product_id" demo_duplicate_products = [VInt 1001; VInt 1001]
  /\ enrich_with_products demo_orders demo_duplicate_products
     = Raise (MergeError "Merge keys are not unique in right dataset; not a many-to-one merge").
Proof.
  split; [reflexivity|].
  apply (enrich_duplicate_product_ids demo_orders demo_duplicate_products); reflexivity.
Defined.

Lemma run_for_date_fails_before_writing_witness :
  run_for_date demo_mkdtemp demo_schema "20250101" demo_data "data" ["output"] false
    fresh_disk
  = (Raise (FileNotFoundError "No order file for date 20250101 in data"), fresh_disk)
  /\ forall dry fs,
       run_for_date demo_mkdtemp demo_schema "20250101" demo_data "data" ["output"] dry fs
       = (Raise (FileNotFoundError "No order file for date 20250101 in data"), fs).
Proof.
  assert (Hrun : run_for_date demo_mkdtemp demo_schema "20250101" demo_data "data" ["output"]
                   false fresh_disk
                 = (Raise (FileNotFoundError "No order file for date 20250101 in data"),
                    fresh_disk)) by (vm_compute; reflexivity).
  split; [exact Hrun|].
  destruct (run_for_date_fails_before_writing demo_mkdtemp demo_schema "20250101" demo_data
              "data" ["output"] false fresh_disk fresh_disk _ Hrun) as [_ Hall].
  exact Hall.
Defined.

Lemma run_for_date_counts_every_order_witness :
  order_candidates "20251025" demo_data = [("orders_20251025.csv", demo_orders)]
  /\ demo_dry_run = (Ok demo_dry_summary, fresh_disk)
  /\ (s_rows demo_dry_summary + s_bad_rows demo_dry_summary = len demo_orders)%nat.
Proof.
  assert (Hc : order_candidates "20251025" demo_data
               = [("orders_20251025.csv", demo_orders)]) by reflexivity.
  assert (Hrun : demo_dry_run = (Ok demo_dry_summary, fresh_disk))
    by (vm_compute; reflexivity).
  split; [exact Hc|]. split; [exact Hrun|].
  destruct (run_for_date_counts_every_order demo_mkdtemp demo_schema "20251025" demo_data
              "data" ["output"] true fresh_disk fresh_disk demo_dry_summary _ _ _ Hc Hrun)
    as [_ Heq].
  apply Heq.
  - repeat constructor; eexists; reflexivity.
  - intros f Hf. vm_compute in Hf. injection Hf as <-.
    repeat constructor; eexists; reflexivity.
Defined.

Lemma transforms_copy_their_input_witness :
  [demo_orders] !! 0%nat = Some demo_orders
  /\ returns_new [demo_orders] (Obj.add_order_total 0%nat) [demo_orders]
       (add_order_total demo_orders).
Proof.
  split; [reflexivity|].
  destruct (transforms_copy_their_input [demo_orders] 0%nat demo_orders "order_date"
              "order_date_iso" eq_refl) as [Htotal _].
  exact Htotal.
Defined.


